(** * Weather-app: the forecast component, embedded and verified

    Shallow embedding of [src/WeatherComponent.jsx]: the region registry, the
    endpoint builder, the fetcher, the two field normalisers, the two
    extraction functions and the state transitions of the component.

    The payload is whatever [response.json()] produced, so it is modelled as
    an arbitrary JSON value (plus [undefined], which property reads
    produce).  Property reads, optional chaining, truthiness, string
    conversion and the [TypeError]s of reads on [null]/[undefined] follow
    ECMAScript.  JavaScript strings are sequences of UTF-16 code units.
    A JSON number is modelled by its exact value, a rational, or an
    infinity.  What the engine decides and the component cannot observe
    otherwise (the offsets of the local time zone, the parsing of date
    strings outside the ISO format, the numeric reading of a string, the
    digits of a number that is not a small integer) is collected in the
    class [Host].  [console.error] only writes diagnostics and is not
    modelled. *)

From Stdlib Require Import ZArith NArith QArith List String Ascii Bool Lia
  DecimalString.
Import ListNotations.

Local Open Scope Z_scope.

(** ** JavaScript strings *)

Module JsString.

(** A string is a list of UTF-16 code units. *)
Definition code_unit := N.
Definition jsstring := list code_unit.

(** Decoding of the UTF-8 bytes of a literal of this file into code
    points: [need] continuation bytes are still expected, [acc] holds the
    bits read so far. *)
Fixpoint decode_utf8 (need : nat) (acc : N) (bs : list N) : list N :=
  match bs with
  | [] => []
  | b :: bs' =>
      match need with
      | O =>
          if (b <? 128)%N then b :: decode_utf8 0 0%N bs'
          else if (b <? 224)%N then decode_utf8 1 (b - 192)%N bs'
          else if (b <? 240)%N then decode_utf8 2 (b - 224)%N bs'
          else decode_utf8 3 (b - 240)%N bs'
      | S O => (acc * 64 + (b - 128))%N :: decode_utf8 0 0%N bs'
      | S k => decode_utf8 k (acc * 64 + (b - 128))%N bs'
      end
  end.

(** A code point as one code unit, or as a surrogate pair. *)
Definition utf16_units (cp : N) : list code_unit :=
  if (cp <? 65536)%N then [cp]
  else [(55296 + (cp - 65536) / 1024)%N; (56320 + (cp - 65536) mod 1024)%N].

(** The JavaScript string a literal denotes. *)
Definition js (s : string) : jsstring :=
  flat_map utf16_units
    (decode_utf8 0 0%N (map N_of_ascii (list_ascii_of_string s))).

Definition unit_of (a : ascii) : code_unit := N_of_ascii a.

Fixpoint eqb (s t : jsstring) : bool :=
  match s, t with
  | [], [] => true
  | c :: s', d :: t' => (c =? d)%N && eqb s' t'
  | _, _ => false
  end.

Definition is_empty (s : jsstring) : bool :=
  match s with [] => true | _ => false end.

(** [prefix p s]: [s] starts with [p]. *)
Fixpoint prefix (p s : jsstring) : bool :=
  match p, s with
  | [], _ => true
  | c :: p', d :: s' => (c =? d)%N && prefix p' s'
  | _ :: _, [] => false
  end.

(** [String.prototype.includes]: [sub] occurs in [s] as a substring. *)
Fixpoint includes (s sub : jsstring) : bool :=
  prefix sub s ||
  match s with
  | [] => false
  | _ :: s' => includes s' sub
  end.

(** [String.prototype.split] with a separator of one code unit: the
    pieces between the occurrences of [sep], never an empty list. *)
Fixpoint split (sep : code_unit) (s : jsstring) : list jsstring :=
  match s with
  | [] => [[]]
  | c :: s' =>
      if (c =? sep)%N then [] :: split sep s'
      else
        match split sep s' with
        | [] => [[c]]
        | piece :: rest => (c :: piece) :: rest
        end
  end.

(** Decimal notation of an integer: how an integer of magnitude up to
    2^53 prints. *)
Definition decimal (z : Z) : jsstring :=
  map N_of_ascii (list_ascii_of_string (NilZero.string_of_int (Z.to_int z))).

End JsString.

Export JsString.

Arguments js : simpl never.


(** ** Numbers

    The parser turns a number literal into the nearest double, or into an
    infinity when the literal is too large ([1e999]).  A number is modelled
    by the exact value of that double.  [-0] is modelled by [0]: they print
    alike, both are falsy and equal to [0], and the component has no other
    use of them. *)

Inductive number : Type :=
| Finite (q : Q)
| Infinite (negative : bool).

Definition of_int (n : Z) : number := Finite (inject_Z n).

Definition is_zero (x : number) : bool :=
  match x with
  | Finite q => Qnum q =? 0
  | Infinite _ => false
  end.

(** [x < 1] *)
Definition below_1 (x : number) : bool :=
  match x with
  | Finite q => Qnum q <? Zpos (Qden q)
  | Infinite negative => negative
  end.

(** The integer [x] is, when it is one of magnitude up to 2^53: these
    print as their decimal notation. *)
Definition safe_integer (x : number) : option Z :=
  match x with
  | Finite q =>
      let n := Qnum q / Zpos (Qden q) in
      if (Qnum q mod Zpos (Qden q) =? 0) && (Z.abs n <=? 2 ^ 53)
      then Some n else None
  | Infinite _ => None
  end.

(** ToIntegerOrInfinity: the fraction is dropped. *)
Definition truncate (q : Q) : Z := Z.quot (Qnum q) (Zpos (Qden q)).

Definition negate (x : number) : number :=
  match x with
  | Finite q => Finite (Qopp q)
  | Infinite negative => Infinite (negb negative)
  end.

Definition pow2 (e : Z) : Q :=
  if 0 <=? e then inject_Z (2 ^ e) else 1 # Z.to_pos (2 ^ (- e)).

Definition pow10 (e : Z) : Q :=
  if 0 <=? e then inject_Z (10 ^ e) else 1 # Z.to_pos (10 ^ (- e)).

(** The nearest integer, the even one of two that are equally near. *)
Definition round_half_even (q : Q) : Z :=
  let n := Qnum q in
  let d := Zpos (Qden q) in
  let f := n / d in
  let r2 := 2 * (n - f * d) in
  if r2 <? d then f
  else if d <? r2 then f + 1
  else if Z.even f then f else f + 1.

(** The exponent [e] with [2^e <= q < 2^(e+1)], for a positive [q]. *)
Definition floor_log2 (q : Q) : Z :=
  let e := Z.log2 (Qnum q) - Z.log2 (Zpos (Qden q)) in
  if Qle_bool (pow2 e) q then e else e - 1.

(** The double nearest to a real number (53 bits, exponents from -1022,
    ties to even, overflow to an infinity): what a literal denotes. *)
Definition nearest_double (q : Q) : number :=
  if Qnum q =? 0 then Finite 0
  else
    let a := if Qnum q <? 0 then Qopp q else q in
    let e := Z.max (floor_log2 a) (- 1022) in
    let ulp := pow2 (e - 52) in
    let r := Qred (inject_Z (round_half_even (a / ulp)) * ulp) in
    if Qle_bool (pow2 1024) r then Infinite (Qnum q <? 0)
    else Finite (if Qnum q <? 0 then Qopp r else r).

(** *** Number::toString

    The digits of a positive number: the shortest decimal [s * 10^(n-k)]
    of [k] digits that reads back as the same double, written without an
    exponent when [n] is between -5 and 21. *)

(** The [n] with [10^(n-1) <= q < 10^n], for a positive [q]. *)
Definition decimal_exponent (q : Q) : Z :=
  let n0 := floor_log2 q * 30103 / 100000 in
  if Qle_bool (pow10 (n0 + 1)) q then n0 + 2
  else if Qle_bool (pow10 n0) q then n0 + 1
  else if Qle_bool (pow10 (n0 - 1)) q then n0
  else n0 - 1.

Fixpoint shortest (fuel : nat) (k : Z) (x : Q) (n : Z) : Z * Z :=
  let s := round_half_even (x * pow10 (k - n)) in
  match fuel with
  | O => (s, k)
  | S fuel' =>
      match nearest_double (inject_Z s * pow10 (n - k)) with
      | Finite y => if Qeq_bool y x then (s, k) else shortest fuel' (k + 1) x n
      | Infinite _ => shortest fuel' (k + 1) x n
      end
  end.

Definition zeros (n : Z) : jsstring := repeat (unit_of "0") (Z.to_nat n).

Definition positive_digits (x : Q) : jsstring :=
  let n0 := decimal_exponent x in
  let '(s0, k) := shortest 16 1 x n0 in
  let '(s, n) := if s0 =? 10 ^ k then (10 ^ (k - 1), n0 + 1) else (s0, n0) in
  let ds := decimal s in
  if (k <=? n) && (n <=? 21) then ds ++ zeros (n - k)
  else if (0 <? n) && (n <=? 21) then
    firstn (Z.to_nat n) ds ++ js "." ++ skipn (Z.to_nat n) ds
  else if (- 6 <? n) && (n <=? 0) then js "0." ++ zeros (- n) ++ ds
  else
    let e := n - 1 in
    let mantissa :=
      if k =? 1 then ds else firstn 1 ds ++ js "." ++ skipn 1 ds in
    mantissa ++ js (if e <? 0 then "e-" else "e+") ++ decimal (Z.abs e).

Definition shortest_digits (q : Q) : jsstring :=
  if Qnum q =? 0 then js "0"
  else if Qnum q <? 0 then js "-" ++ positive_digits (Qopp q)
  else positive_digits q.

(** *** StringToNumber

    White space is trimmed; the empty string is [0]; then a decimal
    literal with an optional sign, fraction and exponent, [Infinity], or an
    unsigned literal in base 16, 8 or 2.  [None] is [NaN]. *)

Definition digit (c : code_unit) : option Z :=
  if (48 <=? c)%N && (c <=? 57)%N then Some (Z.of_N c - 48) else None.

Definition is_space (c : code_unit) : bool :=
  existsb (N.eqb c)
    [9; 10; 11; 12; 13; 32; 160; 5760; 8232; 8233; 8239; 8287; 12288; 65279]%N
  || ((8192 <=? c) && (c <=? 8202))%N.

Fixpoint trim_start (s : jsstring) : jsstring :=
  match s with
  | c :: s' => if is_space c then trim_start s' else s
  | [] => []
  end.

Definition trim (s : jsstring) : jsstring :=
  rev (trim_start (rev (trim_start s))).

(** The decimal digits [s] starts with: their value after [acc], their
    number after [count], and the rest. *)
Fixpoint leading_digits (s : jsstring) (acc count : Z) : Z * Z * jsstring :=
  match s with
  | c :: s' =>
      match digit c with
      | Some d => leading_digits s' (acc * 10 + d) (count + 1)
      | None => (acc, count, s)
      end
  | [] => (acc, count, [])
  end.

Definition digit_in (base : Z) (c : code_unit) : option Z :=
  let v := if (48 <=? c)%N && (c <=? 57)%N then Some (Z.of_N c - 48)
           else if (97 <=? c)%N && (c <=? 102)%N then Some (Z.of_N c - 87)
           else if (65 <=? c)%N && (c <=? 70)%N then Some (Z.of_N c - 55)
           else None in
  match v with
  | Some d => if d <? base then Some d else None
  | None => None
  end.

Fixpoint all_digits_in (base : Z) (s : jsstring) (acc : Z) : option Z :=
  match s with
  | [] => Some acc
  | c :: s' =>
      match digit_in base c with
      | Some d => all_digits_in base s' (acc * base + d)
      | None => None
      end
  end.

Definition unsigned_literal (s : jsstring) : option number :=
  if eqb s (js "Infinity") then Some (Infinite false)
  else
    let '(i, ni, s1) := leading_digits s 0 0 in
    let '(f, nf, s2) :=
      match s1 with
      | c :: s1' =>
          if (c =? unit_of ".")%N then leading_digits s1' i 0 else (i, 0, s1)
      | [] => (i, 0, [])
      end in
    if ni + nf =? 0 then None
    else
      match s2 with
      | [] => Some (nearest_double (inject_Z f * pow10 (- nf)))
      | c :: s3 =>
          if (c =? unit_of "e")%N || (c =? unit_of "E")%N then
            let '(sign, s4) :=
              match s3 with
              | c' :: s3' =>
                  if (c' =? unit_of "-")%N then (-1, s3')
                  else if (c' =? unit_of "+")%N then (1, s3')
                  else (1, s3)
              | [] => (1, [])
              end in
            match leading_digits s4 0 0 with
            | (e, ne, []) =>
                if ne =? 0 then None
                else Some (nearest_double (inject_Z f * pow10 (sign * e - nf)))
            | _ => None
            end
          else None
      end.

Definition StringToNumber (s : jsstring) : option number :=
  match trim s with
  | [] => Some (Finite 0)
  | c :: rest =>
      if (c =? unit_of "-")%N then option_map negate (unsigned_literal rest)
      else if (c =? unit_of "+")%N then unsigned_literal rest
      else
        let base :=
          match rest with
          | x :: _ :: _ =>
              if negb (c =? unit_of "0")%N then 10
              else if (x =? unit_of "x")%N || (x =? unit_of "X")%N then 16
              else if (x =? unit_of "o")%N || (x =? unit_of "O")%N then 8
              else if (x =? unit_of "b")%N || (x =? unit_of "B")%N then 2
              else 10
          | _ => 10
          end in
        if base =? 10 then unsigned_literal (c :: rest)
        else
          option_map (fun n => nearest_double (inject_Z n))
            (all_digits_in base (tl rest) 0)
  end.

(** ** JSON values, exceptions and property reads *)

(** What [response.json()] can produce, and [undefined]. *)
#[warnings="-register-all"] Inductive value : Type :=
| VUndefined
| VNull
| VBool (b : bool)
| VNum (x : number)
| VStr (s : jsstring)
| VArr (elems : list value)
| VObj (props : list (jsstring * value)).

Inductive exn : Type :=
| TypeError
| SyntaxError
| Error (message : jsstring).

(** A computation completes with a value or throws. *)
Inductive result (A : Type) : Type :=
| Ok (a : A)
| Throw (e : exn).

Arguments Ok {A} a.
Arguments Throw {A} e.

Definition bind {A B : Type} (m : result A) (k : A -> result B) : result B :=
  match m with
  | Ok a => k a
  | Throw e => Throw e
  end.

Notation "x <- m ;; k" := (bind m (fun x => k))
  (at level 61, m at next level, right associativity).

(** [try { body } catch (error) { handler }] *)
Definition try_catch {A : Type} (body : result A) (handler : exn -> result A)
  : result A :=
  match body with
  | Ok a => Ok a
  | Throw e => handler e
  end.

(** [!v] is [negb (truthy v)]. *)
Definition truthy (v : value) : bool :=
  match v with
  | VUndefined | VNull => false
  | VBool b => b
  | VNum x => negb (is_zero x)
  | VStr s => negb (is_empty s)
  | VArr _ | VObj _ => true
  end.

Definition nullish (v : value) : bool :=
  match v with
  | VUndefined | VNull => true
  | _ => false
  end.

(** [typeof v === 'string'] *)
Definition typeof_string (v : value) : bool :=
  match v with
  | VStr _ => true
  | _ => false
  end.

(** [a || b] *)
Definition or_else (a b : value) : value :=
  if truthy a then a else b.

(** The property names the component reads. *)
Inductive field : Type :=
| reportDatetime
| timeSeries
| areas
| weathers
| temps
| pops
| timeDefines.

Definition field_name (f : field) : jsstring :=
  match f with
  | reportDatetime => js "reportDatetime"
  | timeSeries => js "timeSeries"
  | areas => js "areas"
  | weathers => js "weathers"
  | temps => js "temps"
  | pops => js "pops"
  | timeDefines => js "timeDefines"
  end.

(** The own property [k] of a parsed JSON object. *)
Fixpoint own_property (k : jsstring) (props : list (jsstring * value))
  : option value :=
  match props with
  | [] => None
  | (k', v) :: rest => if eqb k k' then Some v else own_property k rest
  end.

Definition or_undefined (o : option value) : value :=
  match o with
  | Some v => v
  | None => VUndefined
  end.

(** [v.f] for one of the names above: a [TypeError] on [null] and
    [undefined]; no primitive, string or array has such a property. *)
Definition get_field (v : value) (f : field) : result value :=
  match v with
  | VUndefined | VNull => Throw TypeError
  | VBool _ | VNum _ | VStr _ | VArr _ => Ok VUndefined
  | VObj props => Ok (or_undefined (own_property (field_name f) props))
  end.

(** [v[i]] for a non-negative integer [i]. *)
Definition get_index (v : value) (i : nat) : result value :=
  match v with
  | VUndefined | VNull => Throw TypeError
  | VBool _ | VNum _ => Ok VUndefined
  | VStr s => Ok (match nth_error s i with
                  | Some c => VStr [c]
                  | None => VUndefined
                  end)
  | VArr elems => Ok (or_undefined (nth_error elems i))
  | VObj props => Ok (or_undefined (own_property (decimal (Z.of_nat i)) props))
  end.

(** [v.length] *)
Definition get_length (v : value) : result value :=
  match v with
  | VUndefined | VNull => Throw TypeError
  | VBool _ | VNum _ => Ok VUndefined
  | VStr s => Ok (VNum (of_int (Z.of_nat (List.length s))))
  | VArr elems => Ok (VNum (of_int (Z.of_nat (List.length elems))))
  | VObj props => Ok (or_undefined (own_property (js "length") props))
  end.

(** [v.split(sep)]: only strings have the method; on anything else the
    call is a [TypeError]. *)
Definition call_split (v : value) (sep : code_unit) : result value :=
  match v with
  | VStr s => Ok (VArr (map VStr (split sep s)))
  | _ => Throw TypeError
  end.

(** [v === 0] *)
Definition strict_eq_0 (v : value) : bool :=
  match v with
  | VNum x => is_zero x
  | _ => false
  end.

(** ** Member chains

    A chain such as [data[1]?.timeSeries[2]?.areas[0]?.temps[1]] is a base
    value followed by links.  [Opt] is the [?.] before the next link: on
    [null] or [undefined] the rest of the chain is skipped and the chain is
    [undefined]. *)
Inductive link : Type :=
| Idx (i : nat)
| Fld (f : field)
| Opt
| Split (sep : code_unit).

Fixpoint eval_chain (v : value) (c : list link) : result value :=
  match c with
  | [] => Ok v
  | Idx i :: c' => v' <- get_index v i ;; eval_chain v' c'
  | Fld f :: c' => v' <- get_field v f ;; eval_chain v' c'
  | Opt :: c' => if nullish v then Ok VUndefined else eval_chain v c'
  | Split sep :: c' => v' <- call_split v sep ;; eval_chain v' c'
  end.

(** ** The host: what the JavaScript engine decides *)

Class Host : Type := {
  (** [LocalTZA(t, isUTC)]: the offset of local time from UTC in
      milliseconds, at the instant [t] when [isUTC] is set and at the local
      time [t] otherwise *)
  LocalTZA : Z -> bool -> Z;
  LocalTZA_range :
    forall t isUTC, - 86400000 < LocalTZA t isUTC < 86400000;
  (** [Date.parse] on a string outside the ISO format below: engines fall
      back to heuristics of their own; [None] is [NaN] *)
  Date_parse_fallback : jsstring -> option Z;
  (** whether the number a string converts to is below 1 *)
  StringToNumber_lt_1 : jsstring -> bool;
  (** Number::toString of a finite number that is not an integer of
      magnitude up to 2^53 *)
  NumberToString_digits : Q -> jsstring
}.

(** ** Dates (ECMAScript, Date objects)

    A time value is a number of milliseconds since the epoch; an invalid
    date has the time value [NaN], here [None]. *)

Definition msPerDay : Z := 86400000.

Definition Day (t : Z) : Z := t / msPerDay.

Definition leap_year (y : Z) : bool :=
  ((y mod 4 =? 0) && negb (y mod 100 =? 0)) || (y mod 400 =? 0).

Definition days_in_month (y m : Z) : Z :=
  if m =? 2 then (if leap_year y then 29 else 28)
  else if (m =? 4) || (m =? 6) || (m =? 9) || (m =? 11) then 30
  else 31.

(** Years are grouped in eras of 400 years (146097 days) that start on
    the first of March.  The day of the era of the day [d] of month [m] in
    the year [yoe] of the era, years counted from March. *)
Definition day_of_era (yoe m d : Z) : Z :=
  let mp := (m + 9) mod 12 in
  yoe * 365 + yoe / 4 - yoe / 100 + ((153 * mp + 2) / 5 + d - 1).

(** Day number of the civil date [y]-[m]-[d], month [m] from 1 to 12. *)
Definition days_from_civil (y m d : Z) : Z :=
  let y' := if m <=? 2 then y - 1 else y in
  let era := y' / 400 in
  era * 146097 + day_of_era (y' - era * 400) m d - 719468.

(** Year of the era (counted from March), month and day of the month of a
    day of the era. *)
Definition date_of_era (doe : Z) : Z * Z * Z :=
  let yoe := (doe - doe / 1460 + doe / 36524 - doe / 146096) / 365 in
  let doy := doe - (365 * yoe + yoe / 4 - yoe / 100) in
  let mp := (5 * doy + 2) / 153 in
  (yoe, if mp <? 10 then mp + 3 else mp - 9, doy - (153 * mp + 2) / 5 + 1).

(** The civil date (year, month from 1, day of the month) of a day number. *)
Definition civil_from_days (z : Z) : Z * Z * Z :=
  let z' := z + 719468 in
  let era := z' / 146097 in
  let '(yoe, m, d) := date_of_era (z' - era * 146097) in
  let y := yoe + era * 400 in
  (if m <=? 2 then y + 1 else y, m, d).

(** [MakeDay(year, month, date)], month from 0 to 11. *)
Definition MakeDay (year month date : Z) : Z :=
  days_from_civil year (month + 1) 1 + date - 1.

Definition MakeTime (hour min sec ms : Z) : Z :=
  hour * 3600000 + min * 60000 + sec * 1000 + ms.

Definition MakeDate (day time : Z) : Z := day * msPerDay + time.

Definition DateFromTime (t : Z) : Z :=
  let '(_, _, d) := civil_from_days (Day t) in d.

Definition TimeClip (t : Z) : option Z :=
  if Z.abs t <=? 8640000000000000 then Some t else None.

(** [TimeClip] of a number: no date beyond 8.64e15 milliseconds from the
    epoch, and the fraction of a millisecond is dropped. *)
Definition TimeClip_number (x : number) : option Z :=
  match x with
  | Finite q =>
      if Z.abs (Qnum q) <=? 8640000000000000 * Zpos (Qden q)
      then Some (truncate q) else None
  | Infinite _ => None
  end.

(** *** The date-time string format

    [YYYY], [YYYY-MM] or [YYYY-MM-DD], optionally followed by [THH:mm],
    [THH:mm:ss] or [THH:mm:ss.sss] and then by [Z] or [+HH:mm] or [-HH:mm].
    Every engine reads these alike; everything else is left to the host. *)

(** Exactly [n] digits. *)
Fixpoint digits (n : nat) (acc : Z) (s : jsstring) : option (Z * jsstring) :=
  match n with
  | O => Some (acc, s)
  | S n' =>
      match s with
      | c :: s' =>
          match digit c with
          | Some d => digits n' (acc * 10 + d) s'
          | None => None
          end
      | [] => None
      end
  end.

(** The rest of [s] after the character [c], when [s] starts with it. *)
Definition after (c : ascii) (s : jsstring) : option jsstring :=
  match s with
  | d :: s' => if (d =? unit_of c)%N then Some s' else None
  | [] => None
  end.

Record iso_fields : Type := {
  iso_year : Z; iso_month : Z; iso_day : Z;
  iso_hour : Z; iso_min : Z; iso_sec : Z; iso_ms : Z;
  (** [None]: no offset was written; [Some o]: [o] minutes east of UTC *)
  iso_offset : option Z;
  (** a date-only form *)
  iso_date_only : bool
}.

Definition parse_iso_date (s : jsstring) : option (Z * Z * Z * jsstring) :=
  match digits 4 0 s with
  | None => None
  | Some (y, s1) =>
      match after "-" s1 with
      | None => Some (y, 1, 1, s1)
      | Some s2 =>
          match digits 2 0 s2 with
          | None => None
          | Some (m, s3) =>
              match after "-" s3 with
              | None => Some (y, m, 1, s3)
              | Some s4 =>
                  match digits 2 0 s4 with
                  | None => None
                  | Some (d, s5) => Some (y, m, d, s5)
                  end
              end
          end
      end
  end.

Definition parse_iso_offset (s : jsstring) : option (option Z) :=
  match s with
  | [] => Some None
  | c :: s' =>
      if (c =? unit_of "Z")%N then
        (if is_empty s' then Some (Some 0) else None)
      else if (c =? unit_of "+")%N || (c =? unit_of "-")%N then
        match digits 2 0 s' with
        | None => None
        | Some (h, s1) =>
            match after ":" s1 with
            | None => None
            | Some s2 =>
                match digits 2 0 s2 with
                | Some (m, []) =>
                    if (h <=? 23) && (m <=? 59) then
                      Some (Some ((if (c =? unit_of "+")%N then 1 else -1)
                                  * (h * 60 + m)))
                    else None
                | _ => None
                end
            end
        end
      else None
  end.

Definition parse_iso_time (s : jsstring)
  : option (Z * Z * Z * Z * option Z) :=
  match digits 2 0 s with
  | None => None
  | Some (h, s1) =>
      match after ":" s1 with
      | None => None
      | Some s2 =>
          match digits 2 0 s2 with
          | None => None
          | Some (mi, s3) =>
              match after ":" s3 with
              | None =>
                  match parse_iso_offset s3 with
                  | Some o => Some (h, mi, 0, 0, o)
                  | None => None
                  end
              | Some s4 =>
                  match digits 2 0 s4 with
                  | None => None
                  | Some (sec, s5) =>
                      match after "." s5 with
                      | None =>
                          match parse_iso_offset s5 with
                          | Some o => Some (h, mi, sec, 0, o)
                          | None => None
                          end
                      | Some s6 =>
                          match digits 3 0 s6 with
                          | None => None
                          | Some (ms, s7) =>
                              match parse_iso_offset s7 with
                              | Some o => Some (h, mi, sec, ms, o)
                              | None => None
                              end
                          end
                      end
                  end
              end
          end
      end
  end.

Definition parse_iso (s : jsstring) : option iso_fields :=
  match parse_iso_date s with
  | None => None
  | Some (y, m, d, rest) =>
      match rest with
      | [] => Some {| iso_year := y; iso_month := m; iso_day := d;
                      iso_hour := 0; iso_min := 0; iso_sec := 0; iso_ms := 0;
                      iso_offset := None; iso_date_only := true |}
      | _ :: _ =>
          match after "T" rest with
          | None => None
          | Some t =>
              match parse_iso_time t with
              | None => None
              | Some (h, mi, sec, ms, o) =>
                  Some {| iso_year := y; iso_month := m; iso_day := d;
                          iso_hour := h; iso_min := mi; iso_sec := sec;
                          iso_ms := ms; iso_offset := o;
                          iso_date_only := false |}
              end
          end
      end
  end.

(** Element values in range. *)
Definition iso_legal (f : iso_fields) : bool :=
  (1 <=? iso_month f) && (iso_month f <=? 12) &&
  (1 <=? iso_day f) && (iso_day f <=? days_in_month (iso_year f) (iso_month f)) &&
  (iso_min f <=? 59) && (iso_sec f <=? 59) &&
  ((iso_hour f <=? 23) ||
   ((iso_hour f =? 24) && (iso_min f =? 0) && (iso_sec f =? 0) && (iso_ms f =? 0))).

(** The time value of a string in the format: a date-only form is UTC, a
    date-time form without offset is local time, [UTC] turning a local time
    into an instant. *)
Definition iso_time_value_in (UTC : Z -> Z) (f : iso_fields) : Z :=
  let t := MakeDate (MakeDay (iso_year f) (iso_month f - 1) (iso_day f))
             (MakeTime (iso_hour f) (iso_min f) (iso_sec f) (iso_ms f)) in
  match iso_offset f with
  | Some o => t - o * 60000
  | None => if iso_date_only f then t else UTC t
  end.

(** ** Hosts for concrete runs *)

(** The offset in force in a zone whose offset was [initial] and changed,
    at the instants of [transitions] (in increasing order), to the offsets
    paired with them.  [t] is an instant when [isUTC] is set; otherwise it
    is a local time, and one that the zone skipped or repeated is read with
    the offset before the transition. *)
Fixpoint zone_offset (initial : Z) (transitions : list (Z * Z))
    (t : Z) (isUTC : bool) : Z :=
  match transitions with
  | [] => initial
  | (instant, after) :: rest =>
      if (if isUTC then t <? instant
          else (t - initial <? instant) || (t - after <? instant))
      then initial
      else zone_offset after rest t isUTC
  end.

(** Asia/Tokyo: local mean time (+9:18:59) until the end of 1887, then
    +9:00, with summer time (+10:00) in 1948, 1949, 1950 and 1951. *)
Definition Asia_Tokyo : list (Z * Z) :=
  [(-2587712400000, 32400000);
   (-683802000000, 36000000); (-672310800000, 32400000);
   (-654771600000, 36000000); (-640861200000, 32400000);
   (-620298000000, 36000000); (-609411600000, 32400000);
   (-588848400000, 36000000); (-577962000000, 32400000)].

(** Element values in the ranges V8 tests: the day may be up to 31 in
    every month, and carries over into the next month. *)
Definition iso_lenient (f : iso_fields) : bool :=
  (1 <=? iso_month f) && (iso_month f <=? 12) &&
  (1 <=? iso_day f) && (iso_day f <=? 31) &&
  (iso_min f <=? 59) && (iso_sec f <=? 59) &&
  ((iso_hour f <=? 23) ||
   ((iso_hour f =? 24) && (iso_min f =? 0) && (iso_sec f =? 0) && (iso_ms f =? 0))).

(** What the engine of the runs reads outside the format: a string of
    the shape of the format whose day is not a day of its month.  Other
    strings it does not take for dates (V8 reads some of them, such as
    [May 3, 2024]; no run uses one). *)
Definition lenient_date (UTC : Z -> Z) (s : jsstring) : option Z :=
  match parse_iso s with
  | Some f => if iso_lenient f then TimeClip (iso_time_value_in UTC f) else None
  | None => None
  end.

(** An engine in the zone [zone]. *)
Definition engine (zone : Z -> bool -> Z)
    (zone_range : forall t isUTC, - 86400000 < zone t isUTC < 86400000)
  : Host :=
  {| LocalTZA := zone;
     LocalTZA_range := zone_range;
     Date_parse_fallback := lenient_date (fun t => t - zone t false);
     StringToNumber_lt_1 := fun s =>
       match StringToNumber s with
       | Some x => below_1 x
       | None => false
       end;
     NumberToString_digits := shortest_digits |}.

(** An engine in Japan. *)
Definition jst_host : Host.
Proof.
  refine (engine (zone_offset 33539000 Asia_Tokyo) _).
  intros t isUTC. unfold Asia_Tokyo. cbn [zone_offset].
  destruct isUTC;
    repeat match goal with
           | |- context [if ?c then _ else _] => destruct c
           end; lia.
Defined.

(** An engine in a zone that is five hours west of Greenwich throughout
    (Etc/GMT+5). *)
Definition est_host : Host.
Proof.
  refine (engine (zone_offset (- 18000000) []) _).
  intros t isUTC. cbn [zone_offset]. lia.
Defined.

(** Payload literals. *)
Definition str (s : string) : value := VStr (js s).

Definition num (n : Z) : value := VNum (of_int n).

Definition prop (name : string) (v : value) : jsstring * value :=
  (js name, v).

(** ** The display model *)

(** The object [extractTodayWeather] returns. *)
Record TodaySummary : Type := {
  date : jsstring;
  weather : jsstring;
  temperature : jsstring;
  precipitation : jsstring
}.

(** An element of the array [extractThreeDayWeather] returns. *)
Module ThreeDay.
Record DaySummary : Type := {
  date : jsstring;
  weather : jsstring;
  maxTemp : jsstring;
  minTemp : jsstring
}.
End ThreeDay.

Section WeatherComponent.

Context `{Host}.

(** Number::toString *)
Definition Number_toString (x : number) : jsstring :=
  match safe_integer x with
  | Some n => decimal n
  | None =>
      match x with
      | Finite q => NumberToString_digits q
      | Infinite negative => js (if negative then "-Infinity" else "Infinity")
      end
  end.

(** ToString.  An array prints its elements separated by commas, [null]
    and [undefined] elements as nothing; a plain object prints as
    [[object Object]], unless an own property hides [toString], and then
    the conversion is a [TypeError]. *)
Fixpoint to_string (v : value) : result jsstring :=
  match v with
  | VUndefined => Ok (js "undefined")
  | VNull => Ok (js "null")
  | VBool true => Ok (js "true")
  | VBool false => Ok (js "false")
  | VNum x => Ok (Number_toString x)
  | VStr s => Ok s
  | VArr elems =>
      (fix join (l : list value) : result jsstring :=
         match l with
         | [] => Ok []
         | x :: rest =>
             s <- match x with
                  | VUndefined | VNull => Ok []
                  | _ => to_string x
                  end ;;
             match rest with
             | [] => Ok s
             | _ :: _ => r <- join rest ;; Ok (s ++ js "," ++ r)
             end
         end) elems
  | VObj props =>
      match own_property (js "toString") props with
      | Some _ => Throw TypeError
      | None => Ok (js "[object Object]")
      end
  end.

Definition LocalTime (t : Z) : Z := t + LocalTZA t true.

Definition UTC (t : Z) : Z := t - LocalTZA t false.

Definition iso_time_value (f : iso_fields) : Z := iso_time_value_in UTC f.

Definition Date_parse (s : jsstring) : option Z :=
  match parse_iso s with
  | Some f => if iso_legal f then TimeClip (iso_time_value f)
              else Date_parse_fallback s
  | None => Date_parse_fallback s
  end.

(** [new Date(v)]: a string is parsed; an array or object is first
    converted to a string; [null], booleans and numbers are time values,
    numbers without their fraction. *)
Definition new_Date (v : value) : result (option Z) :=
  match v with
  | VUndefined => Ok None
  | VNull => Ok (Some 0)
  | VBool b => Ok (Some (if b then 1 else 0))
  | VNum x => Ok (TimeClip_number x)
  | VStr s => Ok (Date_parse s)
  | VArr _ | VObj _ => s <- to_string v ;; Ok (Date_parse s)
  end.

(** [date.getDate()]: the day of the month in local time, [NaN] for an
    invalid date. *)
Definition getDate (date : option Z) : option Z :=
  match date with
  | Some t => Some (DateFromTime (LocalTime t))
  | None => None
  end.

(** ToString of a number that is an integer or [NaN]. *)
Definition number_to_string (n : option Z) : jsstring :=
  match n with
  | Some z => decimal z
  | None => js "NaN"
  end.

(** [v < 1] *)
Definition lt_1 (v : value) : result bool :=
  match v with
  | VUndefined => Ok false
  | VNull => Ok true
  | VBool b => Ok (negb b)
  | VNum x => Ok (below_1 x)
  | VStr s => Ok (StringToNumber_lt_1 s)
  | VArr _ | VObj _ => s <- to_string v ;; Ok (StringToNumber_lt_1 s)
  end.

(** ** The component *)

(** *** Region registry and endpoint *)

(** The keys of [AREA_CODES]: 北海道, 東京, 大阪, 福岡. *)
Inductive area : Type :=
| Hokkaido
| Tokyo
| Osaka
| Fukuoka.

Definition area_name (a : area) : jsstring :=
  match a with
  | Hokkaido => js "北海道"
  | Tokyo => js "東京"
  | Osaka => js "大阪"
  | Fukuoka => js "福岡"
  end.

Definition AREA_CODES (a : area) : jsstring :=
  match a with
  | Hokkaido => js "016000"
  | Tokyo => js "130000"
  | Osaka => js "270000"
  | Fukuoka => js "400000"
  end.

Definition generateApiEndpoint (areaCode : jsstring) : jsstring :=
  js "https://www.jma.go.jp/bosai/forecast/data/forecast/" ++ areaCode
    ++ js ".json".

(** *** Fetcher *)

(** What the component sees of a response: the [ok] flag and the outcome
    of [response.json()]. *)
Record Response : Type := {
  ok : bool;
  json : result value
}.

(** [fetch] is the network: it resolves with a response or rejects. *)
Definition fetchWeatherData (fetch : jsstring -> result Response)
    (areaCode : jsstring) : result value :=
  let API_ENDPOINT := generateApiEndpoint areaCode in
  try_catch
    (response <- fetch API_ENDPOINT ;;
     _ <- (if negb (ok response)
           then Throw (Error (js "APIリクエストが失敗しました"))
           else Ok tt) ;;
     json response)
    (fun error => Ok VNull).

(** *** Field normalisers *)

Definition getWeatherText (weatherText : value) : jsstring :=
  if negb (truthy weatherText) || negb (typeof_string weatherText)
  then js "不明"
  else
    match weatherText with
    | VStr s =>
        if includes s (js "晴") then js "晴れ"
        else if includes s (js "雨") then js "雨"
        else if includes s (js "曇") then js "曇り"
        else s
    | _ => js "不明"
    end.

Definition formatDate (dateString : value) : result jsstring :=
  if negb (truthy dateString) then Ok (js "不明")
  else
    date <- new_Date dateString ;;
    Ok (number_to_string (getDate date) ++ js "日").

(** *** Today's weather *)

(** [data[0]?.reportDatetime.split('T')[0]] *)
Definition rawDate_chain : list link :=
  [Idx 0; Opt; Fld reportDatetime; Split (unit_of "T"); Idx 0].

(** [data[0]?.timeSeries[0]?.areas[0]?.weathers[0]] *)
Definition weatherText_chain : list link :=
  [Idx 0; Opt; Fld timeSeries; Idx 0; Opt; Fld areas; Idx 0; Opt;
   Fld weathers; Idx 0].

(** [data[1]?.timeSeries[2]?.areas[0]?.temps[1]] *)
Definition temperature_chain : list link :=
  [Idx 1; Opt; Fld timeSeries; Idx 2; Opt; Fld areas; Idx 0; Opt;
   Fld temps; Idx 1].

(** [data[1].timeSeries[2].areas[0].temps[1]] *)
Definition temperature_chain' : list link :=
  [Idx 1; Fld timeSeries; Idx 2; Fld areas; Idx 0; Fld temps; Idx 1].

(** [data[0]?.timeSeries[1]?.areas[0]?.pops[0]] *)
Definition precipitation_chain : list link :=
  [Idx 0; Opt; Fld timeSeries; Idx 1; Opt; Fld areas; Idx 0; Opt;
   Fld pops; Idx 0].

(** [data[0].timeSeries[1]?.areas[0]?.pops[0]] *)
Definition precipitation_chain' : list link :=
  [Idx 0; Fld timeSeries; Idx 1; Opt; Fld areas; Idx 0; Opt; Fld pops; Idx 0].

(** [cond ? `${again}unit` : '不明'], with the value read again on the
    true branch as the source does. *)
Definition reading (data : value) (cond again : list link) (unit : jsstring)
  : result jsstring :=
  c <- eval_chain data cond ;;
  if truthy c then
    v <- eval_chain data again ;;
    s <- to_string v ;;
    Ok (s ++ unit)
  else Ok (js "不明").

Definition extractTodayWeather (data : value) : result (option TodaySummary) :=
  stop <- (if negb (truthy data) then Ok true
           else len <- get_length data ;; Ok (strict_eq_0 len)) ;;
  if stop : bool then Ok None
  else
    try_catch
      (rawDate <- eval_chain data rawDate_chain ;;
       w <- eval_chain data weatherText_chain ;;
       let weatherText := or_else w (VStr (js "不明")) in
       date_ <- formatDate rawDate ;;
       temperature_ <- reading data temperature_chain temperature_chain'
                         (js "℃") ;;
       precipitation_ <- reading data precipitation_chain precipitation_chain'
                           (js "%") ;;
       Ok (Some {| date := date_;
                   weather := getWeatherText weatherText;
                   temperature := temperature_;
                   precipitation := precipitation_ |}))
      (fun error => Ok None).

(** *** Three days of weather *)

(** [v.slice(start, end)] for in-range bounds: arrays and strings have the
    method. *)
Definition call_slice (v : value) (start end_ : nat) : result value :=
  match v with
  | VArr elems => Ok (VArr (firstn (end_ - start) (skipn start elems)))
  | VStr s => Ok (VStr (firstn (end_ - start) (skipn start s)))
  | _ => Throw TypeError
  end.

(** The elements of [l] through [f], which also receives the index. *)
Fixpoint map_indexed {A : Type} (f : value -> nat -> result A)
    (index : nat) (l : list value) : result (list A) :=
  match l with
  | [] => Ok []
  | x :: rest =>
      y <- f x index ;;
      ys <- map_indexed f (S index) rest ;;
      Ok (y :: ys)
  end.

(** [v.map(f)]: only arrays have the method. *)
Definition call_map {A : Type} (v : value) (f : value -> nat -> result A)
  : result (list A) :=
  match v with
  | VArr elems => map_indexed f 0 elems
  | _ => Throw TypeError
  end.

(** [threeDayData.timeSeries[0]?.timeDefines] *)
Definition days_chain : list link :=
  [Fld timeSeries; Idx 0; Opt; Fld timeDefines].

(** [threeDayData.timeSeries[0]?.areas[0]?.weathers] *)
Definition weathers_chain : list link :=
  [Fld timeSeries; Idx 0; Opt; Fld areas; Idx 0; Opt; Fld weathers].

(** [threeDayData.timeSeries[1]?.areas[0]?.temps] *)
Definition maxTemps_chain : list link :=
  [Fld timeSeries; Idx 1; Opt; Fld areas; Idx 0; Opt; Fld temps].

(** [threeDayData.timeSeries[2]?.areas[0]?.temps] *)
Definition minTemps_chain : list link :=
  [Fld timeSeries; Idx 2; Opt; Fld areas; Idx 0; Opt; Fld temps].

(** [list[index] ? `${list[index]}℃` : '不明'] *)
Definition temp_cell (list : value) (index : nat) : result jsstring :=
  t <- get_index list index ;;
  if truthy t then s <- to_string t ;; Ok (s ++ js "℃")
  else Ok (js "不明").

(** The callback of [map]: one day of the table. *)
Definition day_row (weathers maxTemps minTemps : value)
    (date : value) (index : nat) : result ThreeDay.DaySummary :=
  parts <- call_split date (unit_of "T") ;;
  day <- get_index parts 0 ;;
  date_ <- formatDate day ;;
  w <- get_index weathers index ;;
  maxTemp_ <- temp_cell maxTemps index ;;
  minTemp_ <- temp_cell minTemps index ;;
  Ok {| ThreeDay.date := date_;
        ThreeDay.weather := if truthy w then getWeatherText w else js "不明";
        ThreeDay.maxTemp := maxTemp_;
        ThreeDay.minTemp := minTemp_ |}.

Definition extractThreeDayWeather (data : value)
  : result (option (list ThreeDay.DaySummary)) :=
  stop <- (if negb (truthy data) then Ok true
           else len <- get_length data ;; lt_1 len) ;;
  if stop : bool then Ok None
  else
    try_catch
      (threeDayData <- get_index data 0 ;;
       missing <- (if negb (truthy threeDayData) then Ok true
                   else ts <- get_field threeDayData timeSeries ;;
                        Ok (negb (truthy ts))) ;;
       if missing : bool then Ok None
       else
         d <- eval_chain threeDayData days_chain ;;
         let days := or_else d (VArr []) in
         w <- eval_chain threeDayData weathers_chain ;;
         let weathers := or_else w (VArr []) in
         mx <- eval_chain threeDayData maxTemps_chain ;;
         let maxTemps := or_else mx (VArr []) in
         mn <- eval_chain threeDayData minTemps_chain ;;
         let minTemps := or_else mn (VArr []) in
         first3 <- call_slice days 0 3 ;;
         rows <- call_map first3 (day_row weathers maxTemps minTemps) ;;
         Ok (Some rows))
      (fun error => Ok None).

(** *** View state *)

Inductive view_mode : Type :=
| today
| three_day.

Record ViewState : Type := {
  selectedArea : area;
  weatherData : option TodaySummary;
  threeDayWeather : option (list ThreeDay.DaySummary);
  error : option jsstring;
  isLoading : bool;
  viewMode : view_mode
}.

(** The initial values of the six [useState] calls. *)
Definition initial_state : ViewState :=
  {| selectedArea := Tokyo; weatherData := None; threeDayWeather := None;
     error := None; isLoading := true; viewMode := today |}.

Definition setSelectedArea (a : area) (st : ViewState) : ViewState :=
  {| selectedArea := a; weatherData := weatherData st;
     threeDayWeather := threeDayWeather st; error := error st;
     isLoading := isLoading st; viewMode := viewMode st |}.

Definition setWeatherData (w : option TodaySummary) (st : ViewState)
  : ViewState :=
  {| selectedArea := selectedArea st; weatherData := w;
     threeDayWeather := threeDayWeather st; error := error st;
     isLoading := isLoading st; viewMode := viewMode st |}.

Definition setThreeDayWeather (w : option (list ThreeDay.DaySummary))
    (st : ViewState) : ViewState :=
  {| selectedArea := selectedArea st; weatherData := weatherData st;
     threeDayWeather := w; error := error st;
     isLoading := isLoading st; viewMode := viewMode st |}.

Definition setError (e : option jsstring) (st : ViewState) : ViewState :=
  {| selectedArea := selectedArea st; weatherData := weatherData st;
     threeDayWeather := threeDayWeather st; error := e;
     isLoading := isLoading st; viewMode := viewMode st |}.

Definition setIsLoading (b : bool) (st : ViewState) : ViewState :=
  {| selectedArea := selectedArea st; weatherData := weatherData st;
     threeDayWeather := threeDayWeather st; error := error st;
     isLoading := b; viewMode := viewMode st |}.

Definition setViewMode (m : view_mode) (st : ViewState) : ViewState :=
  {| selectedArea := selectedArea st; weatherData := weatherData st;
     threeDayWeather := threeDayWeather st; error := error st;
     isLoading := isLoading st; viewMode := m |}.

(** *** The effect [fetchData] *)

(** Up to the [await]: [setIsLoading(true); setError(null)]. *)
Definition fetchData_start (st : ViewState) : ViewState :=
  setError None (setIsLoading true st).

(** From the [await] on, [data] being what [fetchWeatherData] resolved
    with.  An exception that leaves an extraction function rejects the
    promise of [fetchData] before any setter has run. *)
Definition fetchData_resume (data : value) (st : ViewState)
  : result ViewState :=
  if truthy data then
    todayWeather <- extractTodayWeather data ;;
    threeDayWeatherData <- extractThreeDayWeather data ;;
    let st1 := match todayWeather with
               | Some _ => setWeatherData todayWeather st
               | None => st
               end in
    let st2 := match threeDayWeatherData with
               | Some _ => setThreeDayWeather threeDayWeatherData st1
               | None => st1
               end in
    let st3 := match todayWeather, threeDayWeatherData with
               | None, None => setError (Some (js "データの解析に失敗しました")) st2
               | _, _ => st2
               end in
    Ok (setIsLoading false st3)
  else
    Ok (setIsLoading false
          (setError (Some (js "天気データを取得できませんでした")) st)).

(** One whole run of [fetchData] with nothing happening in between. *)
Definition fetchData (fetch : jsstring -> result Response) (st : ViewState)
  : result ViewState :=
  let st' := fetchData_start st in
  data <- fetchWeatherData fetch (AREA_CODES (selectedArea st)) ;;
  fetchData_resume data st'.

(** *** The component as a transition system

    The state of the hooks and the fetches in flight (by region).  The
    effect runs after the first render and after every render in which
    [selectedArea] has changed. *)

Record World : Type := {
  view : ViewState;
  pending : list area
}.

Inductive event : Type :=
| Click_area (a : area)
| Click_viewMode (m : view_mode)
| Settle (i : nat) (fetch : jsstring -> result Response).

Definition area_eqb (a b : area) : bool :=
  match a, b with
  | Hokkaido, Hokkaido | Tokyo, Tokyo | Osaka, Osaka | Fukuoka, Fukuoka => true
  | _, _ => false
  end.

Definition mounted : World :=
  {| view := fetchData_start initial_state;
     pending := [selectedArea initial_state] |}.

Definition step (w : World) (e : event) : World :=
  match e with
  | Click_area a =>
      if area_eqb a (selectedArea (view w)) then w
      else {| view := fetchData_start (setSelectedArea a (view w));
              pending := pending w ++ [a] |}
  | Click_viewMode m =>
      {| view := setViewMode m (view w); pending := pending w |}
  | Settle i fetch =>
      match nth_error (pending w) i with
      | None => w
      | Some a =>
          let rest := firstn i (pending w) ++ skipn (S i) (pending w) in
          match (data <- fetchWeatherData fetch (AREA_CODES a) ;;
                 fetchData_resume data (view w)) with
          | Ok st => {| view := st; pending := rest |}
          | Throw _ => {| view := view w; pending := rest |}
          end
      end
  end.

Inductive reachable : World -> Prop :=
| reachable_mounted : reachable mounted
| reachable_step w e : reachable w -> reachable (step w e).

(** ** Reading the payload as a tree

    What the claims call "the second report entry, third time-series
    bucket, ..." is a position in the JSON tree.  [at_path] walks to it and
    knows nothing of exceptions: a step that is not there gives [None].
    [Opt] is no step. *)

Definition child (v : value) (k : link) : option value :=
  match k, v with
  | Idx i, VArr elems => nth_error elems i
  | Idx i, VStr s => option_map (fun c => VStr [c]) (nth_error s i)
  | Idx i, VObj props => own_property (decimal (Z.of_nat i)) props
  | Fld f, VObj props => own_property (field_name f) props
  | Split sep, VStr s => Some (VArr (map VStr (split sep s)))
  | Opt, _ => Some v
  | _, _ => None
  end.

Fixpoint at_path (v : value) (p : list link) : option value :=
  match p with
  | [] => Some v
  | k :: p' =>
      match child v k with
      | Some v' => at_path v' p'
      | None => None
      end
  end.

(** A raw value as the summaries show it: with its unit when it is there
    and truthy, [不明] otherwise. *)
Definition shown (unit : jsstring) (raw : option value) : result jsstring :=
  match raw with
  | Some t => if truthy t then s <- to_string t ;; Ok (s ++ unit)
              else Ok (js "不明")
  | None => Ok (js "不明")
  end.

(** ToString of [v] does not throw. *)
Definition printable (v : value) : bool :=
  match to_string v with
  | Ok _ => true
  | Throw _ => false
  end.

(** A time-series bucket whose [areas] can be indexed: the bucket is
    absent, or its [areas] property is neither missing nor [null]. *)
Definition areas_readable (bucket : value) : bool :=
  match bucket with
  | VUndefined | VNull => true
  | _ =>
      match get_field bucket areas with
      | Ok ar => negb (nullish ar)
      | Throw _ => false
      end
  end.

(** An area whose list [f] can be indexed. *)
Definition list_readable (f : field) (area : value) : bool :=
  match area with
  | VUndefined | VNull => true
  | _ =>
      match get_field area f with
      | Ok l => negb (nullish l)
      | Throw _ => false
      end
  end.

Definition is_some {A : Type} (o : option A) : bool :=
  match o with
  | Some _ => true
  | None => false
  end.

(** The two outcomes the specification names for a completed cycle. *)
Definition summaries_populated (st : ViewState) : bool :=
  is_some (weatherData st) && is_some (threeDayWeather st).

Definition error_populated (st : ViewState) : bool :=
  is_some (error st).

(** [null] and [undefined] are one to every reader of a chain's result. *)
Definition norm (o : option value) : value :=
  match o with
  | Some t => if nullish t then VUndefined else t
  | None => VUndefined
  end.

(** The rest of a cycle started for the region [a], from its [await] on,
    in the state [st] its response finds. *)
Definition fetchData_settle (fetch : jsstring -> result Response) (a : area)
    (st : ViewState) : result ViewState :=
  data <- fetchWeatherData fetch (AREA_CODES a) ;;
  fetchData_resume data st.

(** The date and time a string of the format writes, as a time value. *)
Definition iso_written (f : iso_fields) : Z :=
  MakeDate (MakeDay (iso_year f) (iso_month f - 1) (iso_day f))
    (MakeTime (iso_hour f) (iso_min f) (iso_sec f) (iso_ms f)).

(** The part of a timestamp before the first [T]. *)
Definition date_part (timestamp : jsstring) : jsstring :=
  hd [] (split (unit_of "T") timestamp).

(** ** Sample payloads

    A forecast file in the provider's layout: the first report entry has
    the short-range series (weather texts, precipitation, temperatures),
    the second the extended ones. *)

Definition report0 : value :=
  VObj
    [prop "reportDatetime" (str "2024-05-03T11:00:00+09:00");
     prop "timeSeries"
       (VArr
          [VObj
             [prop "timeDefines"
                (VArr [str "2024-05-03T11:00:00+09:00";
                       str "2024-05-04T00:00:00+09:00";
                       str "2024-05-05T00:00:00+09:00"]);
              prop "areas"
                (VArr [VObj [prop "weathers"
                               (VArr [str "晴れ　夜　くもり";
                                      str "くもり　時々　雨";
                                      str "曇り"])]])];
           VObj
             [prop "timeDefines" (VArr [str "2024-05-03T12:00:00+09:00"]);
              prop "areas"
                (VArr [VObj [prop "pops" (VArr [str "10"; str "20"])]])];
           VObj
             [prop "timeDefines" (VArr [str "2024-05-04T00:00:00+09:00"]);
              prop "areas"
                (VArr [VObj [prop "temps" (VArr [str "16"; str "26"])]])]])].

Definition report1 : value :=
  VObj
    [prop "reportDatetime" (str "2024-05-03T11:00:00+09:00");
     prop "timeSeries"
       (VArr
          [VObj [prop "areas"
                   (VArr [VObj [prop "weatherCodes" (VArr [str "100"])]])];
           VObj [prop "areas"
                   (VArr [VObj [prop "temps" (VArr [str "17"; str "25"])]])];
           VObj [prop "areas"
                   (VArr [VObj [prop "temps" (VArr [str "15"; str "24"])]])]])].

Definition forecast : value := VArr [report0; report1].

(** A weather text as the three-day table shows it. *)
Definition weather_shown (raw : option value) : jsstring :=
  match raw with
  | Some w => if truthy w then getWeatherText w else js "不明"
  | None => js "不明"
  end.

(** The [k]-th time-series bucket of a report entry, [undefined] when
    there is none. *)
Definition bucket (entry : value) (k : nat) : value :=
  norm (at_path entry [Fld timeSeries; Idx k]).

(** The list of timestamps the table is built from: [timeDefines] of the
    first bucket, [[]] in its place when it is missing or falsy. *)
Definition days_of (entry : value) : value :=
  or_else (norm (at_path entry [Fld timeSeries; Idx 0; Fld timeDefines]))
    (VArr []).

(** The value at a position is missing, falsy or an empty array. *)
Definition missing_or_empty (raw : option value) : bool :=
  match raw with
  | None => true
  | Some (VArr []) => true
  | Some t => negb (truthy t)
  end.

(** [sub] occurs in [s]. *)
Definition contains (s sub : jsstring) : Prop :=
  exists a b, s = a ++ sub ++ b.

(** [f] holds of the [n] integers from [z] on. *)
Fixpoint all_from (n : nat) (z : Z) (f : Z -> bool) : bool :=
  match n with
  | O => true
  | S k => if f z then all_from k (z + 1) f else false
  end.

(** The day of the month of every day of an era is between 1 and 31. *)
Definition era_days_in_range : bool :=
  all_from (Z.to_nat 146097) 0
    (fun doe => let '(_, _, d) := date_of_era doe in (1 <=? d) && (d <=? 31)).

(** In the years of an era counted from March, January and February belong
    to the civil year after. *)
Definition civil_year_of_era (yoe m : Z) : Z :=
  if m <=? 2 then yoe + 1 else yoe.

(** Every date of an era comes back from its day of the era. *)
Definition era_dates_round_trip : bool :=
  all_from 400 0 (fun yoe =>
  all_from 12 1 (fun m =>
  all_from 31 1 (fun d =>
    if d <=? days_in_month (civil_year_of_era yoe m) m then
      let doe := day_of_era yoe m d in
      (0 <=? doe) && (doe <? 146097) &&
      (let '(yoe', m', d') := date_of_era doe in
       (yoe' =? yoe) && (m' =? m) && (d' =? d))
    else true))).

(** The first report entry without its [reportDatetime]. *)
Definition timeSeries_only : list (jsstring * value) :=
  [prop "timeSeries"
     (VArr
        [VObj [prop "areas"
                 (VArr [VObj [prop "weathers" (VArr [str "晴れ"])]])];
         VObj [prop "areas"
                 (VArr [VObj [prop "pops" (VArr [str "10"])]])]])].

(** Seven timestamps and two weather texts. *)
Definition week_days : list value :=
  [str "2024-05-03T11:00:00+09:00"; str "2024-05-04T00:00:00+09:00";
   str "2024-05-05T00:00:00+09:00"; str "2024-05-06T00:00:00+09:00";
   str "2024-05-07T00:00:00+09:00"; str "2024-05-08T00:00:00+09:00";
   str "2024-05-09T00:00:00+09:00"].

Definition week_entry : value :=
  VObj
    [prop "timeSeries"
       (VArr
          [VObj
             [prop "timeDefines" (VArr week_days);
              prop "areas"
                (VArr [VObj [prop "weathers"
                               (VArr [str "晴れ"; str "くもり"])]])];
           VObj
             [prop "areas"
                (VArr [VObj [prop "temps"
                               (VArr [str "25"; str "26"; str "27"; str "28"])]])];
           VObj
             [prop "areas"
                (VArr [VObj [prop "temps" (VArr [str "15"])]])]])].

(** A first bucket that has its timestamps and no [areas]. *)
Definition days_only_entry : value :=
  VObj
    [prop "timeSeries"
       (VArr
          [VObj
             [prop "timeDefines"
                (VArr [str "2024-05-03T11:00:00+09:00";
                       str "2024-05-04T00:00:00+09:00"])]])].

(** A first bucket that has nothing. *)
Definition empty_bucket_entry : value :=
  VObj [prop "timeSeries" (VArr [VObj []])].

(** A time-series section without buckets, and one whose buckets have
    their areas and no timestamps. *)
Definition no_bucket_entry : value :=
  VObj [prop "timeSeries" (VArr [])].

Definition no_days_entry : value :=
  VObj
    [prop "timeSeries"
       (VArr
          [VObj [prop "timeDefines" (VArr []);
                 prop "areas"
                   (VArr [VObj [prop "weathers" (VArr [str "晴れ"])]])]])].

(** Values that are there and falsy: the empty string, zero, [false]. *)
Definition falsy_entry : value :=
  VObj
    [prop "reportDatetime" (str "2024-05-03T11:00:00+09:00");
     prop "timeSeries"
       (VArr
          [VObj
             [prop "timeDefines" (VArr [str "2024-05-03T11:00:00+09:00"]);
              prop "areas"
                (VArr [VObj [prop "weathers" (VArr [str ""])]])];
           VObj
             [prop "areas"
                (VArr [VObj [prop "pops" (VArr [num 0]);
                             prop "temps" (VArr [num 0])]])];
           VObj
             [prop "areas"
                (VArr [VObj [prop "temps" (VArr [VBool false; str ""])]])]])].

Definition falsy_payload : value := VArr [falsy_entry; falsy_entry].

(** Transports: one that answers with a body, one that answers with an
    error status, one that cannot be reached, one whose body does not
    parse. *)
Definition serve (body : value) : jsstring -> result Response :=
  fun _ => Ok {| ok := true; json := Ok body |}.

Definition refuse : jsstring -> result Response :=
  fun _ => Ok {| ok := false; json := Ok VNull |}.

Definition unreachable : jsstring -> result Response :=
  fun _ => Throw TypeError.

Definition garbled : jsstring -> result Response :=
  fun _ => Ok {| ok := true; json := Throw SyntaxError |}.

(** ** What the component renders

    The tree the component returns: text and elements with the properties
    the source gives them. *)

Inductive attribute : Type :=
| Id (id : string)
| Key (key : jsstring)
| FontWeight (bold : bool)
| Color (color : string)
| Border (width : string)
| OnClick (e : event).

#[warnings="-register-all"] Inductive element : Type :=
| Text (s : jsstring)
| Element (tag : string) (attributes : list attribute)
    (children : list element).

(** [Object.keys(AREA_CODES)], in the order of the literal. *)
Definition AREA_CODES_keys : list area := [Hokkaido; Tokyo; Osaka; Fukuoka].

(** A truthy [error]: a string that is not empty. *)
Definition error_message (e : option jsstring) : option jsstring :=
  match e with
  | Some m => if is_empty m then None else Some m
  | None => None
  end.

Definition region_button (selected : area) (a : area) : element :=
  Element "button"
    [Key (area_name a); OnClick (Click_area a);
     FontWeight (area_eqb a selected)]
    [Text (area_name a)].

(** [threeDayWeather.map((day, index) => <tag key={index}>{cell(day)}</tag>)] *)
Fixpoint cells (tag : string) (cell : ThreeDay.DaySummary -> jsstring)
    (index : nat) (days : list ThreeDay.DaySummary) : list element :=
  match days with
  | [] => []
  | day :: rest =>
      Element tag [Key (decimal (Z.of_nat index))] [Text (cell day)]
        :: cells tag cell (S index) rest
  end.

Definition today_card (w : TodaySummary) : element :=
  Element "div" []
    [Element "h2" [] [Text (date w); Text (js " の天気")];
     Element "p" [] [Text (js "天気: "); Text (weather w)];
     Element "p" [] [Text (js "気温: "); Text (temperature w)];
     Element "p" [] [Text (js "降水確率: "); Text (precipitation w)]].

Definition three_day_table (days : list ThreeDay.DaySummary) : element :=
  Element "div" []
    [Element "h2" [] [Text (js "3日間の天気予報")];
     Element "table" [Border "1"]
       [Element "thead" []
          [Element "tr" []
             (Element "th" [] [Text (js " ")]
                :: cells "th" ThreeDay.date 0 days)];
        Element "tbody" []
          [Element "tr" []
             (Element "td" [] [Text (js "天気")]
                :: cells "td" ThreeDay.weather 0 days);
           Element "tr" []
             (Element "td" [] [Text (js "最高気温")]
                :: cells "td" ThreeDay.maxTemp 0 days);
           Element "tr" []
             (Element "td" [] [Text (js "最低気温")]
                :: cells "td" ThreeDay.minTemp 0 days)]]].

(** The conditional at the end of the tree. *)
Definition content (st : ViewState) : element :=
  if isLoading st then Element "p" [] [Text (js "読み込み中...")]
  else
    match error_message (error st) with
    | Some m => Element "p" [Color "red"] [Text (js "エラー: "); Text m]
    | None =>
        match viewMode st, weatherData st, threeDayWeather st with
        | today, Some w, _ => today_card w
        | three_day, _, Some days => three_day_table days
        | _, _, _ => Element "p" [] [Text (js "データがありません")]
        end
    end.

Definition render (st : ViewState) : element :=
  Element "div" []
    [Element "h1" [Id "ttl"]
       [Text (area_name (selectedArea st)); Text (js " の天気")];
     Element "div" [] (map (region_button (selectedArea st)) AREA_CODES_keys);
     Element "div" []
       [Element "button" [OnClick (Click_viewMode today)]
          [Text (js "今日の天気")];
        Element "button" [OnClick (Click_viewMode three_day)]
          [Text (js "3日間の天気")]];
     content st].

(** *** Reading a tree *)

Definition on_click (attributes : list attribute) : list event :=
  flat_map (fun a => match a with OnClick e => [e] | _ => [] end) attributes.

Definition is_bold (attributes : list attribute) : bool :=
  existsb (fun a => match a with FontWeight b => b | _ => false end)
    attributes.

(** The handlers of a tree, in document order. *)
Fixpoint handlers (e : element) : list event :=
  match e with
  | Text _ => []
  | Element _ attributes children =>
      on_click attributes ++
      (fix go (l : list element) : list event :=
         match l with
         | [] => []
         | c :: rest => handlers c ++ go rest
         end) children
  end.

(** The buttons of a tree, in document order: the text of each and
    whether its [fontWeight] is bold. *)
Fixpoint buttons (e : element) : list (jsstring * bool) :=
  match e with
  | Text _ => []
  | Element tag attributes children =>
      (if String.eqb tag "button"
       then [((fix text (l : list element) : jsstring :=
                 match l with
                 | [] => []
                 | Text s :: rest => s ++ text rest
                 | Element _ _ _ :: rest => text rest
                 end) children,
              is_bold attributes)]
       else []) ++
      (fix go (l : list element) : list (jsstring * bool) :=
         match l with
         | [] => []
         | c :: rest => buttons c ++ go rest
         end) children
  end.

(** The text of a tree, as [textContent] gives it. *)
Fixpoint text_content (e : element) : jsstring :=
  match e with
  | Text s => s
  | Element _ _ children =>
      (fix go (l : list element) : jsstring :=
         match l with
         | [] => []
         | c :: rest => text_content c ++ go rest
         end) children
  end.

(** The children of an element. *)
Definition children_of (e : element) : list element :=
  match e with
  | Text _ => []
  | Element _ _ children => children
  end.

(** The rows of the table of a tree made by [three_day_table]: the [tr]
    of the head and those of the body. *)
Definition table_rows (e : element) : list element :=
  match children_of e with
  | [_; table] =>
      match children_of table with
      | [thead; tbody] => children_of thead ++ children_of tbody
      | _ => []
      end
  | _ => []
  end.

(** The summary in which nothing is known. *)
Definition all_unknown : TodaySummary :=
  {| date := js "不明"; weather := js "不明"; temperature := js "不明";
     precipitation := js "不明" |}.

(** *** Sample payloads and states *)

(** The properties of a payload object whose [length] hides [toString]. *)
Definition hidden_length : list (jsstring * value) :=
  [prop "length" (VObj [prop "toString" (num 0)])].

(** An error document: an object, not the array of report entries. *)
Definition error_document : value := VObj [prop "error" (str "not found")].

(** Both summaries of 東京 on the screen, 大阪 selected and its fetch in
    flight. *)
Definition browsing : World :=
  fold_left step [Settle 0 (serve forecast); Click_area Osaka] mounted.

(** 大阪 selected while the first fetch, for 東京, is still in flight. *)
Definition overtaken : World := step mounted (Click_area Osaka).

(** * Properties *)

(** ** Values and chains *)

Arguments child : simpl never.

Lemma truthy_not_nullish v : truthy v = true -> nullish v = false.
Proof. destruct v; simpl; congruence. Qed.

Lemma nullish_not_truthy v : nullish v = true -> truthy v = false.
Proof. destruct v; simpl; congruence. Qed.

Lemma norm_truthy o r :
  norm o = norm (Some r) -> truthy r = true -> o = Some r.
Proof.
  intros E T. pose proof (truthy_not_nullish _ T) as N.
  unfold norm in E. rewrite N in E.
  destruct o as [t|]; [destruct (nullish t) eqn:Nt|]; subst; try discriminate;
    try reflexivity.
Qed.

Lemma norm_falsy o r t :
  norm o = norm (Some r) -> truthy r = false -> o = Some t -> truthy t = false.
Proof.
  intros E F ->. unfold norm in E.
  destruct (nullish t) eqn:Nt.
  - now apply nullish_not_truthy.
  - destruct (nullish r); subst; [discriminate|assumption].
Qed.

Lemma get_index_child v i :
  nullish v = false -> get_index v i = Ok (or_undefined (child v (Idx i))).
Proof.
  destruct v; unfold child; simpl; try discriminate; try reflexivity.
  intros _. now destruct (nth_error s i).
Qed.

Lemma get_field_child v f :
  nullish v = false -> get_field v f = Ok (or_undefined (child v (Fld f))).
Proof. destruct v; unfold child; simpl; try discriminate; reflexivity. Qed.

Lemma child_Idx_nullish v i v' : child v (Idx i) = Some v' -> nullish v = false.
Proof. destruct v; unfold child; simpl; congruence. Qed.

Lemma child_Fld_nullish v f v' : child v (Fld f) = Some v' -> nullish v = false.
Proof. destruct v; unfold child; simpl; congruence. Qed.

Lemma get_index_nullish v i r : get_index v i = Ok r -> nullish v = false.
Proof. destruct v; simpl; congruence. Qed.

Lemma get_field_nullish v f r : get_field v f = Ok r -> nullish v = false.
Proof. destruct v; simpl; congruence. Qed.

Lemma eval_chain_nullish c v r :
  nullish v = true -> eval_chain v c = Ok r -> nullish r = true.
Proof.
  intros N. destruct c as [|[i|f| |sep] c]; simpl.
  - congruence.
  - destruct v; discriminate.
  - destruct v; discriminate.
  - rewrite N. now intros [= <-].
  - destruct v; discriminate.
Qed.

Lemma at_path_nullish c v t :
  nullish v = true -> at_path v c = Some t -> t = v.
Proof.
  intros N. induction c as [|[i|f| |sep] c IH]; simpl.
  - congruence.
  - destruct v; discriminate.
  - destruct v; discriminate.
  - exact IH.
  - destruct v; discriminate.
Qed.

Lemma norm_of_nullish c v : nullish v = true -> norm (at_path v c) = VUndefined.
Proof.
  intros N. destruct (at_path v c) as [t|] eqn:E; [|reflexivity].
  apply at_path_nullish in E; [subst|assumption]. simpl. now rewrite N.
Qed.

(** A chain that completes yields the value at its position in the tree,
    [undefined] when there is none. *)
Lemma eval_chain_norm c : forall v r,
  eval_chain v c = Ok r -> norm (at_path v c) = norm (Some r).
Proof.
  induction c as [|[i|f| |sep] c IH]; intros v r; simpl.
  - now intros [= ->].
  - destruct (get_index v i) as [v'|] eqn:G; simpl; [|discriminate].
    intros E. pose proof (get_index_nullish _ _ _ G) as N.
    rewrite (get_index_child _ _ N) in G. injection G as <-.
    destruct (child v (Idx i)) as [v''|]; simpl in *; [now apply IH|].
    apply eval_chain_nullish in E; [|reflexivity]. now rewrite E.
  - destruct (get_field v f) as [v'|] eqn:G; simpl; [|discriminate].
    intros E. pose proof (get_field_nullish _ _ _ G) as N.
    rewrite (get_field_child _ _ N) in G. injection G as <-.
    destruct (child v (Fld f)) as [v''|]; simpl in *; [now apply IH|].
    apply eval_chain_nullish in E; [|reflexivity]. now rewrite E.
  - destruct (nullish v) eqn:N.
    + intros [= <-]. now apply norm_of_nullish.
    + apply IH.
  - destruct v; simpl; try discriminate. apply IH.
Qed.

(** A position that is in the tree is reached without an exception. *)
Lemma at_path_eval c : forall v t,
  at_path v c = Some t ->
  exists r, eval_chain v c = Ok r /\ norm (Some r) = norm (Some t).
Proof.
  induction c as [|[i|f| |sep] c IH]; intros v t; simpl.
  - intros [= ->]. eauto.
  - destruct (child v (Idx i)) as [v'|] eqn:C; [|discriminate].
    intros E. pose proof (child_Idx_nullish _ _ _ C) as N.
    rewrite (get_index_child _ _ N), C. simpl. now apply IH.
  - destruct (child v (Fld f)) as [v'|] eqn:C; [|discriminate].
    intros E. pose proof (child_Fld_nullish _ _ _ C) as N.
    rewrite (get_field_child _ _ N), C. simpl. now apply IH.
  - destruct (nullish v) eqn:N.
    + intros E. apply at_path_nullish in E; [subst|assumption].
      exists VUndefined. simpl. now rewrite N.
    + apply IH.
  - destruct v; simpl; try discriminate. apply IH.
Qed.

Lemma at_path_eval_truthy c v t :
  at_path v c = Some t -> truthy t = true -> eval_chain v c = Ok t.
Proof.
  intros E T. destruct (at_path_eval _ _ _ E) as (r & R & N).
  rewrite R. f_equal. apply norm_truthy in N; congruence.
Qed.

Lemma at_path_eval_falsy c v t :
  at_path v c = Some t -> truthy t = false ->
  exists r, eval_chain v c = Ok r /\ truthy r = false.
Proof.
  intros E F. destruct (at_path_eval _ _ _ E) as (r & R & N).
  exists r. split; [assumption|].
  destruct (truthy r) eqn:T; [|reflexivity].
  symmetry in N. apply norm_truthy in N; congruence.
Qed.

Lemma shown_norm unit a b : norm a = norm b -> shown unit a = shown unit b.
Proof.
  assert (S : forall o, shown unit o = shown unit (Some (norm o))).
  { intros [t|]; simpl; [|reflexivity].
    destruct (nullish t) eqn:N; [|reflexivity].
    now rewrite (nullish_not_truthy _ N). }
  intros E. now rewrite (S a), (S b), E.
Qed.

(** The conditional reading of the source is [shown] at the position the
    two chains share. *)
Lemma reading_shown data cond again unit c :
  eval_chain data cond = Ok c ->
  at_path data again = at_path data cond ->
  reading data cond again unit = shown unit (at_path data cond).
Proof.
  intros E P. unfold reading. rewrite E. simpl.
  pose proof (eval_chain_norm _ _ _ E) as N.
  rewrite (shown_norm unit _ _ N). simpl.
  destruct (truthy c) eqn:T; [|reflexivity].
  apply norm_truthy in N; [|assumption]. rewrite <- P in N.
  now rewrite (at_path_eval_truthy _ _ _ N T).
Qed.

Lemma reading_Ok data cond again unit s :
  reading data cond again unit = Ok s ->
  exists c, eval_chain data cond = Ok c.
Proof.
  unfold reading. destruct (eval_chain data cond) as [c|]; [eauto|discriminate].
Qed.

(** ** [extractTodayWeather] *)

Lemma or_else_norm w d : or_else (norm (Some w)) d = or_else w d.
Proof.
  unfold or_else, norm. destruct (nullish w) eqn:N; [|reflexivity].
  now rewrite (nullish_not_truthy _ N).
Qed.

Lemma formatDate_norm r : formatDate (norm (Some r)) = formatDate r.
Proof.
  unfold norm. destruct (nullish r) eqn:N; [|reflexivity].
  unfold formatDate. now rewrite (nullish_not_truthy _ N).
Qed.

Lemma get_length_truthy data :
  truthy data = true -> exists len, get_length data = Ok len.
Proof. destruct data; simpl; try discriminate; eauto. Qed.

(** One step of the exception monad, chains left folded. *)
Ltac run := cbn [bind try_catch negb orb andb].

Lemma extractTodayWeather_never_throws data :
  exists r, extractTodayWeather data = Ok r.
Proof.
  unfold extractTodayWeather. destruct (truthy data) eqn:T; run; [|eauto].
  destruct (get_length_truthy _ T) as (len & ->). run.
  destruct (strict_eq_0 len); [eauto|].
  match goal with |- context [try_catch ?b _] => destruct b end; run; eauto.
Qed.

(** The body of the [try] block, when it completes. *)
Lemma extractTodayWeather_body data s :
  extractTodayWeather data = Ok (Some s) ->
  exists rawDate w,
    eval_chain data rawDate_chain = Ok rawDate /\
    eval_chain data weatherText_chain = Ok w /\
    formatDate rawDate = Ok (date s) /\
    weather s = getWeatherText (or_else w (VStr (js "不明"))) /\
    reading data temperature_chain temperature_chain' (js "℃")
      = Ok (temperature s) /\
    reading data precipitation_chain precipitation_chain' (js "%")
      = Ok (precipitation s).
Proof.
  unfold extractTodayWeather. destruct (truthy data) eqn:T; run; [|discriminate].
  destruct (get_length_truthy _ T) as (len & ->). run.
  destruct (strict_eq_0 len); [discriminate|].
  destruct (eval_chain data rawDate_chain) as [rawDate|]; run; [|discriminate].
  destruct (eval_chain data weatherText_chain) as [w|]; run; [|discriminate].
  destruct (formatDate rawDate) as [d|] eqn:Ed; run; [|discriminate].
  destruct (reading data temperature_chain _ _) as [t|] eqn:Et; run;
    [|discriminate].
  destruct (reading data precipitation_chain _ _) as [p|] eqn:Ep; run;
    [|discriminate].
  intros [= <-]. simpl. exists rawDate, w. repeat split; assumption.
Qed.

(** Every field of a returned summary, by the position it is read from. *)
Lemma extractTodayWeather_fields data s :
  extractTodayWeather data = Ok (Some s) ->
  formatDate
    (norm (at_path data [Idx 0; Fld reportDatetime; Split (unit_of "T"); Idx 0]))
    = Ok (date s) /\
  weather s =
    getWeatherText
      (or_else
         (norm (at_path data [Idx 0; Fld timeSeries; Idx 0; Fld areas; Idx 0;
                              Fld weathers; Idx 0]))
         (VStr (js "不明"))) /\
  shown (js "℃")
    (at_path data [Idx 1; Fld timeSeries; Idx 2; Fld areas; Idx 0; Fld temps;
                   Idx 1])
    = Ok (temperature s) /\
  shown (js "%")
    (at_path data [Idx 0; Fld timeSeries; Idx 1; Fld areas; Idx 0; Fld pops;
                   Idx 0])
    = Ok (precipitation s).
Proof.
  intros E. destruct (extractTodayWeather_body _ _ E)
    as (rawDate & w & Er & Ew & Ed & Ewt & Et & Ep).
  apply eval_chain_norm in Er, Ew.
  change (at_path data rawDate_chain)
    with (at_path data [Idx 0; Fld reportDatetime; Split (unit_of "T"); Idx 0])
    in Er.
  change (at_path data weatherText_chain)
    with (at_path data [Idx 0; Fld timeSeries; Idx 0; Fld areas; Idx 0;
                        Fld weathers; Idx 0]) in Ew.
  rewrite Er, Ew, formatDate_norm, or_else_norm.
  destruct (reading_Ok _ _ _ _ _ Et) as (ct & Ect).
  destruct (reading_Ok _ _ _ _ _ Ep) as (cp & Ecp).
  rewrite (reading_shown data temperature_chain temperature_chain' _ _
             Ect eq_refl) in Et.
  rewrite (reading_shown data precipitation_chain precipitation_chain' _ _
             Ecp eq_refl) in Ep.
  repeat split; assumption.
Qed.

Lemma at_path_eval_present c v t :
  at_path v c = Some t -> nullish t = false -> eval_chain v c = Ok t.
Proof.
  intros E N. destruct (at_path_eval _ _ _ E) as (r & R & Nr).
  rewrite R. f_equal. unfold norm in Nr. rewrite N in Nr.
  destruct (nullish r); [subst; discriminate|assumption].
Qed.

Lemma reading_present data cond again unit t :
  at_path data cond = Some t ->
  at_path data again = at_path data cond ->
  reading data cond again unit = shown unit (Some t).
Proof.
  intros E P. destruct (at_path_eval _ _ _ E) as (r & R & _).
  now rewrite (reading_shown _ _ _ _ _ R P), E.
Qed.

Lemma split_hd sep s :
  nth_error (map VStr (split sep s)) 0 = Some (VStr (hd [] (split sep s))).
Proof.
  induction s as [|c s IH]; simpl; [reflexivity|].
  destruct (c =? sep)%N; [reflexivity|].
  now destruct (split sep s).
Qed.

Lemma at_path_date_part v p r :
  at_path v p = Some (VStr r) ->
  at_path v (p ++ [Split (unit_of "T"); Idx 0]) = Some (VStr (date_part r)).
Proof.
  revert v. induction p as [|k p IH]; intros v; cbn [at_path app].
  - intros [= ->]. unfold child at 1. cbn [at_path]. unfold child.
    now rewrite split_hd.
  - destruct (child v k); [apply IH|discriminate].
Qed.

Lemma extractTodayWeather_returns data rawDate w d t p :
  truthy data = true ->
  (forall len, get_length data = Ok len -> strict_eq_0 len = false) ->
  eval_chain data rawDate_chain = Ok rawDate ->
  eval_chain data weatherText_chain = Ok w ->
  formatDate rawDate = Ok d ->
  reading data temperature_chain temperature_chain' (js "℃") = Ok t ->
  reading data precipitation_chain precipitation_chain' (js "%") = Ok p ->
  extractTodayWeather data
    = Ok (Some {| date := d;
                  weather := getWeatherText (or_else w (VStr (js "不明")));
                  temperature := t;
                  precipitation := p |}).
Proof.
  intros T L Er Ew Ed Et Ep. unfold extractTodayWeather. rewrite T. run.
  destruct (get_length_truthy _ T) as (len & El). rewrite El. run.
  rewrite (L _ El), Er. run. rewrite Ew. run. rewrite Ed. run.
  rewrite Et. run. now rewrite Ep.
Qed.

Lemma formatDate_string s : exists d, formatDate (VStr s) = Ok d.
Proof. unfold formatDate. destruct (negb (truthy (VStr s))); simpl; eauto. Qed.

Lemma absent_second_entry e0 rest p :
  nullish (or_undefined (nth_error rest 0)) = true ->
  at_path (VArr (e0 :: rest)) (Idx 1 :: Fld timeSeries :: p) = None.
Proof.
  intros N. cbn [at_path]. unfold child at 1.
  destruct rest as [|x rest']; cbn [nth_error]; [reflexivity|].
  destruct x; try discriminate; reflexivity.
Qed.

Lemma absent_second_entry_chain e0 rest :
  nullish (or_undefined (nth_error rest 0)) = true ->
  eval_chain (VArr (e0 :: rest)) temperature_chain = Ok VUndefined.
Proof.
  intros N. unfold temperature_chain.
  destruct rest as [|x rest']; [reflexivity|].
  destruct x; try discriminate; reflexivity.
Qed.

(** A summary is returned when the timestamp and the first weather text of
    entry 0 are there and the two conditional readings complete. *)
Lemma extractTodayWeather_populated e0 rest r w t p :
  at_path e0 [Fld reportDatetime] = Some (VStr r) ->
  at_path e0 [Fld timeSeries; Idx 0; Fld areas; Idx 0; Fld weathers; Idx 0]
    = Some w ->
  reading (VArr (e0 :: rest)) temperature_chain temperature_chain' (js "℃")
    = Ok t ->
  reading (VArr (e0 :: rest)) precipitation_chain precipitation_chain' (js "%")
    = Ok p ->
  exists d,
    formatDate (VStr (date_part r)) = Ok d /\
    extractTodayWeather (VArr (e0 :: rest))
    = Ok (Some {| date := d;
                  weather := getWeatherText (or_else w (VStr (js "不明")));
                  temperature := t;
                  precipitation := p |}).
Proof.
  intros Hr Hw Et Ep. set (data := VArr (e0 :: rest)) in *.
  assert (Er : eval_chain data rawDate_chain = Ok (VStr (date_part r))).
  { apply at_path_eval_present; [|reflexivity].
    apply (at_path_date_part e0 [Fld reportDatetime] r Hr). }
  assert (Pw : at_path data weatherText_chain = Some w) by exact Hw.
  destruct (at_path_eval _ _ _ Pw) as (w' & Ew & Nw).
  destruct (formatDate_string (date_part r)) as (d & Ed).
  exists d. split; [assumption|].
  rewrite <- (or_else_norm w), <- Nw, or_else_norm.
  apply (extractTodayWeather_returns data (VStr (date_part r)) w' d t p);
    try assumption.
  - reflexivity.
  - intros len [= <-]. reflexivity.
Qed.

Lemma shown_Ok unit t :
  printable t = true -> exists s, shown unit (Some t) = Ok s.
Proof.
  intros P. unfold shown, printable in *. destruct (truthy t); [|eauto].
  destruct (to_string t); [run; eauto|discriminate].
Qed.

(** C1: for every payload, the temperature of the summary is the value at
    position [1].timeSeries[2].areas[0].temps[1] of the payload (second
    report entry, third time-series bucket, first area, index 1), shown
    with its unit: this holds of every summary returned, and a summary with
    that temperature is returned whenever entry 0 carries its timestamp,
    first weather text and first precipitation value and entry 1 a value at
    that position.  In particular, when the second entry is absent (or
    null), the temperature of every returned summary is 不明 and the date,
    the weather and the precipitation are read from entry 0; and a summary
    is returned when entry 0 carries the three. *)
Theorem extractTodayWeather_temperature_position :
  (forall data s,
     extractTodayWeather data = Ok (Some s) ->
     shown (js "℃")
       (at_path data [Idx 1; Fld timeSeries; Idx 2; Fld areas; Idx 0;
                      Fld temps; Idx 1])
       = Ok (temperature s)) /\
  (forall e0 e1 rest r w p t,
     at_path e0 [Fld reportDatetime] = Some (VStr r) ->
     at_path e0 [Fld timeSeries; Idx 0; Fld areas; Idx 0; Fld weathers; Idx 0]
       = Some w ->
     at_path e0 [Fld timeSeries; Idx 1; Fld areas; Idx 0; Fld pops; Idx 0]
       = Some p ->
     printable p = true ->
     at_path e1 [Fld timeSeries; Idx 2; Fld areas; Idx 0; Fld temps; Idx 1]
       = Some t ->
     printable t = true ->
     exists s,
       extractTodayWeather (VArr (e0 :: e1 :: rest)) = Ok (Some s) /\
       shown (js "℃") (Some t) = Ok (temperature s) /\
       (truthy t = true ->
        exists digits,
          to_string t = Ok digits /\ temperature s = digits ++ js "℃") /\
       formatDate (VStr (date_part r)) = Ok (date s) /\
       weather s = getWeatherText (or_else w (VStr (js "不明"))) /\
       shown (js "%") (Some p) = Ok (precipitation s)) /\
  (forall e0 rest s,
     nullish (or_undefined (nth_error rest 0)) = true ->
     extractTodayWeather (VArr (e0 :: rest)) = Ok (Some s) ->
     temperature s = js "不明" /\
     formatDate
       (norm (at_path e0 [Fld reportDatetime; Split (unit_of "T"); Idx 0]))
       = Ok (date s) /\
     weather s =
       getWeatherText
         (or_else
            (norm (at_path e0 [Fld timeSeries; Idx 0; Fld areas; Idx 0;
                               Fld weathers; Idx 0]))
            (VStr (js "不明"))) /\
     shown (js "%")
       (at_path e0 [Fld timeSeries; Idx 1; Fld areas; Idx 0; Fld pops; Idx 0])
       = Ok (precipitation s)) /\
  (forall e0 rest r w p,
     nullish (or_undefined (nth_error rest 0)) = true ->
     at_path e0 [Fld reportDatetime] = Some (VStr r) ->
     at_path e0 [Fld timeSeries; Idx 0; Fld areas; Idx 0; Fld weathers; Idx 0]
       = Some w ->
     at_path e0 [Fld timeSeries; Idx 1; Fld areas; Idx 0; Fld pops; Idx 0]
       = Some p ->
     printable p = true ->
     exists s,
       extractTodayWeather (VArr (e0 :: rest)) = Ok (Some s) /\
       temperature s = js "不明" /\
       formatDate (VStr (date_part r)) = Ok (date s) /\
       weather s = getWeatherText (or_else w (VStr (js "不明"))) /\
       shown (js "%") (Some p) = Ok (precipitation s)).
Proof.
  assert (Returned : forall e0 rest r w p ts,
     at_path e0 [Fld reportDatetime] = Some (VStr r) ->
     at_path e0 [Fld timeSeries; Idx 0; Fld areas; Idx 0; Fld weathers; Idx 0]
       = Some w ->
     at_path e0 [Fld timeSeries; Idx 1; Fld areas; Idx 0; Fld pops; Idx 0]
       = Some p ->
     printable p = true ->
     reading (VArr (e0 :: rest)) temperature_chain temperature_chain' (js "℃")
       = Ok ts ->
     exists s,
       extractTodayWeather (VArr (e0 :: rest)) = Ok (Some s) /\
       temperature s = ts /\
       formatDate (VStr (date_part r)) = Ok (date s) /\
       weather s = getWeatherText (or_else w (VStr (js "不明"))) /\
       shown (js "%") (Some p) = Ok (precipitation s)).
  { intros e0 rest r w p ts Hr Hw Hp Pp Et.
    destruct (shown_Ok (js "%") p Pp) as (ps & Es).
    assert (Ep : reading (VArr (e0 :: rest)) precipitation_chain
                   precipitation_chain' (js "%") = Ok ps).
    { rewrite <- Es. apply reading_present; [exact Hp|reflexivity]. }
    destruct (extractTodayWeather_populated e0 rest r w ts ps Hr Hw Et Ep)
      as (d & Ed & E).
    eexists. split; [exact E|].
    cbn [temperature date weather precipitation]. auto. }
  split; [|split; [|split]].
  - intros data s E. apply (extractTodayWeather_fields _ _ E).
  - intros e0 e1 rest r w p t Hr Hw Hp Pp Ht Pt.
    destruct (shown_Ok (js "℃") t Pt) as (ts & Es).
    destruct (Returned e0 (e1 :: rest) r w p ts Hr Hw Hp Pp)
      as (s & E & Et & Rest).
    { rewrite <- Es. apply reading_present; [exact Ht|reflexivity]. }
    exists s. split; [exact E|]. rewrite Et. split; [exact Es|].
    split; [|exact Rest].
    intros T. revert Es. cbn [shown]. rewrite T.
    destruct (to_string t) as [digits|]; run; [|discriminate].
    intros [= <-]. eauto.
  - intros e0 rest s N E.
    destruct (extractTodayWeather_fields _ _ E) as (Ed & Ew & Et & Ep).
    rewrite absent_second_entry in Et by assumption.
    injection Et as <-. repeat split; assumption.
  - intros e0 rest r w p N Hr Hw Hp Pp.
    apply (Returned e0 rest r w p (js "不明") Hr Hw Hp Pp).
    unfold reading. now rewrite absent_second_entry_chain.
Qed.

(** ** [extractThreeDayWeather] *)

Lemma at_path_app c c' v :
  at_path v (c ++ c') =
  match at_path v c with
  | Some t => at_path t c'
  | None => None
  end.
Proof.
  revert v. induction c as [|k c IH]; intros v; cbn [at_path app]; [reflexivity|].
  destruct (child v k); [apply IH|reflexivity].
Qed.

Lemma shown_or_undefined unit o :
  shown unit (Some (or_undefined o)) = shown unit o.
Proof. destruct o; reflexivity. Qed.

Lemma weather_shown_or_undefined o :
  weather_shown (Some (or_undefined o)) = weather_shown o.
Proof. destruct o; reflexivity. Qed.

Lemma falsy_no_child w i : truthy w = false -> child w (Idx i) = None.
Proof.
  destruct w; unfold child; simpl; try reflexivity; try discriminate.
  destruct s; [intros _|discriminate]. now destruct i.
Qed.

(** Reading index [i] of a list the source took as [chain || []]. *)
Lemma get_index_or_else c v w i :
  eval_chain v c = Ok w ->
  get_index (or_else w (VArr [])) i
  = Ok (or_undefined (at_path v (c ++ [Idx i]))).
Proof.
  intros E. pose proof (eval_chain_norm _ _ _ E) as N.
  rewrite at_path_app. unfold or_else. destruct (truthy w) eqn:T.
  - apply norm_truthy in N; [|assumption]. rewrite N. cbn [at_path].
    rewrite (get_index_child _ _ (truthy_not_nullish _ T)).
    now destruct (child w (Idx i)).
  - cbn [get_index]. destruct i; cbn [nth_error or_undefined];
      (destruct (at_path v c) as [t|] eqn:P; [|reflexivity]);
      cbn [at_path];
      rewrite (falsy_no_child t _ (norm_falsy _ _ _ N T eq_refl)); reflexivity.
Qed.

Lemma temp_cell_shown c v w i :
  eval_chain v c = Ok w ->
  temp_cell (or_else w (VArr [])) i = shown (js "℃") (at_path v (c ++ [Idx i])).
Proof.
  intros E. unfold temp_cell. rewrite (get_index_or_else _ _ _ _ E).
  cbn [bind]. now rewrite <- shown_or_undefined.
Qed.

Lemma map_indexed_length {A} (f : value -> nat -> result A) l : forall k rows,
  map_indexed f k l = Ok rows -> List.length rows = List.length l.
Proof.
  induction l as [|x l IH]; intros k rows; cbn [map_indexed].
  - now intros [= <-].
  - destruct (f x k); run; [|discriminate].
    destruct (map_indexed f (S k) l) eqn:E; run; [|discriminate].
    intros [= <-]. simpl. f_equal. eapply IH, E.
Qed.

Lemma map_indexed_nth {A} (f : value -> nat -> result A) l :
  forall k rows i row,
  map_indexed f k l = Ok rows -> nth_error rows i = Some row ->
  exists x, nth_error l i = Some x /\ f x (k + i)%nat = Ok row.
Proof.
  induction l as [|x l IH]; intros k rows i row; cbn [map_indexed].
  - intros [= <-]. now destruct i.
  - destruct (f x k) eqn:F; run; [|discriminate].
    destruct (map_indexed f (S k) l) eqn:E; run; [|discriminate].
    intros [= <-]. destruct i as [|i]; cbn [nth_error].
    + intros [= <-]. exists x. now rewrite Nat.add_0_r.
    + intros R. destruct (IH _ _ _ _ E R) as (y & Y & FY).
      exists y. split; [assumption|]. now rewrite Nat.add_succ_r.
Qed.

Lemma map_indexed_total {A} (f : value -> nat -> result A) l : forall k,
  (forall i x, nth_error l i = Some x -> exists y, f x (k + i)%nat = Ok y) ->
  exists rows, map_indexed f k l = Ok rows.
Proof.
  induction l as [|x l IH]; intros k F; cbn [map_indexed]; [eauto|].
  destruct (F 0%nat x eq_refl) as (y & Y). rewrite Nat.add_0_r in Y.
  rewrite Y. run.
  destruct (IH (S k)) as (rows & R).
  { intros i z Z. destruct (F (S i) z Z) as (y' & Y').
    rewrite Nat.add_succ_r in Y'. eauto. }
  rewrite R. run. eauto.
Qed.

Lemma nth_error_firstn {A} n (l : list A) i x :
  nth_error (firstn n l) i = Some x -> nth_error l i = Some x /\ (i < n)%nat.
Proof.
  revert l i. induction n as [|n IH]; intros l i; cbn [firstn].
  - now destruct i.
  - destruct l as [|a l]; [now destruct i|].
    destruct i as [|i]; cbn [nth_error].
    + intros E. split; [assumption|lia].
    + intros E. destruct (IH _ _ E). split; [assumption|lia].
Qed.

(** One row of the table, by the positions its cells are read from. *)
Lemma day_row_cells e0 w mx mn x i row :
  eval_chain e0 weathers_chain = Ok w ->
  eval_chain e0 maxTemps_chain = Ok mx ->
  eval_chain e0 minTemps_chain = Ok mn ->
  day_row (or_else w (VArr [])) (or_else mx (VArr [])) (or_else mn (VArr []))
    x i = Ok row ->
  exists ts,
    x = VStr ts /\
    formatDate (VStr (date_part ts)) = Ok (ThreeDay.date row) /\
    ThreeDay.weather row =
      weather_shown
        (at_path e0 [Fld timeSeries; Idx 0; Fld areas; Idx 0; Fld weathers;
                     Idx i]) /\
    shown (js "℃")
      (at_path e0 [Fld timeSeries; Idx 1; Fld areas; Idx 0; Fld temps; Idx i])
      = Ok (ThreeDay.maxTemp row) /\
    shown (js "℃")
      (at_path e0 [Fld timeSeries; Idx 2; Fld areas; Idx 0; Fld temps; Idx i])
      = Ok (ThreeDay.minTemp row).
Proof.
  intros Ew Emx Emn R. unfold day_row in R.
  destruct x as [| | | |ts| |]; try discriminate R. exists ts. revert R.
  cbn [call_split bind get_index]. rewrite split_hd.
  cbn [or_undefined]. fold (date_part ts).
  destruct (formatDate (VStr (date_part ts))) as [d|] eqn:Ed; run;
    [|discriminate].
  rewrite (get_index_or_else _ _ _ i Ew). run.
  rewrite (temp_cell_shown _ _ _ i Emx), (temp_cell_shown _ _ _ i Emn).
  destruct (shown _ (at_path e0 (maxTemps_chain ++ _))) as [a|] eqn:Ea;
    run; [|discriminate].
  destruct (shown _ (at_path e0 (minTemps_chain ++ _))) as [b|] eqn:Eb;
    run; [|discriminate].
  intros [= <-]. cbn [ThreeDay.date ThreeDay.weather ThreeDay.maxTemp
                      ThreeDay.minTemp].
  repeat split; try assumption.
  rewrite <- weather_shown_or_undefined. reflexivity.
Qed.

Lemma lt_1_length {A} (x : A) l :
  lt_1 (VNum (of_int (Z.of_nat (List.length (x :: l))))) = Ok false.
Proof.
  cbn [lt_1 below_1 of_int inject_Z Qnum Qden List.length]. f_equal.
  apply Z.ltb_ge. lia.
Qed.

(** On a non-empty array only the [try] block remains. *)
Lemma extractThreeDayWeather_array e0 rest :
  extractThreeDayWeather (VArr (e0 :: rest)) =
  try_catch
    (missing <- (if negb (truthy e0) then Ok true
                 else ts <- get_field e0 timeSeries ;; Ok (negb (truthy ts))) ;;
     if missing : bool then Ok None
     else
       d <- eval_chain e0 days_chain ;;
       w <- eval_chain e0 weathers_chain ;;
       mx <- eval_chain e0 maxTemps_chain ;;
       mn <- eval_chain e0 minTemps_chain ;;
       first3 <- call_slice (or_else d (VArr [])) 0 3 ;;
       rows <- call_map first3
                 (day_row (or_else w (VArr [])) (or_else mx (VArr []))
                    (or_else mn (VArr []))) ;;
       Ok (Some rows))
    (fun _ => Ok None).
Proof.
  unfold extractThreeDayWeather.
  cbn [truthy negb get_length bind]. rewrite lt_1_length. reflexivity.
Qed.

Lemma timeSeries_section e0 :
  truthy (norm (at_path e0 [Fld timeSeries])) = true ->
  truthy e0 = true /\
  exists ts, get_field e0 timeSeries = Ok ts /\ truthy ts = true /\
             at_path e0 [Fld timeSeries] = Some ts.
Proof.
  cbn [at_path]. destruct (child e0 (Fld timeSeries)) as [ts|] eqn:C;
    [|discriminate].
  unfold norm. destruct (nullish ts) eqn:N; [discriminate|]. intros T.
  pose proof (child_Fld_nullish _ _ _ C) as N0.
  split; [destruct e0; try discriminate; reflexivity|].
  exists ts. rewrite (get_field_child _ _ N0), C. auto.
Qed.

Lemma section_timeSeries e0 ts :
  truthy e0 = true -> get_field e0 timeSeries = Ok ts -> truthy ts = true ->
  truthy (norm (at_path e0 [Fld timeSeries])) = true.
Proof.
  intros T0 G T. rewrite (get_field_child _ _ (truthy_not_nullish _ T0)) in G.
  injection G as G. cbn [at_path].
  destruct (child e0 (Fld timeSeries)) as [x|]; cbn [or_undefined] in G; subst;
    [|discriminate].
  unfold norm. now rewrite (truthy_not_nullish _ T).
Qed.

(** What [extractThreeDayWeather] returns, when it returns a list: one row
    for each of the first three timestamps, every cell by position. *)
Lemma extractThreeDayWeather_rows e0 rest rows :
  extractThreeDayWeather (VArr (e0 :: rest)) = Ok (Some rows) ->
  truthy (norm (at_path e0 [Fld timeSeries])) = true /\
  exists dl,
    days_of e0 = VArr dl /\
    List.length rows = Nat.min 3 (List.length dl) /\
    forall i row, nth_error rows i = Some row ->
      exists ts,
        nth_error dl i = Some (VStr ts) /\
        formatDate (VStr (date_part ts)) = Ok (ThreeDay.date row) /\
        ThreeDay.weather row =
          weather_shown
            (at_path e0 [Fld timeSeries; Idx 0; Fld areas; Idx 0; Fld weathers;
                         Idx i]) /\
        shown (js "℃")
          (at_path e0 [Fld timeSeries; Idx 1; Fld areas; Idx 0; Fld temps;
                       Idx i])
          = Ok (ThreeDay.maxTemp row) /\
        shown (js "℃")
          (at_path e0 [Fld timeSeries; Idx 2; Fld areas; Idx 0; Fld temps;
                       Idx i])
          = Ok (ThreeDay.minTemp row).
Proof.
  rewrite extractThreeDayWeather_array.
  destruct (truthy e0) eqn:T0; run; [|discriminate].
  destruct (get_field e0 timeSeries) as [ts|] eqn:G; run; [|discriminate].
  destruct (truthy ts) eqn:T; run; [|discriminate].
  destruct (eval_chain e0 days_chain) as [d|] eqn:Ed; run; [|discriminate].
  destruct (eval_chain e0 weathers_chain) as [w|] eqn:Ew; run; [|discriminate].
  destruct (eval_chain e0 maxTemps_chain) as [mx|] eqn:Emx; run; [|discriminate].
  destruct (eval_chain e0 minTemps_chain) as [mn|] eqn:Emn; run; [|discriminate].
  destruct (call_slice (or_else d (VArr [])) 0 3) as [first3|] eqn:Es; run;
    [|discriminate].
  destruct (call_map first3 _) as [rows'|] eqn:Em; run; [|discriminate].
  intros [= ->]. split; [now apply (section_timeSeries _ ts)|].
  unfold call_map in Em. destruct first3 as [| | | | |l3|]; try discriminate Em.
  unfold call_slice in Es.
  destruct (or_else d (VArr [])) as [| | | | |dl|] eqn:Ed'; try discriminate Es.
  assert (E3 : l3 = firstn 3 dl) by (injection Es as <-; reflexivity).
  subst l3. clear Es.
  exists dl. split; [|split].
  - unfold days_of. apply eval_chain_norm in Ed.
    change (at_path e0 days_chain)
      with (at_path e0 [Fld timeSeries; Idx 0; Fld timeDefines]) in Ed.
    now rewrite Ed, or_else_norm.
  - rewrite (map_indexed_length _ _ _ _ Em). apply length_firstn.
  - intros i row R.
    destruct (map_indexed_nth _ _ _ _ _ _ Em R) as (x & X & F).
    apply nth_error_firstn in X. destruct X as (X & _).
    destruct (day_row_cells _ _ _ _ _ _ _ Ew Emx Emn F) as (ts' & -> & Cells).
    exists ts'. split; assumption.
Qed.

Lemma areas_readable_norm o :
  areas_readable (norm o) = areas_readable (or_undefined o).
Proof.
  destruct o as [b|]; [|reflexivity]. unfold norm. cbn [or_undefined].
  destruct (nullish b) eqn:N; [|reflexivity]. now destruct b.
Qed.

(** A bucket whose [areas] can be indexed lets the three list chains
    complete. *)
Lemma areas_chain_ok e0 ts k f :
  get_field e0 timeSeries = Ok ts -> truthy ts = true ->
  at_path e0 [Fld timeSeries] = Some ts ->
  areas_readable (bucket e0 k) = true ->
  exists w,
    eval_chain e0 [Fld timeSeries; Idx k; Opt; Fld areas; Idx 0; Opt; Fld f]
    = Ok w.
Proof.
  intros G T P R. pose proof (truthy_not_nullish _ T) as N.
  unfold bucket in R. rewrite (at_path_app [Fld timeSeries] [Idx k]), P in R.
  cbn [at_path] in R.
  assert (R' : areas_readable (or_undefined (child ts (Idx k))) = true).
  { rewrite <- areas_readable_norm.
    destruct (child ts (Idx k)); assumption. }
  clear R. cbn [eval_chain]. rewrite G. run.
  rewrite (get_index_child _ _ N). run.
  destruct (nullish (or_undefined (child ts (Idx k)))) eqn:Nb; [eauto|].
  unfold areas_readable in R'.
  destruct (get_field (or_undefined (child ts (Idx k))) areas) as [ar|] eqn:Ga.
  - assert (Nar : nullish ar = false).
    { destruct (or_undefined (child ts (Idx k))); try discriminate;
        now apply negb_true_iff. }
    run. rewrite (get_index_child _ _ Nar). run.
    destruct (nullish (or_undefined (child ar (Idx 0)))) eqn:Na; [eauto|].
    rewrite (get_field_child _ _ Na). run. eauto.
  - destruct (or_undefined (child ts (Idx k))); discriminate.
Qed.

Lemma days_chain_ok e0 ts :
  get_field e0 timeSeries = Ok ts -> truthy ts = true ->
  exists d, eval_chain e0 days_chain = Ok d.
Proof.
  intros G T. unfold days_chain. cbn [eval_chain]. rewrite G. run.
  rewrite (get_index_child _ _ (truthy_not_nullish _ T)). run.
  destruct (nullish (or_undefined (child ts (Idx 0)))) eqn:Nb; [eauto|].
  rewrite (get_field_child _ _ Nb). run. eauto.
Qed.

Lemma shown_printable unit o :
  (forall t, o = Some t -> printable t = true) -> exists s, shown unit o = Ok s.
Proof.
  intros P. destruct o as [t|]; cbn [shown]; [|eauto].
  destruct (truthy t); [|eauto].
  specialize (P t eq_refl). unfold printable in P.
  destruct (to_string t); [run; eauto|discriminate].
Qed.

(** When the list chains complete, the timestamps are strings and the
    temperatures can be printed, the table is returned. *)
Lemma extractThreeDayWeather_returns e0 rest dl :
  truthy (norm (at_path e0 [Fld timeSeries])) = true ->
  areas_readable (bucket e0 0) = true ->
  areas_readable (bucket e0 1) = true ->
  areas_readable (bucket e0 2) = true ->
  days_of e0 = VArr dl ->
  (forall x, In x (firstn 3 dl) -> typeof_string x = true) ->
  (forall i t,
     (i < Nat.min 3 (List.length dl))%nat ->
     at_path e0 [Fld timeSeries; Idx 1; Fld areas; Idx 0; Fld temps; Idx i]
       = Some t -> printable t = true) ->
  (forall i t,
     (i < Nat.min 3 (List.length dl))%nat ->
     at_path e0 [Fld timeSeries; Idx 2; Fld areas; Idx 0; Fld temps; Idx i]
       = Some t -> printable t = true) ->
  exists rows, extractThreeDayWeather (VArr (e0 :: rest)) = Ok (Some rows).
Proof.
  intros S R0 R1 R2 D Str Pmx Pmn.
  destruct (timeSeries_section _ S) as (T0 & ts & G & T & P).
  destruct (days_chain_ok _ _ G T) as (d & Ed).
  destruct (areas_chain_ok _ _ 0 weathers G T P R0) as (w & Ew).
  destruct (areas_chain_ok _ _ 1 temps G T P R1) as (mx & Emx).
  destruct (areas_chain_ok _ _ 2 temps G T P R2) as (mn & Emn).
  fold weathers_chain in Ew. fold maxTemps_chain in Emx.
  fold minTemps_chain in Emn.
  rewrite extractThreeDayWeather_array, T0. run. rewrite G. run.
  rewrite T. run. rewrite Ed. run. rewrite Ew. run. rewrite Emx. run.
  rewrite Emn. run.
  assert (D' : or_else d (VArr []) = VArr dl).
  { rewrite <- D. unfold days_of. apply eval_chain_norm in Ed.
    change (at_path e0 days_chain)
      with (at_path e0 [Fld timeSeries; Idx 0; Fld timeDefines]) in Ed.
    now rewrite Ed, or_else_norm. }
  rewrite D'. cbn [call_slice]. run.
  change (firstn (3 - 0) (skipn 0 dl)) with (firstn 3 dl). cbn [call_map].
  destruct (map_indexed_total
              (day_row (or_else w (VArr [])) (or_else mx (VArr []))
                 (or_else mn (VArr []))) (firstn 3 dl) 0) as (rows & Rows).
  - intros i x X. cbn [Nat.add].
    assert (Li : (i < Nat.min 3 (List.length dl))%nat).
    { rewrite <- length_firstn. apply nth_error_Some. congruence. }
    pose proof (Str x (nth_error_In _ _ X)) as Sx.
    destruct x as [| | | |s| |]; try discriminate Sx.
    unfold day_row. cbn [call_split bind get_index]. rewrite split_hd.
    cbn [or_undefined]. fold (date_part s).
    destruct (formatDate_string (date_part s)) as (dd & ->). run.
    rewrite (get_index_or_else _ _ _ i Ew). run.
    rewrite (temp_cell_shown _ _ _ i Emx), (temp_cell_shown _ _ _ i Emn).
    destruct (shown_printable (js "℃") _ (fun t => Pmx i t Li)) as (a & A).
    destruct (shown_printable (js "℃") _ (fun t => Pmn i t Li)) as (b & B).
    change (at_path e0 (maxTemps_chain ++ [Idx i]))
      with (at_path e0 [Fld timeSeries; Idx 1; Fld areas; Idx 0; Fld temps;
                        Idx i]).
    change (at_path e0 (minTemps_chain ++ [Idx i]))
      with (at_path e0 [Fld timeSeries; Idx 2; Fld areas; Idx 0; Fld temps;
                        Idx i]).
    rewrite A, B. run. eauto.
  - rewrite Rows. run. eauto.
Qed.

Lemma missing_or_empty_days e0 :
  missing_or_empty (at_path e0 [Fld timeSeries; Idx 0; Fld timeDefines]) = true ->
  days_of e0 = VArr [].
Proof.
  unfold days_of.
  destruct (at_path e0 [Fld timeSeries; Idx 0; Fld timeDefines]) as [t|];
    [|reflexivity].
  unfold missing_or_empty, or_else, norm.
  destruct t as [| |b|n|s|[|x l]|o]; cbn [nullish truthy negb];
    try reflexivity; try discriminate.
  - now destruct b.
  - intros E. apply negb_true_iff in E. now rewrite E.
  - intros E. apply negb_true_iff in E. now rewrite E.
Qed.

Lemma short_list_no_item e0 p l i :
  at_path e0 p = Some (VArr l) -> (List.length l <= i)%nat ->
  at_path e0 (p ++ [Idx i]) = None.
Proof.
  intros P L. rewrite at_path_app, P. cbn [at_path]. unfold child.
  now rewrite (proj2 (nth_error_None l i) L).
Qed.

(** The table of an entry whose buckets have their [areas]: one row for
    each of the first three timestamps, the cells taken at the same index,
    不明 where a parallel list is shorter. *)
Lemma extractThreeDayWeather_zip e0 rest dl :
  truthy (norm (at_path e0 [Fld timeSeries])) = true ->
  areas_readable (bucket e0 0) = true ->
  areas_readable (bucket e0 1) = true ->
  areas_readable (bucket e0 2) = true ->
  days_of e0 = VArr dl ->
  (forall x, In x (firstn 3 dl) -> typeof_string x = true) ->
  (forall i t,
     (i < Nat.min 3 (List.length dl))%nat ->
     at_path e0 [Fld timeSeries; Idx 1; Fld areas; Idx 0; Fld temps; Idx i]
       = Some t -> printable t = true) ->
  (forall i t,
     (i < Nat.min 3 (List.length dl))%nat ->
     at_path e0 [Fld timeSeries; Idx 2; Fld areas; Idx 0; Fld temps; Idx i]
       = Some t -> printable t = true) ->
  exists rows,
    extractThreeDayWeather (VArr (e0 :: rest)) = Ok (Some rows) /\
    List.length rows = Nat.min 3 (List.length dl) /\
    forall i row, nth_error rows i = Some row ->
      (exists ts,
         nth_error dl i = Some (VStr ts) /\
         formatDate (VStr (date_part ts)) = Ok (ThreeDay.date row)) /\
      ThreeDay.weather row =
        weather_shown
          (at_path e0 [Fld timeSeries; Idx 0; Fld areas; Idx 0; Fld weathers;
                       Idx i]) /\
      shown (js "℃")
        (at_path e0 [Fld timeSeries; Idx 1; Fld areas; Idx 0; Fld temps; Idx i])
        = Ok (ThreeDay.maxTemp row) /\
      shown (js "℃")
        (at_path e0 [Fld timeSeries; Idx 2; Fld areas; Idx 0; Fld temps; Idx i])
        = Ok (ThreeDay.minTemp row) /\
      (forall l,
         at_path e0 [Fld timeSeries; Idx 0; Fld areas; Idx 0; Fld weathers]
           = Some (VArr l) ->
         (List.length l <= i)%nat -> ThreeDay.weather row = js "不明") /\
      (forall l,
         at_path e0 [Fld timeSeries; Idx 1; Fld areas; Idx 0; Fld temps]
           = Some (VArr l) ->
         (List.length l <= i)%nat -> ThreeDay.maxTemp row = js "不明") /\
      (forall l,
         at_path e0 [Fld timeSeries; Idx 2; Fld areas; Idx 0; Fld temps]
           = Some (VArr l) ->
         (List.length l <= i)%nat -> ThreeDay.minTemp row = js "不明").
Proof.
  intros S R0 R1 R2 D Str Pmx Pmn.
  destruct (extractThreeDayWeather_returns e0 rest dl S R0 R1 R2 D Str Pmx Pmn)
    as (rows & E).
  exists rows. split; [assumption|].
  destruct (extractThreeDayWeather_rows _ _ _ E) as (_ & dl' & D' & Len & Cells).
  rewrite D in D'. injection D' as <-. split; [assumption|].
  intros i row R. destruct (Cells i row R) as (ts & X & Fd & W & Mx & Mn).
  split; [eauto|]. split; [assumption|]. split; [assumption|].
  split; [assumption|]. split; [|split]; intros l P L;
    pose proof (short_list_no_item _ _ _ _ P L) as Z; cbn [app] in Z.
  - now rewrite W, Z.
  - rewrite Z in Mx. now injection Mx.
  - rewrite Z in Mn. now injection Mn.
Qed.

(** Without timestamps the table is empty, when the buckets have their
    [areas]; without a time-series section, and for the empty payload, there
    is no table. *)
Lemma extractThreeDayWeather_no_days :
  (forall e0 rest,
     truthy (norm (at_path e0 [Fld timeSeries])) = true ->
     areas_readable (bucket e0 0) = true ->
     areas_readable (bucket e0 1) = true ->
     areas_readable (bucket e0 2) = true ->
     missing_or_empty (at_path e0 [Fld timeSeries; Idx 0; Fld timeDefines])
       = true ->
     extractThreeDayWeather (VArr (e0 :: rest)) = Ok (Some [])) /\
  (forall e0 rest,
     truthy (norm (at_path e0 [Fld timeSeries])) = false ->
     extractThreeDayWeather (VArr (e0 :: rest)) = Ok None) /\
  extractThreeDayWeather (VArr []) = Ok None.
Proof.
  split; [|split].
  - intros e0 rest S R0 R1 R2 M.
    pose proof (missing_or_empty_days _ M) as D.
    destruct (extractThreeDayWeather_returns e0 rest [] S R0 R1 R2 D)
      as (rows & E).
    + intros x [].
    + intros i t L. cbn in L. lia.
    + intros i t L. cbn in L. lia.
    + rewrite E. do 2 f_equal.
      destruct (extractThreeDayWeather_rows _ _ _ E) as (_ & dl & D' & Len & _).
      rewrite D in D'. injection D' as <-.
      now destruct rows.
  - intros e0 rest S. rewrite extractThreeDayWeather_array.
    destruct (truthy e0) eqn:T0; run; [|reflexivity].
    destruct (get_field e0 timeSeries) as [ts|] eqn:G; run; [|reflexivity].
    destruct (truthy ts) eqn:T; run; [|reflexivity].
    now rewrite (section_timeSeries _ _ T0 G T) in S.
  - reflexivity.
Qed.

(** A bucket that is there without [areas] makes its list chain throw:
    [?.areas[0]] guards the bucket, not its [areas]. *)
Lemma areas_chain_throws e0 ts k f :
  get_field e0 timeSeries = Ok ts -> truthy ts = true ->
  at_path e0 [Fld timeSeries] = Some ts ->
  areas_readable (bucket e0 k) = false ->
  exists e,
    eval_chain e0 [Fld timeSeries; Idx k; Opt; Fld areas; Idx 0; Opt; Fld f]
    = Throw e.
Proof.
  intros G T P R. pose proof (truthy_not_nullish _ T) as N.
  unfold bucket in R. rewrite (at_path_app [Fld timeSeries] [Idx k]), P in R.
  cbn [at_path] in R.
  assert (R' : areas_readable (or_undefined (child ts (Idx k))) = false).
  { rewrite <- areas_readable_norm.
    destruct (child ts (Idx k)); assumption. }
  clear R. cbn [eval_chain]. rewrite G. run.
  rewrite (get_index_child _ _ N). run.
  destruct (nullish (or_undefined (child ts (Idx k)))) eqn:Nb.
  - destruct (or_undefined (child ts (Idx k))); discriminate.
  - rewrite (get_field_child _ _ Nb). run. unfold areas_readable in R'.
    rewrite (get_field_child _ _ Nb) in R'.
    assert (Nar : nullish (or_undefined
                             (child (or_undefined (child ts (Idx k)))
                                (Fld areas))) = true).
    { destruct (or_undefined (child ts (Idx k))); try discriminate Nb;
        now apply negb_false_iff. }
    destruct (or_undefined (child (or_undefined (child ts (Idx k)))
                              (Fld areas))); try discriminate Nar;
      cbn [get_index bind]; eauto.
Qed.

(** C3 (the code departs from it): when the first report entry has a
    time-series section and one of its first three buckets is there
    without an [areas] list (missing or null), [extractThreeDayWeather]
    returns null, whatever timestamps the entry holds: the list that hangs
    under the missing [areas] is not taken for a shorter list and shown as
    不明, the read of [areas[0]] throws and the whole table fails. *)
Theorem extractThreeDayWeather_missing_areas e0 rest k :
  truthy (norm (at_path e0 [Fld timeSeries])) = true ->
  (k <= 2)%nat ->
  areas_readable (bucket e0 k) = false ->
  extractThreeDayWeather (VArr (e0 :: rest)) = Ok None.
Proof.
  intros S K R. destruct (timeSeries_section _ S) as (T0 & ts & G & T & P).
  rewrite extractThreeDayWeather_array, T0. run. rewrite G. run.
  rewrite T. run. destruct (days_chain_ok _ _ G T) as (d & ->). run.
  destruct (eval_chain e0 weathers_chain) as [w|] eqn:Ew; run.
  - destruct (eval_chain e0 maxTemps_chain) as [mx|] eqn:Emx; run;
      [|reflexivity].
    destruct (eval_chain e0 minTemps_chain) as [mn|] eqn:Emn; run;
      [|reflexivity].
    exfalso.
    assert (k = 0 \/ k = 1 \/ k = 2)%nat as [->|[->| ->]] by lia.
    + destruct (areas_chain_throws _ _ 0 weathers G T P R) as (e & E).
      fold weathers_chain in E. congruence.
    + destruct (areas_chain_throws _ _ 1 temps G T P R) as (e & E).
      fold maxTemps_chain in E. congruence.
    + destruct (areas_chain_throws _ _ 2 temps G T P R) as (e & E).
      fold minTemps_chain in E. congruence.
  - reflexivity.
Qed.

Lemma reading_falsy data cond again unit t :
  at_path data cond = Some t -> truthy t = false ->
  reading data cond again unit = Ok (js "不明").
Proof.
  intros P F. destruct (at_path_eval_falsy _ _ _ P F) as (c & E & Fc).
  unfold reading. rewrite E. run. now rewrite Fc.
Qed.

Lemma shown_falsy unit t : truthy t = false -> shown unit (Some t) = Ok (js "不明").
Proof. intros F. cbn [shown]. now rewrite F. Qed.

(** C2 (the code departs from it): when the first report entry is an
    object without [reportDatetime], [extractTodayWeather] returns null
    whatever else the payload holds: the missing timestamp is not shown as
    不明, the [split] call on [undefined] throws and the whole extraction
    fails. *)
Theorem extractTodayWeather_missing_reportDatetime props rest :
  own_property (js "reportDatetime") props = None ->
  extractTodayWeather (VArr (VObj props :: rest)) = Ok None.
Proof.
  intros M. unfold extractTodayWeather.
  cbn [truthy negb get_length bind strict_eq_0 is_zero of_int inject_Z Qnum
       List.length].
  replace (Z.of_nat (S (List.length rest)) =? 0) with false
    by (symmetry; apply Z.eqb_neq; lia).
  unfold rawDate_chain.
  cbn [eval_chain get_index nth_error or_undefined bind nullish get_field
       field_name].
  rewrite M. reflexivity.
Qed.

Lemma child_Idx_truthy v i v' : child v (Idx i) = Some v' -> truthy v = true.
Proof.
  intros C. destruct (truthy v) eqn:T; [reflexivity|].
  now rewrite (falsy_no_child _ i T) in C.
Qed.

(** A bucket that has a member at [timeSeries[k]...] makes the
    time-series section truthy. *)
Lemma present_section e0 k p t :
  at_path e0 (Fld timeSeries :: Idx k :: p) = Some t ->
  truthy (norm (at_path e0 [Fld timeSeries])) = true.
Proof.
  cbn [at_path]. destruct (child e0 (Fld timeSeries)) as [ts|]; [|discriminate].
  destruct (child ts (Idx k)) as [b|] eqn:C; [|discriminate]. intros _.
  pose proof (child_Idx_truthy _ _ _ C) as T.
  unfold norm. now rewrite (truthy_not_nullish _ T).
Qed.

(** A bucket with a member at [areas[i]...] has [areas] that can be
    indexed. *)
Lemma present_areas e0 k i p t :
  at_path e0 (Fld timeSeries :: Idx k :: Fld areas :: Idx i :: p) = Some t ->
  areas_readable (bucket e0 k) = true.
Proof.
  unfold bucket. cbn [at_path].
  destruct (child e0 (Fld timeSeries)) as [ts|]; [|discriminate].
  destruct (child ts (Idx k)) as [b|]; [|discriminate].
  destruct (child b (Fld areas)) as [ar|] eqn:Ca; [|discriminate].
  destruct (child ar (Idx i)) as [a|] eqn:Ci; [|discriminate]. intros _.
  pose proof (child_Fld_nullish _ _ _ Ca) as Nb.
  pose proof (child_Idx_nullish _ _ _ Ci) as Nar.
  unfold norm. rewrite Nb. unfold areas_readable.
  rewrite (get_field_child _ _ Nb), Ca. cbn [or_undefined]. rewrite Nar.
  now destruct b.
Qed.

Lemma falsy_printable t : truthy t = false -> printable t = true.
Proof. now destruct t as [| |[|]| | | |]. Qed.

(** C9: a raw value that is present but falsy (the empty string, zero,
    [false]) is shown as 不明: the temperature and the precipitation of
    today's summary, and the weather, the maximum and the minimum
    temperature of a day of the table, at the position of that value. *)
Theorem falsy_values_shown_unknown :
  (forall data s,
     extractTodayWeather data = Ok (Some s) ->
     (forall t,
        at_path data [Idx 1; Fld timeSeries; Idx 2; Fld areas; Idx 0; Fld temps;
                      Idx 1] = Some t ->
        truthy t = false -> temperature s = js "不明") /\
     (forall p,
        at_path data [Idx 0; Fld timeSeries; Idx 1; Fld areas; Idx 0; Fld pops;
                      Idx 0] = Some p ->
        truthy p = false -> precipitation s = js "不明")) /\
  (forall e0 rest r w t p,
     at_path e0 [Fld reportDatetime] = Some (VStr r) ->
     at_path e0 [Fld timeSeries; Idx 0; Fld areas; Idx 0; Fld weathers; Idx 0]
       = Some w ->
     at_path (VArr (e0 :: rest))
       [Idx 1; Fld timeSeries; Idx 2; Fld areas; Idx 0; Fld temps; Idx 1]
       = Some t ->
     at_path e0 [Fld timeSeries; Idx 1; Fld areas; Idx 0; Fld pops; Idx 0]
       = Some p ->
     truthy t = false -> truthy p = false ->
     exists s,
       extractTodayWeather (VArr (e0 :: rest)) = Ok (Some s) /\
       temperature s = js "不明" /\ precipitation s = js "不明") /\
  (forall e0 rest rows i row,
     extractThreeDayWeather (VArr (e0 :: rest)) = Ok (Some rows) ->
     nth_error rows i = Some row ->
     (forall w,
        at_path e0 [Fld timeSeries; Idx 0; Fld areas; Idx 0; Fld weathers; Idx i]
          = Some w ->
        truthy w = false -> ThreeDay.weather row = js "不明") /\
     (forall t,
        at_path e0 [Fld timeSeries; Idx 1; Fld areas; Idx 0; Fld temps; Idx i]
          = Some t ->
        truthy t = false -> ThreeDay.maxTemp row = js "不明") /\
     (forall t,
        at_path e0 [Fld timeSeries; Idx 2; Fld areas; Idx 0; Fld temps; Idx i]
          = Some t ->
        truthy t = false -> ThreeDay.minTemp row = js "不明")) /\
  (forall e0 rest ts w mx mn,
     at_path e0 [Fld timeSeries; Idx 0; Fld timeDefines] = Some (VArr [VStr ts]) ->
     at_path e0 [Fld timeSeries; Idx 0; Fld areas; Idx 0; Fld weathers; Idx 0]
       = Some w ->
     at_path e0 [Fld timeSeries; Idx 1; Fld areas; Idx 0; Fld temps; Idx 0]
       = Some mx ->
     at_path e0 [Fld timeSeries; Idx 2; Fld areas; Idx 0; Fld temps; Idx 0]
       = Some mn ->
     truthy w = false -> truthy mx = false -> truthy mn = false ->
     exists d,
       formatDate (VStr (date_part ts)) = Ok d /\
       extractThreeDayWeather (VArr (e0 :: rest))
       = Ok (Some [ {| ThreeDay.date := d; ThreeDay.weather := js "不明";
                       ThreeDay.maxTemp := js "不明";
                       ThreeDay.minTemp := js "不明" |} ])).
Proof.
  split; [|split; [|split]].
  - intros data s E.
    destruct (extractTodayWeather_fields _ _ E) as (_ & _ & Et & Ep).
    split.
    + intros t P F. rewrite P, (shown_falsy _ _ F) in Et. now injection Et.
    + intros p P F. rewrite P, (shown_falsy _ _ F) in Ep. now injection Ep.
  - intros e0 rest r w t p Hr Hw Ht Hp Ft Fp.
    destruct (extractTodayWeather_populated e0 rest r w (js "不明") (js "不明")
                Hr Hw) as (d & _ & E).
    + now apply (reading_falsy _ _ _ _ t).
    + now apply (reading_falsy _ _ _ _ p).
    + eexists. split; [exact E|]. split; reflexivity.
  - intros e0 rest rows i row E R.
    destruct (extractThreeDayWeather_rows _ _ _ E) as (_ & dl & _ & _ & Cells).
    destruct (Cells i row R) as (ts & _ & _ & W & Mx & Mn).
    split; [|split].
    + intros w P F. rewrite W, P. cbn [weather_shown]. now rewrite F.
    + intros t P F. rewrite P, (shown_falsy _ _ F) in Mx. now injection Mx.
    + intros t P F. rewrite P, (shown_falsy _ _ F) in Mn. now injection Mn.
  - intros e0 rest ts w mx mn Hd Hw Hmx Hmn Fw Fmx Fmn.
    destruct (extractThreeDayWeather_returns e0 rest [VStr ts]) as (rows & E).
    + apply (present_section _ _ _ _ Hd).
    + apply (present_areas _ _ _ _ _ Hw).
    + apply (present_areas _ _ _ _ _ Hmx).
    + apply (present_areas _ _ _ _ _ Hmn).
    + unfold days_of. now rewrite Hd.
    + intros x [<-|[]]. reflexivity.
    + intros i t L P. cbn in L. assert (i = 0)%nat as -> by lia.
      rewrite Hmx in P. injection P as <-. now apply falsy_printable.
    + intros i t L P. cbn in L. assert (i = 0)%nat as -> by lia.
      rewrite Hmn in P. injection P as <-. now apply falsy_printable.
    + destruct (extractThreeDayWeather_rows _ _ _ E)
        as (_ & dl & D & Len & Cells).
      unfold days_of in D. rewrite Hd in D. injection D as <-.
      destruct rows as [|row [|row' rows]]; try discriminate Len.
      destruct (Cells 0%nat row eq_refl) as (ts' & X & Fd & W & Mx & Mn).
      injection X as <-. exists (ThreeDay.date row). split; [assumption|].
      rewrite E. do 3 f_equal.
      rewrite Hw in W. rewrite Hmx, (shown_falsy _ _ Fmx) in Mx.
      rewrite Hmn, (shown_falsy _ _ Fmn) in Mn.
      cbn [weather_shown] in W. rewrite Fw in W.
      destruct row. cbn in *. congruence.
Qed.

(** ** [getWeatherText] *)

Lemma prefix_spec p : forall s, prefix p s = true <-> exists b, s = p ++ b.
Proof.
  induction p as [|c p IH]; intros s; cbn [prefix app].
  - split; [eauto|reflexivity].
  - destruct s as [|d s].
    + split; [discriminate|intros (b & B); discriminate].
    + rewrite andb_true_iff, N.eqb_eq, IH. split.
      * intros (-> & b & ->). eauto.
      * intros (b & [= -> ->]). eauto.
Qed.

(** [includes] is substring containment. *)
Lemma includes_spec sub : forall s, includes s sub = true <-> contains s sub.
Proof.
  unfold contains. induction s as [|c s IH]; cbn [includes].
  - rewrite orb_false_r, prefix_spec. split.
    + intros (b & B). exists [], b. exact B.
    + intros (a & b & B). destruct a; [eauto|discriminate].
  - rewrite orb_true_iff, prefix_spec, IH. split.
    + intros [(b & B)|(a & b & ->)].
      * exists [], b. exact B.
      * exists (c :: a), b. reflexivity.
    + intros ([|d a] & b & B).
      * left. eauto.
      * right. injection B as -> ->. eauto.
Qed.

Lemma includes_false sub s : includes s sub = false <-> ~ contains s sub.
Proof.
  rewrite <- includes_spec. destruct (includes s sub); split; congruence.
Qed.

Lemma getWeatherText_string s :
  s <> [] ->
  getWeatherText (VStr s) =
  if includes s (js "晴") then js "晴れ"
  else if includes s (js "雨") then js "雨"
  else if includes s (js "曇") then js "曇り"
  else s.
Proof. intros N. destruct s; [contradiction|reflexivity]. Qed.

Lemma contains_nonempty s sub : sub <> [] -> contains s sub -> s <> [].
Proof.
  intros N (a & b & ->) E. apply app_eq_nil in E. destruct E as (_ & E).
  apply app_eq_nil in E. now destruct E.
Qed.

(** C5 (as amended): [getWeatherText] tests substring containment in this
    order, the first match winning: 晴 gives 晴れ, then 雨 gives 雨, then 曇
    gives 曇り; a non-empty text with none of the three is returned
    unchanged; a missing input, a non-string and the empty string give
    不明. *)
Theorem getWeatherText_priority :
  (forall s, contains s (js "晴") -> getWeatherText (VStr s) = js "晴れ") /\
  (forall s,
     ~ contains s (js "晴") -> contains s (js "雨") ->
     getWeatherText (VStr s) = js "雨") /\
  (forall s,
     ~ contains s (js "晴") -> ~ contains s (js "雨") -> contains s (js "曇") ->
     getWeatherText (VStr s) = js "曇り") /\
  (forall s,
     s <> [] ->
     ~ contains s (js "晴") -> ~ contains s (js "雨") -> ~ contains s (js "曇") ->
     getWeatherText (VStr s) = s) /\
  (forall v,
     typeof_string v = false \/ v = VStr [] -> getWeatherText v = js "不明").
Proof.
  repeat split.
  - intros s C1. rewrite getWeatherText_string.
    + apply includes_spec in C1. now rewrite C1.
    + now apply (contains_nonempty s (js "晴")).
  - intros s C1 C2. rewrite getWeatherText_string.
    + apply includes_false in C1. apply includes_spec in C2.
      now rewrite C1, C2.
    + now apply (contains_nonempty s (js "雨")).
  - intros s C1 C2 C3. rewrite getWeatherText_string.
    + apply includes_false in C1, C2. apply includes_spec in C3.
      now rewrite C1, C2, C3.
    + now apply (contains_nonempty s (js "曇")).
  - intros s N C1 C2 C3. rewrite getWeatherText_string by assumption.
    apply includes_false in C1, C2, C3. now rewrite C1, C2, C3.
  - intros v [T| ->]; [|reflexivity].
    unfold getWeatherText. rewrite T. now rewrite orb_true_r.
Qed.

(** ** [fetchWeatherData] *)

(** C7: for every area code and every outcome of the transport,
    [fetchWeatherData] completes without an exception: with the parsed
    payload when the request succeeds with a success status and a body that
    parses, and with null when the request fails, when the status is not a
    success and when the body does not parse. *)
Theorem fetchWeatherData_collapses_failures
    (fetch : jsstring -> result Response) (areaCode : jsstring) :
  (forall response payload,
     fetch (generateApiEndpoint areaCode) = Ok response ->
     ok response = true -> json response = Ok payload ->
     fetchWeatherData fetch areaCode = Ok payload) /\
  (forall e,
     fetch (generateApiEndpoint areaCode) = Throw e ->
     fetchWeatherData fetch areaCode = Ok VNull) /\
  (forall response,
     fetch (generateApiEndpoint areaCode) = Ok response ->
     ok response = false ->
     fetchWeatherData fetch areaCode = Ok VNull) /\
  (forall response e,
     fetch (generateApiEndpoint areaCode) = Ok response ->
     ok response = true -> json response = Throw e ->
     fetchWeatherData fetch areaCode = Ok VNull) /\
  (exists data, fetchWeatherData fetch areaCode = Ok data).
Proof.
  unfold fetchWeatherData. repeat split.
  - intros response payload -> O J. run. rewrite O. run. now rewrite J.
  - now intros e ->.
  - intros response -> O. run. now rewrite O.
  - intros response e -> O J. run. rewrite O. run. now rewrite J.
  - destruct (fetch (generateApiEndpoint areaCode)) as [response|e]; run;
      [|eauto].
    destruct (ok response); run; [|eauto].
    destruct (json response); run; eauto.
Qed.

(** ** View state *)

(** C8: in every state of the component, reachable or not, the view-mode
    toggle sets [viewMode] and changes nothing else: the selected region,
    both summaries, the error and [isLoading] are the same, and the fetches
    in flight are the same, none is started. *)
Theorem viewMode_toggle_frame (w : World) (m : view_mode) :
  viewMode (view (step w (Click_viewMode m))) = m /\
  selectedArea (view (step w (Click_viewMode m))) = selectedArea (view w) /\
  weatherData (view (step w (Click_viewMode m))) = weatherData (view w) /\
  threeDayWeather (view (step w (Click_viewMode m)))
    = threeDayWeather (view w) /\
  error (view (step w (Click_viewMode m))) = error (view w) /\
  isLoading (view (step w (Click_viewMode m))) = isLoading (view w) /\
  pending (step w (Click_viewMode m)) = pending w.
Proof. repeat split. Qed.

(** ** The fetch cycle *)

Lemma extractThreeDayWeather_array_never_throws l :
  exists r, extractThreeDayWeather (VArr l) = Ok r.
Proof.
  destruct l as [|e0 rest]; [now exists None|].
  rewrite extractThreeDayWeather_array.
  match goal with |- context [try_catch ?b _] => destruct b end; run; eauto.
Qed.

(** What the rest of a cycle leaves behind, by the data fetched and the
    results of the two extraction functions. *)
Lemma fetchData_resume_outcome data st st' :
  fetchData_resume data st = Ok st' ->
  (truthy data = false /\
   st' = setIsLoading false
           (setError (Some (js "天気データを取得できませんでした")) st)) \/
  (truthy data = true /\
   exists tw td,
     extractTodayWeather data = Ok tw /\
     extractThreeDayWeather data = Ok td /\
     selectedArea st' = selectedArea st /\
     viewMode st' = viewMode st /\
     isLoading st' = false /\
     weatherData st' = (if is_some tw then tw else weatherData st) /\
     threeDayWeather st' = (if is_some td then td else threeDayWeather st) /\
     error st' = (if is_some tw || is_some td then error st
                  else Some (js "データの解析に失敗しました"))).
Proof.
  unfold fetchData_resume. destruct (truthy data) eqn:T.
  - destruct (extractTodayWeather data) as [tw|]; run; [|discriminate].
    destruct (extractThreeDayWeather data) as [td|]; run; [|discriminate].
    intros [= <-]. right. split; [reflexivity|]. exists tw, td.
    destruct tw, td; repeat split; reflexivity.
  - intros [= <-]. left. split; reflexivity.
Qed.

(** A settled fetch, by the rest of its cycle. *)
Lemma step_settle w i fetch a :
  nth_error (pending w) i = Some a ->
  view (step w (Settle i fetch))
  = match fetchData_settle fetch a (view w) with
    | Ok st' => st'
    | Throw _ => view w
    end.
Proof.
  intros P. cbn [step]. rewrite P. unfold fetchData_settle.
  now destruct (data <- fetchWeatherData fetch (AREA_CODES a) ;;
                fetchData_resume data (view w)).
Qed.

(** C10 (the code departs from it): when the first report entry has a
    time-series section and its first bucket is there with no timestamps
    (missing, falsy or empty) and without an [areas] list,
    [extractThreeDayWeather] returns null, not the empty sequence: the
    timestamps have their default, the read of [areas[0]] throws.  The
    controller does not take it for a success: it stores no table, and it
    sets the error when today's extraction has failed too. *)
Theorem extractThreeDayWeather_empty_bucket e0 rest :
  truthy (norm (at_path e0 [Fld timeSeries])) = true ->
  missing_or_empty (at_path e0 [Fld timeSeries; Idx 0; Fld timeDefines]) = true ->
  areas_readable (bucket e0 0) = false ->
  days_of e0 = VArr [] /\
  extractThreeDayWeather (VArr (e0 :: rest)) = Ok None /\
  forall st,
    exists st',
      fetchData_resume (VArr (e0 :: rest)) st = Ok st' /\
      threeDayWeather st' = threeDayWeather st /\
      (extractTodayWeather (VArr (e0 :: rest)) = Ok None ->
       weatherData st' = weatherData st /\
       error st' = Some (js "データの解析に失敗しました")).
Proof.
  intros S M R. split; [now apply missing_or_empty_days|].
  assert (E : extractThreeDayWeather (VArr (e0 :: rest)) = Ok None).
  { destruct (timeSeries_section _ S) as (T0 & ts & G & T & P).
    rewrite extractThreeDayWeather_array, T0. run. rewrite G. run.
    rewrite T. run. destruct (days_chain_ok _ _ G T) as (d & ->). run.
    destruct (areas_chain_throws _ _ 0 weathers G T P R) as (e & Ew).
    fold weathers_chain in Ew. now rewrite Ew. }
  split; [exact E|]. intros st. unfold fetchData_resume. cbn [truthy].
  destruct (extractTodayWeather_never_throws (VArr (e0 :: rest))) as (tw & Et).
  rewrite Et, E. run. eexists. split; [reflexivity|].
  destruct tw as [t|]; split; try reflexivity; try discriminate.
  intros _. split; reflexivity.
Qed.

(** C4 (as amended): when a fetch cycle completes, in whatever state its
    response arrives, [isLoading] is false and exactly one of the following
    holds: at least one of the two summaries was extracted in this cycle,
    each extracted summary is stored, the other keeps the value it had and
    the error is left as it was; or no summary was extracted, the error
    message is populated and both summaries keep the values they had.  The
    cycle completes whenever the data fetched is no data at all or an
    array. *)
Theorem fetchData_outcome
    (w : World) (i : nat) (fetch : jsstring -> result Response) (a : area) :
  nth_error (pending w) i = Some a ->
  (forall st',
     fetchData_settle fetch a (view w) = Ok st' ->
     view (step w (Settle i fetch)) = st' /\
     isLoading st' = false /\
     exists data,
       fetchWeatherData fetch (AREA_CODES a) = Ok data /\
       ((exists tw td,
           truthy data = true /\
           extractTodayWeather data = Ok tw /\
           extractThreeDayWeather data = Ok td /\
           is_some tw || is_some td = true /\
           weatherData st' = (if is_some tw then tw else weatherData (view w)) /\
           threeDayWeather st'
             = (if is_some td then td else threeDayWeather (view w)) /\
           error st' = error (view w)) \/
        (((truthy data = false /\
           error st' = Some (js "天気データを取得できませんでした")) \/
          (truthy data = true /\
           extractTodayWeather data = Ok None /\
           extractThreeDayWeather data = Ok None /\
           error st' = Some (js "データの解析に失敗しました"))) /\
         weatherData st' = weatherData (view w) /\
         threeDayWeather st' = threeDayWeather (view w)))) /\
  (forall data,
     fetchWeatherData fetch (AREA_CODES a) = Ok data ->
     truthy data = false \/ (exists l, data = VArr l) ->
     exists st', fetchData_settle fetch a (view w) = Ok st').
Proof.
  intros P. split.
  - intros st' E. split; [now rewrite (step_settle _ _ _ _ P), E|].
    unfold fetchData_settle in E.
    destruct (fetchWeatherData fetch (AREA_CODES a)) as [data|] eqn:F; run;
      [|discriminate].
    destruct (fetchData_resume_outcome _ _ _ E)
      as [(T & ->)|(T & tw & td & Etw & Etd & _ & _ & L & W & D & Er)].
    + split; [reflexivity|]. exists data. split; [reflexivity|]. right.
      split; [left; split; [assumption|reflexivity]|]. split; reflexivity.
    + split; [assumption|]. exists data. split; [reflexivity|].
      destruct (is_some tw || is_some td) eqn:S.
      * left. exists tw, td. auto 10.
      * right. apply orb_false_iff in S. destruct S as (S1 & S2).
        rewrite S1 in W. rewrite S2 in D.
        destruct tw; [discriminate S1|]. destruct td; [discriminate S2|].
        split; [right; auto|]. split; assumption.
  - intros data F Shape. unfold fetchData_settle. rewrite F. run.
    unfold fetchData_resume. destruct Shape as [T|(l & ->)].
    + rewrite T. eauto.
    + cbn [truthy].
      destruct (extractTodayWeather_never_throws (VArr l)) as (tw & ->).
      destruct (extractThreeDayWeather_array_never_throws l) as (td & ->).
      run. eauto.
Qed.

(** ** Dates *)

Lemma all_from_spec n : forall z f,
  all_from n z f = true -> forall i, z <= i < z + Z.of_nat n -> f i = true.
Proof.
  induction n as [|n IH]; intros z f A i I; [lia|].
  cbn [all_from] in A. destruct (f z) eqn:F; [|discriminate].
  destruct (Z.eq_dec i z) as [->|N]; [assumption|].
  apply (IH (z + 1)); [assumption|lia].
Qed.

Lemma all_from_Z n z f i :
  all_from (Z.to_nat n) z f = true -> 0 <= n -> z <= i < z + n -> f i = true.
Proof.
  intros A N I. apply (all_from_spec _ _ _ A).
  rewrite Z2Nat.id by assumption. exact I.
Qed.

(** The two checks over an era, by evaluation. *)
Lemma era_days_checked :
  all_from (Z.to_nat 146097) 0
    (fun doe => let '(_, _, d) := date_of_era doe in (1 <=? d) && (d <=? 31))
  = true.
Proof. vm_compute. reflexivity. Qed.

Lemma era_dates_checked :
  all_from 400 0 (fun yoe =>
  all_from 12 1 (fun m =>
  all_from 31 1 (fun d =>
    if d <=? days_in_month (civil_year_of_era yoe m) m then
      let doe := day_of_era yoe m d in
      (0 <=? doe) && (doe <? 146097) &&
      (let '(yoe', m', d') := date_of_era doe in
       (yoe' =? yoe) && (m' =? m) && (d' =? d))
    else true)))
  = true.
Proof. vm_compute. reflexivity. Qed.

Lemma date_of_era_day doe :
  0 <= doe < 146097 ->
  1 <= snd (date_of_era doe) <= 31.
Proof.
  intros R.
  pose proof (all_from_Z 146097 0
                (fun doe => let '(_, _, d) := date_of_era doe in
                            (1 <=? d) && (d <=? 31))
                doe era_days_checked ltac:(lia) ltac:(lia)) as A.
  cbv beta in A.
  destruct (date_of_era doe) as ((yoe, m), d). cbn [snd].
  apply andb_true_iff in A. lia.
Qed.

Lemma civil_from_days_day z : 1 <= snd (civil_from_days z) <= 31.
Proof.
  unfold civil_from_days.
  pose proof (date_of_era_day ((z + 719468) - (z + 719468) / 146097 * 146097))
    as R.
  destruct (date_of_era _) as ((yoe, m), d). cbn [snd] in *.
  apply R. pose proof (Z.mod_pos_bound (z + 719468) 146097 ltac:(lia)) as B.
  rewrite Z.mod_eq in B by lia. lia.
Qed.

(** The day of the month is a day of the month. *)
Lemma DateFromTime_range t : 1 <= DateFromTime t <= 31.
Proof.
  unfold DateFromTime. pose proof (civil_from_days_day (Day t)) as R.
  destruct (civil_from_days (Day t)) as ((y, m), d). exact R.
Qed.

Lemma date_of_era_round_trip yoe m d :
  0 <= yoe < 400 -> 1 <= m <= 12 ->
  1 <= d <= days_in_month (civil_year_of_era yoe m) m ->
  0 <= day_of_era yoe m d < 146097 /\
  date_of_era (day_of_era yoe m d) = (yoe, m, d).
Proof.
  intros Ry Rm Rd.
  pose proof (all_from_spec _ _ _ era_dates_checked yoe ltac:(lia)) as A.
  cbv beta in A.
  pose proof (all_from_spec _ _ _ A m ltac:(lia)) as B. cbv beta in B.
  assert (D31 : d <= 31).
  { unfold days_in_month in Rd.
    destruct (m =? 2); [destruct (leap_year _); lia|].
    destruct ((m =? 4) || (m =? 6) || (m =? 9) || (m =? 11)); lia. }
  pose proof (all_from_spec _ _ _ B d ltac:(lia)) as C. cbv beta in C.
  replace (d <=? days_in_month (civil_year_of_era yoe m) m) with true in C
    by (symmetry; apply Z.leb_le; lia).
  cbv zeta in C.
  destruct (date_of_era (day_of_era yoe m d)) as ((yoe', m'), d').
  repeat (apply andb_true_iff in C; destruct C as (C & ?)).
  split; [lia|]. repeat f_equal; lia.
Qed.

Lemma leap_year_period r e : leap_year (r + 400 * e) = leap_year r.
Proof.
  unfold leap_year.
  replace ((r + 400 * e) mod 4) with (r mod 4)
    by (replace (r + 400 * e) with (r + (100 * e) * 4) by ring;
        now rewrite Z.mod_add).
  replace ((r + 400 * e) mod 100) with (r mod 100)
    by (replace (r + 400 * e) with (r + (4 * e) * 100) by ring;
        now rewrite Z.mod_add).
  replace ((r + 400 * e) mod 400) with (r mod 400)
    by (replace (r + 400 * e) with (r + e * 400) by ring;
        now rewrite Z.mod_add).
  reflexivity.
Qed.

(** A civil date comes back from its day number. *)
Lemma civil_round_trip y m d :
  1 <= m <= 12 -> 1 <= d <= days_in_month y m ->
  civil_from_days (days_from_civil y m d) = (y, m, d).
Proof.
  intros Rm Rd. unfold days_from_civil, civil_from_days.
  set (y' := if m <=? 2 then y - 1 else y).
  set (era := y' / 400). set (yoe := y' - era * 400).
  assert (Ry : 0 <= yoe < 400).
  { pose proof (Z.mod_pos_bound y' 400 ltac:(lia)) as B.
    rewrite Z.mod_eq in B by lia. unfold yoe, era. lia. }
  assert (Ey : y = civil_year_of_era yoe m + 400 * era).
  { unfold civil_year_of_era, yoe, y'. destruct (m <=? 2); lia. }
  assert (Rd' : 1 <= d <= days_in_month (civil_year_of_era yoe m) m).
  { unfold days_in_month in *. rewrite Ey, leap_year_period in Rd. exact Rd. }
  destruct (date_of_era_round_trip yoe m d Ry Rm Rd') as (Rdoe & RT).
  set (doe := day_of_era yoe m d) in *.
  replace (era * 146097 + doe - 719468 + 719468) with (doe + era * 146097)
    by ring.
  rewrite Z.div_add, (Z.div_small doe) by lia. cbn [Z.add].
  replace (doe + era * 146097 - era * 146097) with doe by ring.
  rewrite RT. unfold civil_year_of_era, yoe, y' in *.
  destruct (m <=? 2); repeat f_equal; lia.
Qed.

Lemma digit_range c d : digit c = Some d -> 0 <= d <= 9.
Proof.
  unfold digit. destruct ((48 <=? c)%N && (c <=? 57)%N) eqn:E; [|discriminate].
  intros [= <-]. apply andb_true_iff in E. destruct E as (E1 & E2).
  apply N.leb_le in E1, E2. lia.
Qed.

Lemma digits_range n : forall acc s v rest,
  0 <= acc -> digits n acc s = Some (v, rest) ->
  0 <= v < (acc + 1) * 10 ^ Z.of_nat n.
Proof.
  induction n as [|n IH]; intros acc s v rest A; cbn [digits].
  - intros [= <- _]. cbn. lia.
  - destruct s as [|c s]; [discriminate|].
    destruct (digit c) as [d|] eqn:D; [|discriminate].
    apply digit_range in D. intros E.
    apply IH in E; [|lia]. rewrite Nat2Z.inj_succ, Z.pow_succ_r by lia.
    pose proof (Z.pow_pos_nonneg 10 (Z.of_nat n) ltac:(lia) ltac:(lia)). nia.
Qed.

Lemma parse_iso_date_range s y m d rest :
  parse_iso_date s = Some (y, m, d, rest) ->
  0 <= y <= 9999 /\ 0 <= m /\ 0 <= d.
Proof.
  unfold parse_iso_date.
  destruct (digits 4 0 s) as [(y', s1)|] eqn:Dy; [|discriminate].
  apply digits_range in Dy; [|lia]. cbn in Dy.
  destruct (after "-" s1) as [s2|]; [|intros [= <- <- <- _]; lia].
  destruct (digits 2 0 s2) as [(m', s3)|] eqn:Dm; [|discriminate].
  apply digits_range in Dm; [|lia].
  destruct (after "-" s3) as [s4|]; [|intros [= <- <- <- _]; lia].
  destruct (digits 2 0 s4) as [(d', s5)|] eqn:Dd; [|discriminate].
  apply digits_range in Dd; [|lia].
  intros [= <- <- <- _]. lia.
Qed.

Lemma parse_iso_time_range s h mi sec ms o :
  parse_iso_time s = Some (h, mi, sec, ms, o) ->
  0 <= h /\ 0 <= mi /\ 0 <= sec /\ 0 <= ms <= 999.
Proof.
  unfold parse_iso_time.
  destruct (digits 2 0 s) as [(h', s1)|] eqn:Dh; [|discriminate].
  apply digits_range in Dh; [|lia].
  destruct (after ":" s1) as [s2|]; [|discriminate].
  destruct (digits 2 0 s2) as [(mi', s3)|] eqn:Dmi; [|discriminate].
  apply digits_range in Dmi; [|lia].
  destruct (after ":" s3) as [s4|].
  - destruct (digits 2 0 s4) as [(sec', s5)|] eqn:Ds; [|discriminate].
    apply digits_range in Ds; [|lia].
    destruct (after "." s5) as [s6|].
    + destruct (digits 3 0 s6) as [(ms', s7)|] eqn:Dms; [|discriminate].
      apply digits_range in Dms; [|lia]. cbn in Dms.
      destruct (parse_iso_offset s7); [|discriminate].
      intros [= <- <- <- <- _]. lia.
    + destruct (parse_iso_offset s5); [|discriminate].
      intros [= <- <- <- <- _]. lia.
  - destruct (parse_iso_offset s3); [|discriminate].
    intros [= <- <- <- <- _]. lia.
Qed.

(** The fields of a string in the format are natural numbers, the year of
    four digits; a date-only form has no time. *)
Lemma parse_iso_range s f :
  parse_iso s = Some f ->
  s <> [] /\
  0 <= iso_year f <= 9999 /\ 0 <= iso_month f /\ 0 <= iso_day f /\
  0 <= iso_hour f /\ 0 <= iso_min f /\ 0 <= iso_sec f /\
  0 <= iso_ms f <= 999 /\
  (iso_date_only f = true ->
   iso_hour f = 0 /\ iso_min f = 0 /\ iso_sec f = 0 /\ iso_ms f = 0 /\
   iso_offset f = None).
Proof.
  intros P. split; [intros ->; discriminate P|]. revert P.
  unfold parse_iso.
  destruct (parse_iso_date s) as [(((y, m), d), rest)|] eqn:D; [|discriminate].
  apply parse_iso_date_range in D.
  destruct rest as [|c rest].
  - intros [= <-]. cbn. intuition lia.
  - destruct (after "T" (c :: rest)) as [t|]; [|discriminate].
    destruct (parse_iso_time t) as [((((h, mi), sec), ms), o)|] eqn:T;
      [|discriminate].
    apply parse_iso_time_range in T.
    intros [= <-]. cbn. intuition (try lia; discriminate).
Qed.

Lemma MakeDay_civil y m d : MakeDay y (m - 1) d = days_from_civil y m d.
Proof.
  unfold MakeDay. rewrite Z.sub_add. unfold days_from_civil, day_of_era. lia.
Qed.

Lemma days_from_civil_bound y m d :
  0 <= y <= 9999 -> 1 <= m <= 12 -> 1 <= d <= days_in_month y m ->
  - 1000000 <= days_from_civil y m d <= 4000000.
Proof.
  intros Ry Rm Rd. unfold days_from_civil.
  set (y' := if m <=? 2 then y - 1 else y).
  set (era := y' / 400). set (yoe := y' - era * 400).
  assert (Ry' : -1 <= y' <= 9999) by (unfold y'; destruct (m <=? 2); lia).
  assert (Re : -1 <= era <= 24).
  { unfold era. split.
    - apply Z.div_le_lower_bound; lia.
    - apply Z.lt_succ_r. apply Z.div_lt_upper_bound; lia. }
  assert (Ryoe : 0 <= yoe < 400).
  { pose proof (Z.mod_pos_bound y' 400 ltac:(lia)) as B.
    rewrite Z.mod_eq in B by lia. unfold yoe, era. lia. }
  assert (Ey : y = civil_year_of_era yoe m + 400 * era).
  { unfold civil_year_of_era, yoe, y'. destruct (m <=? 2); lia. }
  assert (Rd' : 1 <= d <= days_in_month (civil_year_of_era yoe m) m).
  { unfold days_in_month in *. rewrite Ey, leap_year_period in Rd. exact Rd. }
  destruct (date_of_era_round_trip yoe m d Ryoe Rm Rd') as (Rdoe & _).
  lia.
Qed.

Lemma iso_legal_fields f :
  iso_legal f = true ->
  1 <= iso_month f <= 12 /\
  1 <= iso_day f <= days_in_month (iso_year f) (iso_month f) /\
  iso_min f <= 59 /\ iso_sec f <= 59 /\ iso_hour f <= 24.
Proof.
  unfold iso_legal. intros L.
  apply andb_true_iff in L. destruct L as (L & Lh).
  repeat (apply andb_true_iff in L; destruct L as (L & ?)).
  repeat match goal with
         | E : (_ <=? _) = true |- _ => apply Z.leb_le in E
         end.
  repeat split; try assumption.
  apply orb_true_iff in Lh. destruct Lh as [E|E]; [apply Z.leb_le in E; lia|].
  repeat (apply andb_true_iff in E; destruct E as (E & ?)).
  apply Z.eqb_eq in E. lia.
Qed.

Lemma DateFromTime_MakeDate y m d time :
  1 <= m <= 12 -> 1 <= d <= days_in_month y m -> 0 <= time < msPerDay ->
  DateFromTime (MakeDate (MakeDay y (m - 1) d) time) = d.
Proof.
  intros Rm Rd Rt. unfold DateFromTime, Day, MakeDate.
  rewrite MakeDay_civil, Z.div_add_l, (Z.div_small time) by (unfold msPerDay in *; lia).
  rewrite Z.add_0_r, civil_round_trip by assumption. reflexivity.
Qed.

Lemma TimeClip_in_range t :
  - 8640000000000000 <= t <= 8640000000000000 -> TimeClip t = Some t.
Proof.
  intros R. unfold TimeClip.
  replace (Z.abs t <=? 8640000000000000) with true; [reflexivity|].
  symmetry. apply Z.leb_le. lia.
Qed.

Lemma formatDate_truthy v :
  truthy v = true ->
  formatDate v = (date <- new_Date v ;; Ok (number_to_string (getDate date) ++ js "日")).
Proof. intros T. unfold formatDate. now rewrite T. Qed.

(** The label of a string in the format: the day written, when the time
    value is the one of that day in local time. *)
Lemma formatDate_iso s f time :
  parse_iso s = Some f -> iso_legal f = true ->
  0 <= time < msPerDay ->
  LocalTime (iso_time_value f)
  = MakeDate (MakeDay (iso_year f) (iso_month f - 1) (iso_day f)) time ->
  formatDate (VStr s) = Ok (decimal (iso_day f) ++ js "日").
Proof.
  intros P L Rt E.
  destruct (parse_iso_range _ _ P) as (Ns & Ry & _).
  destruct (iso_legal_fields _ L) as (Rm & Rd & _).
  rewrite formatDate_truthy by (destruct s; [contradiction|reflexivity]).
  cbn [new_Date bind]. unfold Date_parse. rewrite P, L.
  rewrite TimeClip_in_range.
  - cbn [getDate number_to_string]. rewrite E.
    now rewrite DateFromTime_MakeDate.
  - pose proof (LocalTZA_range (iso_time_value f) true) as RL.
    unfold LocalTime in E.
    pose proof (days_from_civil_bound _ _ _ Ry Rm Rd) as B.
    rewrite <- MakeDay_civil in B. unfold MakeDate, msPerDay in *. lia.
Qed.

Lemma new_Date_printable v :
  printable v = true -> exists d, new_Date v = Ok d.
Proof.
  unfold printable. destruct v; cbn [new_Date]; eauto;
    destruct (to_string _); try discriminate; run; eauto.
Qed.

Lemma formatDate_unprintable v :
  truthy v = true -> printable v = false -> exists e, formatDate v = Throw e.
Proof.
  intros T P. rewrite formatDate_truthy by assumption. unfold printable in P.
  destruct v as [| |[|]|x|s|l|o]; try discriminate P; cbn [new_Date];
    (destruct (to_string _) as [s|e]; [discriminate P|]); run; eauto.
Qed.

(** C6 (as amended): [formatDate] returns 不明 when the input is missing or
    empty (falsy); for every other input that can be converted to a string
    it returns the day of the month, in local time, of the date the input
    parses to, followed by 日, and NaN followed by 日 when the input does not
    parse to a date; an input that cannot be converted makes it throw.  The
    day is the one written in the string for a date-time without offset
    such as 2024-05-03T00:00:00, which gives 3日, wherever the zone has the
    same offset at that local time read as a local time and as the instant
    it names; and for a date-only string wherever the zone is not west of
    Greenwich at that instant. *)
Theorem formatDate_label :
  (forall v, truthy v = false -> formatDate v = Ok (js "不明")) /\
  (forall v,
     truthy v = true -> printable v = true ->
     exists date,
       new_Date v = Ok date /\
       formatDate v
       = Ok (match date with
             | Some t => decimal (DateFromTime (LocalTime t)) ++ js "日"
             | None => js "NaN日"
             end) /\
       forall t, date = Some t -> 1 <= DateFromTime (LocalTime t) <= 31) /\
  (forall v,
     truthy v = true -> printable v = false ->
     exists e, formatDate v = Throw e) /\
  (forall s,
     s <> [] -> Date_parse s = None -> formatDate (VStr s) = Ok (js "NaN日")) /\
  (forall s f,
     parse_iso s = Some f -> iso_legal f = true ->
     iso_date_only f = false -> iso_offset f = None -> iso_hour f <= 23 ->
     LocalTZA (UTC (iso_written f)) true = LocalTZA (iso_written f) false ->
     formatDate (VStr s) = Ok (decimal (iso_day f) ++ js "日")) /\
  (forall s f,
     parse_iso s = Some f -> iso_legal f = true ->
     iso_date_only f = true -> 0 <= LocalTZA (iso_written f) true ->
     formatDate (VStr s) = Ok (decimal (iso_day f) ++ js "日")) /\
  (LocalTZA (UTC 1714694400000) true = LocalTZA 1714694400000 false ->
   formatDate (VStr (js "2024-05-03T00:00:00")) = Ok (js "3日")).
Proof.
  assert (Local : forall s f,
     parse_iso s = Some f -> iso_legal f = true ->
     iso_date_only f = false -> iso_offset f = None -> iso_hour f <= 23 ->
     LocalTZA (UTC (iso_written f)) true = LocalTZA (iso_written f) false ->
     formatDate (VStr s) = Ok (decimal (iso_day f) ++ js "日")).
  { intros s f P L D O Hh Same.
    destruct (parse_iso_range _ _ P)
      as (_ & _ & _ & _ & Rh & Rmi & Rs & Rms & _).
    destruct (iso_legal_fields _ L) as (_ & _ & Lmi & Ls & _).
    apply (formatDate_iso s f
             (MakeTime (iso_hour f) (iso_min f) (iso_sec f) (iso_ms f)) P L).
    - unfold MakeTime, msPerDay. lia.
    - unfold iso_time_value, iso_time_value_in. rewrite O, D.
      fold (iso_written f). unfold LocalTime. rewrite Same. unfold UTC. lia. }
  split; [|split; [|split; [|split; [|split; [|split]]]]].
  - intros v F. unfold formatDate. now rewrite F.
  - intros v T Pv. destruct (new_Date_printable _ Pv) as (date & N).
    exists date. split; [exact N|].
    rewrite formatDate_truthy by assumption. rewrite N. run.
    split; [now destruct date|]. intros t _. apply DateFromTime_range.
  - exact formatDate_unprintable.
  - intros s Ns N.
    rewrite formatDate_truthy by (destruct s; [contradiction|reflexivity]).
    cbn [new_Date bind]. now rewrite N.
  - exact Local.
  - intros s f P L D East.
    destruct (parse_iso_range _ _ P) as (_ & _ & _ & _ & _ & _ & _ & _ & Z).
    destruct (Z D) as (Eh & Emi & Es & Ems & O).
    pose proof (LocalTZA_range (iso_written f) true) as RL.
    apply (formatDate_iso s f (LocalTZA (iso_written f) true) P L).
    + unfold msPerDay. lia.
    + unfold iso_time_value, iso_time_value_in. rewrite O, D.
      fold (iso_written f). unfold LocalTime, iso_written.
      rewrite Eh, Emi, Es, Ems. unfold MakeDate, MakeTime. lia.
  - intros Same.
    apply (Local _ {| iso_year := 2024; iso_month := 5; iso_day := 3;
                      iso_hour := 0; iso_min := 0; iso_sec := 0; iso_ms := 0;
                      iso_offset := None; iso_date_only := false |});
      try reflexivity; [cbn; lia|exact Same].
Qed.

Lemma reachable_fold events : forall w,
  reachable w -> reachable (fold_left step events w).
Proof.
  induction events as [|e events IH]; intros w R; cbn [fold_left];
    [assumption|].
  apply IH. now constructor.
Qed.

(** * Further properties of the component *)

(** ** Registry and endpoint *)

(** The endpoint determines the area code, and no two regions of the
    registry share an endpoint. *)
Theorem endpoints_distinct :
  (forall c1 c2 : jsstring,
     generateApiEndpoint c1 = generateApiEndpoint c2 -> c1 = c2) /\
  (forall a b : area,
     generateApiEndpoint (AREA_CODES a) = generateApiEndpoint (AREA_CODES b) ->
     a = b).
Proof.
  assert (I : forall c1 c2 : jsstring,
             generateApiEndpoint c1 = generateApiEndpoint c2 -> c1 = c2).
  { unfold generateApiEndpoint. intros c1 c2 E.
    apply app_inv_head in E. now apply app_inv_tail in E. }
  split; [exact I|].
  intros a b E. apply I in E. destruct a, b; try reflexivity; discriminate E.
Qed.

(** ** Normalisers *)

Lemma getWeatherText_not_string v :
  typeof_string v = false -> getWeatherText v = js "不明".
Proof.
  intros T. unfold getWeatherText. rewrite T. now rewrite orb_true_r.
Qed.

Lemma getWeatherText_cases v :
  getWeatherText v = js "不明" \/ getWeatherText v = js "晴れ" \/
  getWeatherText v = js "雨" \/ getWeatherText v = js "曇り" \/
  exists s,
    v = VStr s /\ s <> [] /\ getWeatherText v = s /\
    includes s (js "晴") = false /\ includes s (js "雨") = false /\
    includes s (js "曇") = false.
Proof.
  destruct (typeof_string v) eqn:T;
    [|left; now apply getWeatherText_not_string].
  destruct v as [| | | |s| |]; try discriminate T.
  destruct s as [|c s]; [left; reflexivity|].
  rewrite getWeatherText_string by discriminate.
  destruct (includes (c :: s) (js "晴")) eqn:E1; [auto|].
  destruct (includes (c :: s) (js "雨")) eqn:E2; [auto|].
  destruct (includes (c :: s) (js "曇")) eqn:E3; [auto 6|].
  do 4 right. exists (c :: s). repeat split; try assumption. discriminate.
Qed.

(** [getWeatherText] normalises: applied to its own result it changes
    nothing; and its result is never the empty string. *)
Theorem getWeatherText_idempotent (v : value) :
  getWeatherText (VStr (getWeatherText v)) = getWeatherText v /\
  getWeatherText v <> [].
Proof.
  destruct (getWeatherText_cases v)
    as [E|[E|[E|[E|(s & -> & N & E & E1 & E2 & E3)]]]];
    rewrite E; try (split; [reflexivity|discriminate]).
  split; [|assumption].
  rewrite getWeatherText_string by assumption. now rewrite E1, E2, E3.
Qed.

Lemma getWeatherText_unknown : getWeatherText (VStr (js "不明")) = js "不明".
Proof. vm_compute. reflexivity. Qed.

(** The guards in front of the calls of [getWeatherText] change nothing:
    [getWeatherText(x || '不明')] and [x ? getWeatherText(x) : '不明'] are
    [getWeatherText(x)] for every value. *)
Theorem getWeatherText_guards_redundant (v : value) :
  getWeatherText (or_else v (VStr (js "不明"))) = getWeatherText v /\
  (if truthy v then getWeatherText v else js "不明") = getWeatherText v.
Proof.
  unfold or_else. destruct (truthy v) eqn:T; [split; reflexivity|].
  assert (E : getWeatherText v = js "不明")
    by (unfold getWeatherText; now rewrite T).
  rewrite E. split; [exact getWeatherText_unknown|reflexivity].
Qed.

(** The label [formatDate] returns is 不明, NaN日 or a day from 1日 to
    31日, for every input that can be converted to a string; for the others
    (an object that hides [toString], an array that holds one) it throws. *)
Theorem formatDate_labels (v : value) :
  (printable v = true ->
   exists d,
     formatDate v = Ok d /\
     (d = js "不明" \/ d = js "NaN日" \/
      exists n, 1 <= n <= 31 /\ d = decimal n ++ js "日")) /\
  (printable v = false -> exists e, formatDate v = Throw e).
Proof.
  split.
  - intros P. unfold formatDate. destruct (truthy v); cbn [negb]; [|eauto].
    destruct (new_Date_printable _ P) as ([t|] & ->); run.
    + eexists. split; [reflexivity|]. right. right.
      exists (DateFromTime (LocalTime t)). split; [|reflexivity].
      apply DateFromTime_range.
    + eexists. split; [reflexivity|]. right. left. reflexivity.
  - intros P. unfold formatDate.
    assert (T : truthy v = true)
      by (destruct v as [| |[|]| | | |]; try discriminate P; reflexivity).
    rewrite T. cbn [negb]. unfold printable in P.
    destruct v as [| |[|]| | |l|o]; try discriminate P; cbn [new_Date];
      (destruct (to_string _) as [s|e]; [discriminate P|]); run; eauto.
Qed.

(** ** Exceptions that leave the extraction functions *)

Lemma lt_1_throws len e :
  lt_1 len = Throw e -> printable len = false /\ truthy len = true.
Proof.
  unfold printable. destruct len as [| |b|n|s|l|o]; cbn [lt_1]; try discriminate;
    (destruct (to_string _); [discriminate|]); auto.
Qed.

Lemma lt_1_unprintable len :
  printable len = false -> exists e, lt_1 len = Throw e.
Proof.
  unfold printable.
  destruct len as [| |[|]|n|s|l|o]; try discriminate; cbn [lt_1];
    (destruct (to_string _); [discriminate|]); run; eauto.
Qed.

(** [extractTodayWeather] catches everything: for every JSON value it
    returns null or a summary.  [extractThreeDayWeather] does not: its
    test [data.length < 1] stands before the [try] and converts the length
    to a number, so it throws exactly for a payload object whose own
    [length] property cannot be converted (an object that hides
    [toString], an array that holds one); for an array it never throws. *)
Theorem extraction_exceptions :
  (forall data, exists r, extractTodayWeather data = Ok r) /\
  (forall data e,
     extractThreeDayWeather data = Throw e ->
     exists props len,
       data = VObj props /\ own_property (js "length") props = Some len /\
       printable len = false) /\
  (forall props len,
     own_property (js "length") props = Some len -> printable len = false ->
     exists e, extractThreeDayWeather (VObj props) = Throw e) /\
  (forall elems, exists r, extractThreeDayWeather (VArr elems) = Ok r).
Proof.
  split; [exact extractTodayWeather_never_throws|].
  split; [|split; [|exact extractThreeDayWeather_array_never_throws]].
  - intros data e. unfold extractThreeDayWeather.
    destruct (truthy data) eqn:T; run; [|discriminate].
    destruct (get_length_truthy _ T) as (len & L). rewrite L. run.
    destruct (lt_1 len) as [[|]|e'] eqn:E; run; try discriminate.
    + match goal with |- context [try_catch ?b _] => destruct b end; run;
        discriminate.
    + intros _. destruct (lt_1_throws _ _ E) as (P & Tl).
      destruct data as [| |b|n|s|l|props]; cbn [get_length] in L;
        try discriminate T; injection L as <-; try discriminate P.
      exists props. destruct (own_property (js "length") props) as [len|];
        [|discriminate P].
      exists len. auto.
  - intros props len L P. unfold extractThreeDayWeather.
    cbn [truthy negb get_length]. rewrite L. cbn [or_undefined]. run.
    destruct (lt_1_unprintable _ P) as (e & ->). run. eauto.
Qed.

(** ** Payloads without report entries *)

Lemma get_index_absent data i :
  truthy data = true -> norm (child data (Idx i)) = VUndefined ->
  exists e, get_index data i = Ok e /\ nullish e = true.
Proof.
  intros T A. rewrite (get_index_child _ _ (truthy_not_nullish _ T)).
  eexists. split; [reflexivity|].
  destruct (child data (Idx i)) as [e|]; [|reflexivity].
  cbn [or_undefined]. unfold norm in A.
  destruct (nullish e) eqn:N; [reflexivity|]. subst e. discriminate N.
Qed.

Lemma no_entries_today (data len : value) :
  truthy data = true ->
  get_length data = Ok len -> strict_eq_0 len = false ->
  norm (child data (Idx 0)) = VUndefined ->
  norm (child data (Idx 1)) = VUndefined ->
  extractTodayWeather data = Ok (Some all_unknown).
Proof.
  intros T L Z A0 A1.
  destruct (get_index_absent _ 0 T A0) as (e0 & G0 & N0).
  destruct (get_index_absent _ 1 T A1) as (e1 & G1 & N1).
  unfold extractTodayWeather. rewrite T. run. rewrite L. run. rewrite Z.
  unfold rawDate_chain, weatherText_chain, reading, temperature_chain,
    precipitation_chain.
  cbn [eval_chain]. rewrite G0, G1. run. rewrite N0, N1. run.
  reflexivity.
Qed.

Lemma no_entries_three_day (data len : value) :
  truthy data = true ->
  get_length data = Ok len -> lt_1 len = Ok false ->
  norm (child data (Idx 0)) = VUndefined ->
  extractThreeDayWeather data = Ok None.
Proof.
  intros T L Lt A0.
  destruct (get_index_absent _ 0 T A0) as (e0 & G0 & N0).
  unfold extractThreeDayWeather. rewrite T. run. rewrite L. run.
  rewrite Lt. rewrite G0. run. rewrite (nullish_not_truthy _ N0). reflexivity.
Qed.

(** When the payload is truthy, its [length] is not 0 and its entries 0
    and 1 are absent or null (the array [[null]], an object such as an
    error document, a number), [extractTodayWeather] returns the summary
    whose four fields are 不明, not null; [extractThreeDayWeather] returns
    null. *)
Theorem extraction_without_entries (data len : value) :
  truthy data = true ->
  get_length data = Ok len -> strict_eq_0 len = false ->
  norm (child data (Idx 0)) = VUndefined ->
  norm (child data (Idx 1)) = VUndefined ->
  extractTodayWeather data = Ok (Some all_unknown) /\
  (lt_1 len = Ok false -> extractThreeDayWeather data = Ok None).
Proof.
  intros T L Z A0 A1. split.
  - exact (no_entries_today data len T L Z A0 A1).
  - intros Lt. exact (no_entries_three_day data len T L Lt A0).
Qed.

(** A fetch that settles on such a payload, in whatever state it finds,
    sets no error: the error is left as it was, the summary of 不明s is
    stored, the table is left as it was and [isLoading] is cleared.  In the
    today view the card of 不明s is then shown, unless an error is left from
    another cycle. *)
Theorem fetchData_without_entries
    (w : World) (i : nat) (fetch : jsstring -> result Response) (a : area)
    (data len : value) :
  nth_error (pending w) i = Some a ->
  fetchWeatherData fetch (AREA_CODES a) = Ok data ->
  truthy data = true ->
  get_length data = Ok len -> strict_eq_0 len = false -> lt_1 len = Ok false ->
  norm (child data (Idx 0)) = VUndefined ->
  norm (child data (Idx 1)) = VUndefined ->
  weatherData (view (step w (Settle i fetch))) = Some all_unknown /\
  threeDayWeather (view (step w (Settle i fetch))) = threeDayWeather (view w) /\
  error (view (step w (Settle i fetch))) = error (view w) /\
  isLoading (view (step w (Settle i fetch))) = false /\
  (viewMode (view w) = today -> error_message (error (view w)) = None ->
   content (view (step w (Settle i fetch))) = today_card all_unknown).
Proof.
  intros P F T L Z Lt A0 A1.
  pose proof (no_entries_today data len T L Z A0 A1) as Et.
  pose proof (no_entries_three_day data len T L Lt A0) as E3.
  rewrite (step_settle _ _ _ _ P). unfold fetchData_settle. rewrite F. run.
  unfold fetchData_resume. rewrite T, Et. run. rewrite E3. run.
  cbn [weatherData threeDayWeather error isLoading setIsLoading setWeatherData].
  repeat (split; [reflexivity|]).
  intros V E. unfold content.
  cbn [weatherData threeDayWeather error isLoading viewMode setIsLoading
       setWeatherData].
  now rewrite E, V.
Qed.

(** ** What the summaries hold *)

Lemma getWeatherText_not_blank v : getWeatherText v <> [].
Proof.
  destruct (getWeatherText_cases v)
    as [E|[E|[E|[E|(s & _ & N & E & _)]]]]; rewrite E;
    try discriminate; assumption.
Qed.

(** The table any payload gives is the one of its first entry alone. *)
Lemma extractThreeDayWeather_first_entry data rows :
  extractThreeDayWeather data = Ok (Some rows) ->
  exists e0,
    get_index data 0 = Ok e0 /\
    extractThreeDayWeather (VArr [e0]) = Ok (Some rows).
Proof.
  unfold extractThreeDayWeather at 1.
  destruct (truthy data) eqn:T; run; [|discriminate].
  destruct (get_length_truthy _ T) as (len & ->). run.
  destruct (lt_1 len) as [[|]|e]; run; try discriminate.
  destruct (get_index data 0) as [e0|] eqn:G; run; [|discriminate].
  intros E. exists e0. split; [reflexivity|].
  rewrite extractThreeDayWeather_array. exact E.
Qed.

Lemma app_not_blank (s unit : jsstring) : unit <> [] -> s ++ unit <> [].
Proof. intros U Z. apply app_eq_nil in Z. now destruct Z. Qed.

Lemma shown_not_blank unit o s : unit <> [] -> shown unit o = Ok s -> s <> [].
Proof.
  intros U E. unfold shown in E.
  destruct o as [t|]; [destruct (truthy t)|];
    try (injection E as <-; discriminate).
  destruct (to_string t) as [x|]; [|discriminate]. cbn [bind] in E.
  injection E as <-. now apply app_not_blank.
Qed.

Lemma reading_not_blank data cond again unit s :
  unit <> [] -> reading data cond again unit = Ok s -> s <> [].
Proof.
  intros U. unfold reading.
  destruct (eval_chain data cond) as [c|]; run; [|discriminate].
  destruct (truthy c); [|intros [= <-]; discriminate].
  destruct (eval_chain data again) as [v|]; run; [|discriminate].
  destruct (to_string v) as [x|]; run; [|discriminate].
  intros [= <-]. now apply app_not_blank.
Qed.

Lemma weather_shown_not_blank o : weather_shown o <> [].
Proof.
  unfold weather_shown.
  destruct o as [w|]; [destruct (truthy w)|]; try discriminate.
  apply getWeatherText_not_blank.
Qed.

Lemma formatDate_not_blank v d : formatDate v = Ok d -> d <> [].
Proof.
  unfold formatDate. destruct (truthy v); cbn [negb];
    [|intros [= <-]; discriminate].
  destruct (new_Date v) as [t|]; run; [|discriminate].
  intros [= <-]. apply app_not_blank. discriminate.
Qed.

(** No field of a summary is ever blank, and the table never has more
    than three rows, whatever the payload. *)
Theorem summaries_filled :
  (forall data s,
     extractTodayWeather data = Ok (Some s) ->
     date s <> [] /\ weather s <> [] /\ temperature s <> [] /\
     precipitation s <> []) /\
  (forall data rows,
     extractThreeDayWeather data = Ok (Some rows) ->
     (List.length rows <= 3)%nat /\
     forall row, In row rows ->
       ThreeDay.date row <> [] /\ ThreeDay.weather row <> [] /\
       ThreeDay.maxTemp row <> [] /\ ThreeDay.minTemp row <> []).
Proof.
  split.
  - intros data s E.
    destruct (extractTodayWeather_body _ _ E)
      as (rawDate & w & _ & _ & Ed & Ew & Et & Ep).
    split; [exact (formatDate_not_blank _ _ Ed)|].
    split; [rewrite Ew; apply getWeatherText_not_blank|].
    split; (eapply reading_not_blank; [|eassumption]; discriminate).
  - intros data rows E.
    destruct (extractThreeDayWeather_first_entry _ _ E) as (e0 & _ & E0).
    destruct (extractThreeDayWeather_rows _ _ _ E0)
      as (_ & dl & _ & Len & Cells).
    split; [lia|].
    intros row I. apply In_nth_error in I. destruct I as (i & R).
    destruct (Cells i row R) as (ts & _ & Fd & W & Mx & Mn).
    split; [exact (formatDate_not_blank _ _ Fd)|].
    split; [rewrite W; apply weather_shown_not_blank|].
    split; (eapply shown_not_blank; [|eassumption]; discriminate).
Qed.

(** ** What the extraction functions look at *)

(** The table is made from the first report entry alone, today's summary
    from the first two: the rest of the payload changes nothing. *)
Theorem extraction_frame (e0 e1 : value) (rest : list value) :
  extractThreeDayWeather (VArr (e0 :: rest)) = extractThreeDayWeather (VArr [e0])
  /\
  extractTodayWeather (VArr (e0 :: e1 :: rest))
  = extractTodayWeather (VArr [e0; e1]).
Proof.
  split.
  - now rewrite !extractThreeDayWeather_array.
  - reflexivity.
Qed.

(** ** The transition system *)

Lemma area_eqb_eq a b : area_eqb a b = true <-> a = b.
Proof. destruct a, b; cbn; split; congruence. Qed.

(** What a settled fetch leaves in the view. *)
Lemma step_Settle w i fetch :
  view (step w (Settle i fetch)) = view w \/
  exists a data st',
    nth_error (pending w) i = Some a /\
    fetchWeatherData fetch (AREA_CODES a) = Ok data /\
    fetchData_resume data (view w) = Ok st' /\
    view (step w (Settle i fetch)) = st'.
Proof.
  cbn [step]. destruct (nth_error (pending w) i) as [a|]; [|now left].
  destruct (fetchWeatherData fetch (AREA_CODES a)) as [data|] eqn:F; run;
    [|now left].
  destruct (fetchData_resume data (view w)) as [st'|] eqn:R; [|now left].
  right. exists a, data, st'. auto.
Qed.

(** The setters the rest of [fetchData] runs, by their effect on each
    field. *)
Lemma fetchData_resume_fields data st st' :
  fetchData_resume data st = Ok st' ->
  isLoading st' = false /\
  selectedArea st' = selectedArea st /\
  viewMode st' = viewMode st /\
  (weatherData st' = weatherData st \/
   exists t, extractTodayWeather data = Ok (Some t) /\ weatherData st' = Some t) /\
  (threeDayWeather st' = threeDayWeather st \/
   exists rows,
     extractThreeDayWeather data = Ok (Some rows) /\
     threeDayWeather st' = Some rows).
Proof.
  unfold fetchData_resume. destruct (truthy data).
  - destruct (extractTodayWeather data) as [tw|] eqn:Et; run; [|discriminate].
    destruct (extractThreeDayWeather data) as [td|] eqn:E3; run;
      [|discriminate].
    intros [= <-].
    destruct tw as [t|], td as [rows|]; cbn;
      (split; [reflexivity|]); (split; [reflexivity|]);
      (split; [reflexivity|]);
      split;
      first [left; reflexivity | right; eexists; split; reflexivity].
  - intros [= <-]. cbn. repeat split; left; reflexivity.
Qed.

Lemma table_at_most_three data rows :
  extractThreeDayWeather data = Ok (Some rows) -> (List.length rows <= 3)%nat.
Proof.
  intros E. destruct (extractThreeDayWeather_first_entry _ _ E) as (e0 & _ & E0).
  destruct (extractThreeDayWeather_rows _ _ _ E0) as (_ & dl & _ & Len & _).
  lia.
Qed.

Lemma reachable_loading_no_error w :
  reachable w -> isLoading (view w) = true -> error (view w) = None.
Proof.
  induction 1 as [|w e R IL]; [reflexivity|].
  destruct e as [a|m|i fetch].
  - cbn [step]. destruct (area_eqb a (selectedArea (view w)));
      [assumption|reflexivity].
  - exact IL.
  - destruct (step_Settle w i fetch)
      as [->|(a & data & st' & _ & _ & Res & ->)]; [assumption|].
    destruct (fetchData_resume_fields _ _ _ Res) as (L & _).
    rewrite L. discriminate.
Qed.

Lemma reachable_table_bound w rows :
  reachable w -> threeDayWeather (view w) = Some rows ->
  (List.length rows <= 3)%nat.
Proof.
  intros R. revert rows. induction R as [|w e R IT]; [discriminate|].
  destruct e as [a|m|i fetch].
  - cbn [step]. destruct (area_eqb a (selectedArea (view w))); exact IT.
  - exact IT.
  - destruct (step_Settle w i fetch)
      as [->|(a & data & st' & _ & _ & Res & ->)]; [exact IT|].
    destruct (fetchData_resume_fields _ _ _ Res)
      as (_ & _ & _ & _ & [T|(rows' & E & T)]); intros rows; rewrite T.
    + apply IT.
    + intros [= <-]. exact (table_at_most_three _ _ E).
Qed.

(** In every reachable state: while [isLoading] is set there is no error;
    and the table in the state has at most three rows. *)
Theorem reachable_invariant (w : World) :
  reachable w ->
  (isLoading (view w) = true -> error (view w) = None) /\
  (forall rows,
     threeDayWeather (view w) = Some rows -> (List.length rows <= 3)%nat).
Proof.
  intros R. split.
  - now apply reachable_loading_no_error.
  - intros rows. now apply reachable_table_bound.
Qed.

(** No transition takes a summary away: once today's summary or the table
    is in the state, every later state has one. *)
Theorem summaries_persist (w : World) (e : event) :
  (is_some (weatherData (view w)) = true ->
   is_some (weatherData (view (step w e))) = true) /\
  (is_some (threeDayWeather (view w)) = true ->
   is_some (threeDayWeather (view (step w e))) = true).
Proof.
  destruct e as [a|m|i fetch].
  - cbn [step]. destruct (area_eqb a (selectedArea (view w))); split; auto.
  - split; auto.
  - destruct (step_Settle w i fetch)
      as [->|(a & data & st' & _ & _ & Res & ->)]; [split; auto|].
    destruct (fetchData_resume_fields _ _ _ Res)
      as (_ & _ & _ & [T|(t & _ & T)] & [D|(rows & _ & D)]);
      rewrite T, D; split; auto.
Qed.

(** Choosing the region that is selected does nothing and fetches nothing;
    choosing another one selects it, sets [isLoading], clears the error,
    keeps both summaries and the view mode, and starts one fetch, for that
    region. *)
Theorem Click_area_effect (w : World) (a : area) :
  (a = selectedArea (view w) -> step w (Click_area a) = w) /\
  (a <> selectedArea (view w) ->
   step w (Click_area a)
   = {| view := {| selectedArea := a;
                   weatherData := weatherData (view w);
                   threeDayWeather := threeDayWeather (view w);
                   error := None;
                   isLoading := true;
                   viewMode := viewMode (view w) |};
        pending := pending w ++ [a] |}).
Proof.
  cbn [step]. split; intros E.
  - now rewrite (proj2 (area_eqb_eq _ _) E).
  - destruct (area_eqb a (selectedArea (view w))) eqn:B; [|reflexivity].
    now apply area_eqb_eq in B.
Qed.

(** A response is stored whatever region it was fetched for: when the
    fetch of a region that is no longer selected settles while the fetch of
    the selected region is still in flight, its summary is stored under the
    selected region and [isLoading] is cleared. *)
Theorem stale_response_stored
    (w : World) (i : nat) (fetch : jsstring -> result Response)
    (a : area) (data : value) (t : TodaySummary)
    (td : option (list ThreeDay.DaySummary)) :
  nth_error (pending w) i = Some a ->
  a <> selectedArea (view w) ->
  In (selectedArea (view w)) (pending w) ->
  fetchWeatherData fetch (AREA_CODES a) = Ok data ->
  truthy data = true ->
  extractTodayWeather data = Ok (Some t) ->
  extractThreeDayWeather data = Ok td ->
  selectedArea (view (step w (Settle i fetch))) = selectedArea (view w) /\
  weatherData (view (step w (Settle i fetch))) = Some t /\
  isLoading (view (step w (Settle i fetch))) = false /\
  In (selectedArea (view w)) (pending (step w (Settle i fetch))).
Proof.
  intros P N I F T Et E3. cbn [step]. rewrite P, F. run.
  unfold fetchData_resume. rewrite T, Et, E3. run. cbn [view pending].
  split; [now destruct td|]. split; [now destruct td|].
  split; [now destruct td|].
  clear - P N I. revert i P. induction (pending w) as [|b l IH]; intros i P.
  - destruct I.
  - destruct i as [|i]; cbn [nth_error firstn skipn app] in *.
    + injection P as ->. destruct I as [E|I]; [now subst|exact I].
    + destruct I as [E|I]; [now left|]. right. now apply (IH I i).
Qed.

(** When [extractThreeDayWeather] throws, nothing catches the exception:
    the promise of [fetchData] is rejected before any setter after the
    [await] has run, so the view is left as it is and [isLoading], set when
    the fetch started, is not cleared. *)
Theorem rejected_cycle_keeps_loading
    (w : World) (i : nat) (fetch : jsstring -> result Response)
    (a : area) (data : value) (e : exn) :
  nth_error (pending w) i = Some a ->
  fetchWeatherData fetch (AREA_CODES a) = Ok data ->
  truthy data = true ->
  extractThreeDayWeather data = Throw e ->
  view (step w (Settle i fetch)) = view w /\
  (forall st, selectedArea st = a -> fetchData fetch st = Throw e).
Proof.
  intros P F T E.
  assert (R : forall st, fetchData_resume data st = Throw e).
  { intros st. unfold fetchData_resume. rewrite T.
    destruct (extractTodayWeather_never_throws data) as (tw & ->).
    run. now rewrite E. }
  split.
  - cbn [step]. rewrite P, F. run. now rewrite R.
  - intros st <-. unfold fetchData. rewrite F. run. apply R.
Qed.

(** A response with a success status whose body is a falsy JSON value
    ([null], [0], [false], the empty string) is taken for no data: the
    cycle ends as it does when the network fails. *)
Theorem falsy_body_is_no_data
    (fetch : jsstring -> result Response) (st : ViewState)
    (response : Response) (body : value) :
  fetch (generateApiEndpoint (AREA_CODES (selectedArea st))) = Ok response ->
  ok response = true -> json response = Ok body -> truthy body = false ->
  fetchData fetch st
  = Ok {| selectedArea := selectedArea st;
          weatherData := weatherData st;
          threeDayWeather := threeDayWeather st;
          error := Some (js "天気データを取得できませんでした");
          isLoading := false;
          viewMode := viewMode st |} /\
  fetchData fetch st = fetchData (fun _ => Throw TypeError) st.
Proof.
  intros F O J T.
  assert (E : fetchWeatherData fetch (AREA_CODES (selectedArea st)) = Ok body).
  { unfold fetchWeatherData. rewrite F. run. rewrite O. run. now rewrite J. }
  unfold fetchData. rewrite E. run. unfold fetchData_resume. rewrite T.
  split; reflexivity.
Qed.

Lemma fetchData_resume_idempotent data st st' :
  fetchData_resume data st = Ok st' -> fetchData_resume data st' = Ok st'.
Proof.
  unfold fetchData_resume. destruct (truthy data).
  - destruct (extractTodayWeather data) as [tw|]; run; [|discriminate].
    destruct (extractThreeDayWeather data) as [td|]; run; [|discriminate].
    intros [= <-]. now destruct tw, td.
  - now intros [= <-].
Qed.

(** A response that arrives again changes nothing: when two fetches in
    flight settle one after the other with the same data (two fetches of
    one region, as after the clicks 大阪, 東京, 大阪), the second leaves the
    view as the first left it. *)
Theorem repeated_response_changes_nothing
    (w : World) (i j : nat) (fetch fetch' : jsstring -> result Response)
    (a b : area) :
  nth_error (pending w) i = Some a ->
  nth_error (pending (step w (Settle i fetch))) j = Some b ->
  fetchWeatherData fetch' (AREA_CODES b) = fetchWeatherData fetch (AREA_CODES a) ->
  view (step (step w (Settle i fetch)) (Settle j fetch'))
  = view (step w (Settle i fetch)).
Proof.
  intros P Q Same. rewrite (step_settle _ _ _ _ Q), (step_settle _ _ _ _ P).
  unfold fetchData_settle. rewrite Same.
  destruct (fetchWeatherData fetch (AREA_CODES a)) as [data|]; run;
    [|reflexivity].
  destruct (fetchData_resume data (view w)) as [st'|e] eqn:R.
  - now rewrite (fetchData_resume_idempotent _ _ _ R).
  - now rewrite R.
Qed.

(** ** The rendered tree *)

Lemma handlers_cells tag cell days : forall index,
  (fix go (l : list element) : list event :=
     match l with
     | [] => []
     | c :: rest => handlers c ++ go rest
     end) (cells tag cell index days) = [].
Proof.
  induction days as [|day days IH]; intros index; cbn [cells]; [reflexivity|].
  cbn [handlers on_click flat_map app]. apply IH.
Qed.

Lemma handlers_content st : handlers (content st) = [].
Proof.
  unfold content. destruct (isLoading st); [reflexivity|].
  destruct (error_message (error st)); [reflexivity|].
  destruct (viewMode st), (weatherData st) as [w|],
    (threeDayWeather st) as [days|]; try reflexivity;
    unfold three_day_table; cbn [handlers on_click flat_map app];
    now rewrite !handlers_cells.
Qed.

Lemma buttons_cells tag cell days :
  String.eqb tag "button" = false ->
  forall index,
  (fix go (l : list element) : list (jsstring * bool) :=
     match l with
     | [] => []
     | c :: rest => buttons c ++ go rest
     end) (cells tag cell index days) = [].
Proof.
  intros T. induction days as [|day days IH]; intros index; cbn [cells];
    [reflexivity|].
  cbn [buttons app]. rewrite T. apply IH.
Qed.

Lemma buttons_content st : buttons (content st) = [].
Proof.
  unfold content. destruct (isLoading st); [reflexivity|].
  destruct (error_message (error st)); [reflexivity|].
  destruct (viewMode st), (weatherData st) as [w|],
    (threeDayWeather st) as [days|]; try reflexivity;
    unfold three_day_table; cbn [buttons String.eqb Ascii.eqb Bool.eqb app];
    now rewrite !buttons_cells by reflexivity.
Qed.

(** In every state the tree has the same six handlers, in this order:
    one per region of the registry and the two view modes; they are there
    while loading and on an error too.  And the tree has six buttons, the
    four regions in the order of the registry and the two view modes, of
    which exactly one is bold, the one of the selected region. *)
Theorem controls_always_available (st : ViewState) :
  handlers (render st)
  = [Click_area Hokkaido; Click_area Tokyo; Click_area Osaka;
     Click_area Fukuoka; Click_viewMode today; Click_viewMode three_day] /\
  map fst (buttons (render st))
  = [area_name Hokkaido; area_name Tokyo; area_name Osaka; area_name Fukuoka;
     js "今日の天気"; js "3日間の天気"] /\
  map fst (filter snd (buttons (render st))) = [area_name (selectedArea st)].
Proof.
  split.
  - unfold render. cbn [handlers on_click flat_map app map AREA_CODES_keys
                        region_button].
    now rewrite handlers_content.
  - unfold render.
    cbn [buttons String.eqb Ascii.eqb Bool.eqb app map AREA_CODES_keys
         region_button is_bold existsb orb].
    rewrite buttons_content, !app_nil_r.
    split; [reflexivity|]. now destruct (selectedArea st).
Qed.

Lemma error_message_retrieval :
  error_message (Some (js "天気データを取得できませんでした"))
  = Some (js "天気データを取得できませんでした").
Proof. vm_compute. reflexivity. Qed.

Lemma error_message_parse :
  error_message (Some (js "データの解析に失敗しました"))
  = Some (js "データの解析に失敗しました").
Proof. vm_compute. reflexivity. Qed.

Lemma reachable_error_message w m :
  reachable w -> error (view w) = Some m ->
  m = js "天気データを取得できませんでした" \/ m = js "データの解析に失敗しました".
Proof.
  intros R. revert m. induction R as [|w e R IH]; [discriminate|].
  destruct e as [a|vm|i fetch].
  - cbn [step]. destruct (area_eqb a (selectedArea (view w)));
      [exact IH|discriminate].
  - exact IH.
  - cbn [step]. destruct (nth_error (pending w) i) as [a|]; [|exact IH].
    destruct (fetchWeatherData fetch (AREA_CODES a)) as [data|]; run;
      [|exact IH].
    destruct (fetchData_resume data (view w)) as [st'|] eqn:Res; [|exact IH].
    cbn [view].
    destruct (fetchData_resume_outcome _ _ _ Res)
      as [(_ & ->)|(_ & tw & td & _ & _ & _ & _ & _ & _ & _ & Er)].
    + cbn [error setIsLoading setError]. intros m E. injection E as <-.
      left. reflexivity.
    + rewrite Er. destruct (is_some tw || is_some td); [exact IH|].
      intros m [= <-]. now right.
Qed.

(** In every reachable state that is not loading and holds an error, the
    content is the error paragraph and nothing else, with one of the two
    messages of the source, whatever summaries the state holds: data of an
    earlier cycle, and data stored after the error was set, stay in the
    state and are not shown. *)
Theorem error_hides_data (w : World) (m : jsstring) :
  reachable w -> isLoading (view w) = false -> error (view w) = Some m ->
  content (view w)
  = Element "p" [Color "red"] [Text (js "エラー: "); Text m] /\
  (m = js "天気データを取得できませんでした" \/ m = js "データの解析に失敗しました").
Proof.
  intros R L Er. pose proof (reachable_error_message _ _ R Er) as M.
  split; [|exact M]. unfold content. rewrite L, Er.
  destruct M as [-> | ->].
  - now rewrite error_message_retrieval.
  - now rewrite error_message_parse.
Qed.

Lemma cells_length tag cell days : forall index,
  List.length (cells tag cell index days) = List.length days.
Proof.
  induction days as [|day days IH]; intros index; cbn [cells List.length];
    [reflexivity|].
  now rewrite IH.
Qed.

Lemma cells_nth tag cell days : forall index i day,
  nth_error days i = Some day ->
  nth_error (cells tag cell index days) i
  = Some (Element tag [Key (decimal (Z.of_nat (index + i)))] [Text (cell day)]).
Proof.
  induction days as [|d days IH]; intros index i day; [now destruct i|].
  destruct i as [|i]; cbn [nth_error cells].
  - intros [= ->]. now rewrite Nat.add_0_r.
  - intros E. rewrite (IH (S index) i day E). now rewrite Nat.add_succ_r.
Qed.

Lemma table_row_lengths (days : list ThreeDay.DaySummary) :
  map (fun r => List.length (children_of r)) (table_rows (three_day_table days))
  = [S (List.length days); S (List.length days); S (List.length days);
     S (List.length days)].
Proof.
  cbn [three_day_table table_rows children_of map app List.length].
  now rewrite !cells_length.
Qed.

(** The table is rectangular: a head row and three body rows, each with a
    label cell and one cell per day; column [i] holds the date, the
    weather, the maximum and the minimum temperature of day [i]. *)
Theorem table_shape (days : list ThreeDay.DaySummary) :
  map (fun r => List.length (children_of r)) (table_rows (three_day_table days))
  = [S (List.length days); S (List.length days); S (List.length days);
     S (List.length days)] /\
  (forall i day,
     nth_error days i = Some day ->
     map (fun r => option_map text_content (nth_error (children_of r) (S i)))
       (table_rows (three_day_table days))
     = [Some (ThreeDay.date day); Some (ThreeDay.weather day);
        Some (ThreeDay.maxTemp day); Some (ThreeDay.minTemp day)]).
Proof.
  split; [apply table_row_lengths|].
  intros i day E.
  cbn [three_day_table table_rows children_of map app nth_error].
  rewrite !(cells_nth _ _ _ _ _ _ E). cbn [option_map text_content app].
  now rewrite !app_nil_r.
Qed.

Lemma table_rows_content st :
  table_rows (content st) = [] \/
  exists days,
    threeDayWeather st = Some days /\ content st = three_day_table days.
Proof.
  unfold content. destruct (isLoading st); [now left|].
  destruct (error_message (error st)); [now left|].
  destruct (viewMode st), (weatherData st) as [w|],
    (threeDayWeather st) as [days|]; try (now left); right; eauto.
Qed.

(** In every reachable state the rows of the table on the screen have at
    most four cells: the label and at most three days. *)
Theorem table_on_screen (w : World) (r : element) :
  reachable w -> In r (table_rows (content (view w))) ->
  (List.length (children_of r) <= 4)%nat.
Proof.
  intros R I.
  destruct (table_rows_content (view w)) as [E|(days & D & E)].
  - rewrite E in I. destruct I.
  - rewrite E in I. pose proof (reachable_table_bound _ _ R D) as B.
    apply (in_map (fun r => List.length (children_of r))) in I.
    rewrite (table_row_lengths days) in I.
    cbn [In] in I. lia.
Qed.

End WeatherComponent.

(** * Concrete runs *)

(** The runs are on the engine in Japan, unless another is named. *)
#[local] Existing Instance jst_host.

Example js_ascii : js "T12" = [84; 49; 50]%N.
Proof. reflexivity. Qed.

Example js_kanji : js "不明" = [19981; 26126]%N.
Proof. reflexivity. Qed.

Example split_timestamp :
  split (unit_of "T") (js "2024-05-03T00:00:00")
  = [js "2024-05-03"; js "00:00:00"].
Proof. reflexivity. Qed.

Example decimal_negative : decimal (-120) = js "-120".
Proof. reflexivity. Qed.

Example extractTodayWeather_forecast :
  extractTodayWeather (H := jst_host) forecast
  = Ok (Some {| date := js "3日"; weather := js "晴れ";
                temperature := js "24℃"; precipitation := js "10%" |}).
Proof. vm_compute. reflexivity. Qed.

Example extractThreeDayWeather_forecast :
  extractThreeDayWeather (H := jst_host) forecast
  = Ok (Some [ {| ThreeDay.date := js "3日"; ThreeDay.weather := js "晴れ";
                  ThreeDay.maxTemp := js "不明"; ThreeDay.minTemp := js "16℃" |};
               {| ThreeDay.date := js "4日"; ThreeDay.weather := js "雨";
                  ThreeDay.maxTemp := js "不明"; ThreeDay.minTemp := js "26℃" |};
               {| ThreeDay.date := js "5日"; ThreeDay.weather := js "曇り";
                  ThreeDay.maxTemp := js "不明"; ThreeDay.minTemp := js "不明" |} ]).
Proof. vm_compute. reflexivity. Qed.

Lemma extractTodayWeather_temperature_position_witness :
  (exists s,
     extractTodayWeather (H := jst_host) forecast = Ok (Some s) /\
     temperature s = js "24" ++ js "℃" /\
     weather s = js "晴れ") /\
  shown (H := jst_host) (js "℃")
    (at_path forecast [Idx 1; Fld timeSeries; Idx 2; Fld areas; Idx 0;
                       Fld temps; Idx 1])
    = Ok (js "24℃") /\
  (forall s,
     extractTodayWeather (H := jst_host) (VArr [report0]) = Ok (Some s) ->
     temperature s = js "不明") /\
  exists s,
    extractTodayWeather (H := jst_host) (VArr [report0]) = Ok (Some s) /\
    temperature s = js "不明" /\
    formatDate (H := jst_host) (str "2024-05-03") = Ok (date s) /\
    weather s = js "晴れ" /\
    Ok (js "10%") = Ok (precipitation s).
Proof.
  destruct (extractTodayWeather_temperature_position (H := jst_host))
    as (A & B & C & D).
  split; [|split; [|split]].
  - destruct (B report0 report1 [] (js "2024-05-03T11:00:00+09:00")
                (str "晴れ　夜　くもり") (str "10") (str "24")
                eq_refl eq_refl eq_refl eq_refl eq_refl eq_refl)
      as (s & E & _ & T & _ & W & _).
    exists s. split; [exact E|].
    destruct (T eq_refl) as (digits & Ed & Et). injection Ed as <-.
    split; [exact Et|exact W].
  - exact (A forecast
             {| date := js "3日"; weather := js "晴れ";
                temperature := js "24℃"; precipitation := js "10%" |}
             eq_refl).
  - intros s E. exact (proj1 (C report0 [] s eq_refl E)).
  - exact (D report0 [] (js "2024-05-03T11:00:00+09:00")
             (str "晴れ　夜　くもり") (str "10")
             eq_refl eq_refl eq_refl eq_refl eq_refl).
Defined.

(** Without the timestamp the same entry gives null, with it a summary. *)
Lemma extractTodayWeather_missing_reportDatetime_witness :
  own_property (js "reportDatetime") timeSeries_only = None /\
  extractTodayWeather (H := jst_host) (VArr [VObj timeSeries_only]) = Ok None.
Proof.
  split; [reflexivity|].
  exact (extractTodayWeather_missing_reportDatetime (H := jst_host)
           timeSeries_only [] eq_refl).
Defined.

Example extractTodayWeather_with_reportDatetime :
  extractTodayWeather (H := jst_host)
    (VArr [VObj (prop "reportDatetime" (str "2024-05-03T11:00:00+09:00")
                   :: timeSeries_only)])
  = Ok (Some {| date := js "3日"; weather := js "晴れ";
                temperature := js "不明"; precipitation := js "10%" |}).
Proof. vm_compute. reflexivity. Qed.

(** The table of seven timestamps and two weather texts. *)
Example extractThreeDayWeather_week :
  extractThreeDayWeather (H := jst_host) (VArr [week_entry])
  = Ok (Some [ {| ThreeDay.date := js "3日"; ThreeDay.weather := js "晴れ";
                  ThreeDay.maxTemp := js "25℃"; ThreeDay.minTemp := js "15℃" |};
               {| ThreeDay.date := js "4日"; ThreeDay.weather := js "くもり";
                  ThreeDay.maxTemp := js "26℃"; ThreeDay.minTemp := js "不明" |};
               {| ThreeDay.date := js "5日"; ThreeDay.weather := js "不明";
                  ThreeDay.maxTemp := js "27℃"; ThreeDay.minTemp := js "不明" |} ]).
Proof. vm_compute. reflexivity. Qed.

(** Two timestamps in a first bucket without [areas]: null, not two rows
    with 不明. *)
Lemma extractThreeDayWeather_missing_areas_witness :
  at_path days_only_entry [Fld timeSeries; Idx 0; Fld timeDefines]
  = Some (VArr [str "2024-05-03T11:00:00+09:00";
                str "2024-05-04T00:00:00+09:00"]) /\
  at_path days_only_entry [Fld timeSeries; Idx 0; Fld areas] = None /\
  extractThreeDayWeather (H := jst_host) (VArr [days_only_entry]) = Ok None.
Proof.
  split; [reflexivity|]. split; [reflexivity|].
  exact (extractThreeDayWeather_missing_areas (H := jst_host)
           days_only_entry [] 0 eq_refl (le_0_n 2) eq_refl).
Defined.

(** The same timestamps in a bucket whose [areas] is the empty list: two
    rows, the weather and the temperatures 不明. *)
Example extractThreeDayWeather_empty_areas :
  extractThreeDayWeather (H := jst_host)
    (VArr [VObj
             [prop "timeSeries"
                (VArr
                   [VObj
                      [prop "timeDefines"
                         (VArr [str "2024-05-03T11:00:00+09:00";
                                str "2024-05-04T00:00:00+09:00"]);
                       prop "areas" (VArr [])]])]])
  = Ok (Some [ {| ThreeDay.date := js "3日"; ThreeDay.weather := js "不明";
                  ThreeDay.maxTemp := js "不明"; ThreeDay.minTemp := js "不明" |};
               {| ThreeDay.date := js "4日"; ThreeDay.weather := js "不明";
                  ThreeDay.maxTemp := js "不明";
                  ThreeDay.minTemp := js "不明" |} ]).
Proof. vm_compute. reflexivity. Qed.

(** Seven timestamps and two weather texts: three rows, the third weather
    不明. *)
Example extractThreeDayWeather_zip_week :
  exists rows,
    extractThreeDayWeather (H := jst_host) (VArr [week_entry]) = Ok (Some rows) /\
    List.length rows = 3%nat /\
    forall row, nth_error rows 2 = Some row ->
      ThreeDay.weather row = js "不明" /\ ThreeDay.minTemp row = js "不明" /\
      Ok (js "27℃") = Ok (ThreeDay.maxTemp row).
Proof.
  destruct (extractThreeDayWeather_zip (H := jst_host)
              week_entry [] week_days) as (rows & E & Len & Cells).
  - reflexivity.
  - reflexivity.
  - reflexivity.
  - reflexivity.
  - reflexivity.
  - intros x [<-|[<-|[<-|[]]]]; reflexivity.
  - intros [|[|[|i]]] t L; [intros [= <-]; reflexivity ..|].
    exfalso. cbn in L. lia.
  - intros [|[|[|i]]] t L; [intros [= <-]; reflexivity|discriminate ..|].
    exfalso. cbn in L. lia.
  - exists rows. split; [exact E|]. split; [exact Len|].
    intros row R. destruct (Cells 2%nat row R) as (_ & _ & Mx & _ & W & _ & Mn).
    split; [|split].
    + exact (W [str "晴れ"; str "くもり"] eq_refl (le_n 2)).
    + exact (Mn [str "15"] eq_refl (le_S _ _ (le_n 1))).
    + exact Mx.
Qed.

(** A first bucket that has nothing: null, and the error of the
    controller, not the empty table. *)
Lemma extractThreeDayWeather_empty_bucket_witness :
  at_path empty_bucket_entry [Fld timeSeries; Idx 0] = Some (VObj []) /\
  extractThreeDayWeather (H := jst_host) (VArr [empty_bucket_entry]) = Ok None /\
  exists st',
    fetchData_resume (H := jst_host) (VArr [empty_bucket_entry]) mounted.(view)
    = Ok st' /\
    threeDayWeather st' = None /\ weatherData st' = None /\
    error st' = Some (js "データの解析に失敗しました").
Proof.
  destruct (extractThreeDayWeather_empty_bucket (H := jst_host)
              empty_bucket_entry [] eq_refl eq_refl eq_refl) as (_ & E & C).
  split; [reflexivity|]. split; [exact E|].
  destruct (C (view mounted)) as (st' & R & T & W).
  exists st'. split; [exact R|]. split; [exact T|].
  apply W. vm_compute. reflexivity.
Defined.

(** Without a first bucket, and with a first bucket that has its [areas]
    and no timestamps, the table is empty. *)
Example extractThreeDayWeather_empty_table :
  extractThreeDayWeather (H := jst_host) (VArr [no_bucket_entry]) = Ok (Some []) /\
  extractThreeDayWeather (H := jst_host) (VArr [no_days_entry]) = Ok (Some []) /\
  extractThreeDayWeather (H := jst_host) (VArr [VObj []]) = Ok None /\
  extractThreeDayWeather (H := jst_host) (VArr [VNull; report1]) = Ok None.
Proof.
  destruct (extractThreeDayWeather_no_days (H := jst_host)) as (A & B & _).
  split; [|split; [|split]].
  - exact (A no_bucket_entry [] eq_refl eq_refl eq_refl eq_refl eq_refl).
  - exact (A no_days_entry [] eq_refl eq_refl eq_refl eq_refl eq_refl).
  - exact (B (VObj []) [] eq_refl).
  - exact (B VNull [report1] eq_refl).
Qed.

Lemma falsy_values_shown_unknown_witness :
  (forall s,
     extractTodayWeather (H := jst_host) falsy_payload = Ok (Some s) ->
     temperature s = js "不明" /\ precipitation s = js "不明") /\
  (exists s,
     extractTodayWeather (H := jst_host) falsy_payload = Ok (Some s) /\
     temperature s = js "不明" /\ precipitation s = js "不明") /\
  (forall rows row,
     extractThreeDayWeather (H := jst_host) falsy_payload = Ok (Some rows) ->
     nth_error rows 0 = Some row ->
     ThreeDay.weather row = js "不明" /\ ThreeDay.maxTemp row = js "不明" /\
     ThreeDay.minTemp row = js "不明") /\
  (exists d,
     formatDate (H := jst_host) (str "2024-05-03") = Ok d /\
     extractThreeDayWeather (H := jst_host) falsy_payload
     = Ok (Some [ {| ThreeDay.date := d; ThreeDay.weather := js "不明";
                     ThreeDay.maxTemp := js "不明";
                     ThreeDay.minTemp := js "不明" |} ])).
Proof.
  destruct (falsy_values_shown_unknown (H := jst_host)) as (A & B & C & D).
  split; [|split; [|split]].
  - intros s E. destruct (A falsy_payload s E) as (T & P). split.
    + exact (T (str "") eq_refl eq_refl).
    + exact (P (num 0) eq_refl eq_refl).
  - exact (B falsy_entry [falsy_entry] (js "2024-05-03T11:00:00+09:00")
             (str "") (str "") (num 0) eq_refl eq_refl eq_refl eq_refl
             eq_refl eq_refl).
  - intros rows row E R.
    destruct (C falsy_entry [falsy_entry] rows 0%nat row E R) as (W & Mx & Mn).
    split; [|split].
    + exact (W (str "") eq_refl eq_refl).
    + exact (Mx (num 0) eq_refl eq_refl).
    + exact (Mn (VBool false) eq_refl eq_refl).
  - exact (D falsy_entry [falsy_entry] (js "2024-05-03T11:00:00+09:00")
             (str "") (num 0) (VBool false) eq_refl eq_refl eq_refl eq_refl
             eq_refl eq_refl eq_refl).
Defined.

(** The empty text has none of the three characters and is not returned
    unchanged. *)
Lemma getWeatherText_priority_counterexample :
  ~ contains [] (js "晴") /\ ~ contains [] (js "雨") /\ ~ contains [] (js "曇") /\
  getWeatherText (VStr []) = js "不明" /\
  getWeatherText (VStr []) <> [].
Proof.
  repeat split; try discriminate;
    intros (a & b & E); destruct a; discriminate E.
Qed.

Lemma getWeatherText_priority_witness :
  getWeatherText (str "晴れ　時々　雨") = js "晴れ" /\
  getWeatherText (str "くもり　一時　雨") = js "雨" /\
  getWeatherText (str "曇り") = js "曇り" /\
  getWeatherText (str "雪") = js "雪" /\
  getWeatherText VNull = js "不明" /\
  getWeatherText (num 100) = js "不明" /\
  getWeatherText (str "") = js "不明".
Proof.
  destruct getWeatherText_priority as (A & B & C & D & E).
  assert (N : forall s sub, includes s sub = false -> ~ contains s sub)
    by (intros s sub; apply includes_false).
  assert (Y : forall s sub, includes s sub = true -> contains s sub)
    by (intros s sub; apply includes_spec).
  split; [|split; [|split; [|split; [|split; [|split]]]]].
  - apply A, Y. reflexivity.
  - apply B; [apply N|apply Y]; reflexivity.
  - apply C; [apply N|apply N|apply Y]; reflexivity.
  - apply (D (js "雪")); [discriminate|apply N ..]; reflexivity.
  - apply E. left. reflexivity.
  - apply E. left. reflexivity.
  - apply E. right. reflexivity.
Defined.

(** A payload whose first entry is null: today's summary is stored (every
    field 不明), the table is not, and no error is set.  And after a
    successful cycle a failed one: both summaries are still there and the
    error is set. *)
Lemma fetchData_outcome_counterexample :
  (exists st',
     fetchData (H := jst_host) (serve (VArr [VNull])) initial_state = Ok st' /\
     summaries_populated st' = false /\ error_populated st' = false) /\
  (exists w,
     reachable (H := jst_host) w /\
     exists st',
       fetchData (H := jst_host) unreachable (view w) = Ok st' /\
       summaries_populated st' = true /\ error_populated st' = true).
Proof.
  split.
  - eexists. split; [vm_compute; reflexivity|]. split; reflexivity.
  - exists (fold_left (step (H := jst_host)) [Settle 0 (serve forecast)] mounted).
    split; [apply reachable_fold; constructor|].
    eexists. split; [vm_compute; reflexivity|]. split; reflexivity.
Qed.

(** The first cycle, with a forecast; and a cycle that completes with a
    forecast after another has failed: the summaries are stored and the
    error is left. *)
Lemma fetchData_outcome_witness :
  (exists st',
     view (step (H := jst_host) mounted (Settle 0 (serve forecast))) = st' /\
     isLoading st' = false /\ error st' = error (view mounted) /\
     is_some (weatherData st') = true /\ is_some (threeDayWeather st') = true) /\
  (exists st',
     view (step (H := jst_host) (step overtaken
                                   (Settle 0 unreachable))
             (Settle 0 (serve forecast))) = st' /\
     isLoading st' = false /\
     error st' = Some (js "天気データを取得できませんでした") /\
     is_some (weatherData st') = true /\ is_some (threeDayWeather st') = true) /\
  (exists st',
     view (step (H := jst_host) mounted (Settle 0 unreachable)) = st' /\
     isLoading st' = false /\
     error st' = Some (js "天気データを取得できませんでした") /\
     weatherData st' = None /\ threeDayWeather st' = None).
Proof.
  split; [|split].
  - destruct (fetchData_outcome (H := jst_host) mounted 0 (serve forecast)
                Tokyo eq_refl) as (A & B).
    destruct (B forecast eq_refl (or_intror (ex_intro _ _ eq_refl)))
      as (st' & E).
    exists st'. destruct (A st' E) as (V & L & data & F & Cases).
    split; [exact V|]. split; [exact L|].
    injection F as <-.
    destruct Cases as [(tw & td & _ & Etw & Etd & _ & W & D & Er)
                      |([(T & _)|(_ & Etw & _)] & _)].
    + split; [exact Er|]. rewrite W, D.
      vm_compute in Etw. injection Etw as <-.
      vm_compute in Etd. injection Etd as <-. split; reflexivity.
    + discriminate T.
    + vm_compute in Etw. discriminate Etw.
  - destruct (fetchData_outcome (H := jst_host)
                (step overtaken (Settle 0 unreachable)) 0 (serve forecast)
                Osaka eq_refl) as (A & B).
    destruct (B forecast eq_refl (or_intror (ex_intro _ _ eq_refl)))
      as (st' & E).
    exists st'. destruct (A st' E) as (V & L & data & F & Cases).
    split; [exact V|]. split; [exact L|].
    injection F as <-.
    destruct Cases as [(tw & td & _ & Etw & Etd & _ & W & D & Er)
                      |([(T & _)|(_ & Etw & _)] & _)].
    + split; [rewrite Er; vm_compute; reflexivity|]. rewrite W, D.
      vm_compute in Etw. injection Etw as <-.
      vm_compute in Etd. injection Etd as <-. split; reflexivity.
    + discriminate T.
    + vm_compute in Etw. discriminate Etw.
  - destruct (fetchData_outcome (H := jst_host) mounted 0 unreachable
                Tokyo eq_refl) as (A & B).
    destruct (B VNull eq_refl (or_introl eq_refl)) as (st' & E).
    exists st'. destruct (A st' E) as (V & L & data & F & Cases).
    split; [exact V|]. split; [exact L|].
    injection F as <-.
    destruct Cases as [(tw & td & T & _)
                      |([(_ & Er)|(T & _)] & W & D)].
    + discriminate T.
    + split; [exact Er|]. split; [exact W|exact D].
    + discriminate T.
Defined.

(** A text that is no date. *)
Lemma formatDate_label_counterexample :
  Date_parse (H := jst_host) (js "abc") = None /\
  formatDate (H := jst_host) (str "abc") = Ok (js "NaN日") /\
  formatDate (H := jst_host) (str "abc") <> Ok (js "不明").
Proof.
  split; [reflexivity|]. split; [reflexivity|]. discriminate.
Qed.

Lemma formatDate_label_witness :
  formatDate (H := jst_host) VNull = Ok (js "不明") /\
  formatDate (H := jst_host) (str "") = Ok (js "不明") /\
  formatDate (H := jst_host) (str "2024-05-03T11:00:00+09:00") = Ok (js "3日") /\
  formatDate (H := jst_host) (num 86400000) = Ok (js "2日") /\
  formatDate (H := jst_host) (str "abc") = Ok (js "NaN日") /\
  (exists e,
     formatDate (H := jst_host) (VObj [prop "toString" (num 0)]) = Throw e) /\
  formatDate (H := jst_host) (str "2024-02-29T23:59:59") = Ok (js "29日") /\
  formatDate (H := jst_host) (str "2024-05-03") = Ok (js "3日") /\
  formatDate (H := jst_host) (str "2024-05-03T00:00:00") = Ok (js "3日").
Proof.
  destruct (formatDate_label (H := jst_host))
    as (A & B & C & D & E & F & G).
  split; [|split; [|split; [|split; [|split; [|split; [|split; [|split]]]]]]].
  - exact (A VNull eq_refl).
  - exact (A (str "") eq_refl).
  - destruct (B (str "2024-05-03T11:00:00+09:00") eq_refl eq_refl)
      as (date & N & L & _).
    vm_compute in N. injection N as <-. rewrite L. vm_compute. reflexivity.
  - destruct (B (num 86400000) eq_refl eq_refl) as (date & N & L & _).
    vm_compute in N. injection N as <-. rewrite L. vm_compute. reflexivity.
  - exact (D (js "abc") ltac:(discriminate) eq_refl).
  - exact (C (VObj [prop "toString" (num 0)]) eq_refl eq_refl).
  - refine (E (js "2024-02-29T23:59:59")
              {| iso_year := 2024; iso_month := 2; iso_day := 29;
                 iso_hour := 23; iso_min := 59; iso_sec := 59; iso_ms := 0;
                 iso_offset := None; iso_date_only := false |}
              eq_refl eq_refl eq_refl eq_refl _ _).
    + cbn. lia.
    + vm_compute. reflexivity.
  - refine (F (js "2024-05-03")
              {| iso_year := 2024; iso_month := 5; iso_day := 3;
                 iso_hour := 0; iso_min := 0; iso_sec := 0; iso_ms := 0;
                 iso_offset := None; iso_date_only := true |}
              eq_refl eq_refl eq_refl _).
    vm_compute. discriminate.
  - apply G. vm_compute. reflexivity.
Defined.

(** Japan had summer time in 1950: the instant 1950-07-01T23:30:00+09:00
    fell on the 2nd there; and the first hour of 7 May 1950 was skipped,
    so that a local time in it is read an hour later, on the same day. *)
Example formatDate_summer_time :
  formatDate (H := jst_host) (str "1950-07-01T23:30:00+09:00") = Ok (js "2日") /\
  formatDate (H := jst_host) (str "1950-05-07T00:30:00") = Ok (js "7日") /\
  LocalTZA (Host := jst_host) (UTC (H := jst_host) (-620265600000 + 1800000)) true
  <> LocalTZA (Host := jst_host) (-620265600000 + 1800000) false.
Proof.
  split; [vm_compute; reflexivity|]. split; [vm_compute; reflexivity|].
  vm_compute. discriminate.
Qed.

(** A day that is not in its month carries over, a number prints as the
    engine prints it, and a string is below 1 by its numeric reading. *)
Example engine_readings :
  formatDate (H := jst_host) (str "2024-02-30") = Ok (js "1日") /\
  shown (H := jst_host) (js "℃") (Some (VNum (Finite (33 # 2))))
  = Ok (js "16.5℃") /\
  shown (H := jst_host) (js "℃") (Some (num (10 ^ 21))) = Ok (js "1e+21℃") /\
  shown (H := jst_host) (js "℃") (Some (num 24)) = Ok (js "24℃") /\
  lt_1 (H := jst_host) (str "-1") = Ok true /\
  lt_1 (H := jst_host) (str "abc") = Ok false.
Proof.
  split; [vm_compute; reflexivity|]. split; [vm_compute; reflexivity|].
  split; [vm_compute; reflexivity|]. split; [vm_compute; reflexivity|].
  split; vm_compute; reflexivity.
Qed.

(** West of Greenwich a date-only string is the evening before. *)
Example formatDate_west :
  formatDate (H := est_host) (str "2024-05-03") = Ok (js "2日") /\
  formatDate (H := est_host) (str "2024-05-03T00:00:00") = Ok (js "3日").
Proof. split; vm_compute; reflexivity. Qed.

Lemma fetchWeatherData_collapses_failures_witness :
  fetchWeatherData (serve forecast) (AREA_CODES Tokyo) = Ok forecast /\
  fetchWeatherData unreachable (AREA_CODES Tokyo) = Ok VNull /\
  fetchWeatherData refuse (AREA_CODES Tokyo) = Ok VNull /\
  fetchWeatherData garbled (AREA_CODES Tokyo) = Ok VNull.
Proof.
  split; [|split; [|split]].
  - exact (proj1 (fetchWeatherData_collapses_failures (serve forecast)
                    (AREA_CODES Tokyo))
             {| ok := true; json := Ok forecast |} forecast
             eq_refl eq_refl eq_refl).
  - destruct (fetchWeatherData_collapses_failures unreachable
                (AREA_CODES Tokyo)) as (_ & N & _).
    exact (N TypeError eq_refl).
  - destruct (fetchWeatherData_collapses_failures refuse (AREA_CODES Tokyo))
      as (_ & _ & S & _).
    exact (S {| ok := false; json := Ok VNull |} eq_refl eq_refl).
  - destruct (fetchWeatherData_collapses_failures garbled (AREA_CODES Tokyo))
      as (_ & _ & _ & P & _).
    exact (P {| ok := true; json := Throw SyntaxError |} SyntaxError
             eq_refl eq_refl eq_refl).
Defined.

Example generateApiEndpoint_Tokyo :
  generateApiEndpoint (AREA_CODES Tokyo)
  = js "https://www.jma.go.jp/bosai/forecast/data/forecast/130000.json".
Proof. reflexivity. Qed.

(** The toggle in a state with data and a fetch in flight. *)
Example viewMode_toggle_run :
  step (H := jst_host)
    (fold_left (step (H := jst_host))
       [Settle 0 (serve forecast); Click_area Osaka] mounted)
    (Click_viewMode three_day)
  = {| view := setViewMode three_day
                 (view (fold_left (step (H := jst_host))
                          [Settle 0 (serve forecast); Click_area Osaka]
                          mounted));
       pending := [Osaka] |}.
Proof. vm_compute. reflexivity. Qed.

(** * Concrete runs of the further properties *)

Lemma browsing_reachable : reachable (H := jst_host) (browsing (H := jst_host)).
Proof.
  unfold browsing.
  exact (reachable_fold (H := jst_host) _ _ (reachable_mounted (H := jst_host))).
Qed.

Lemma endpoints_distinct_witness :
  AREA_CODES Tokyo = js "130000" /\ Osaka = Osaka.
Proof.
  split.
  - exact (proj1 endpoints_distinct (AREA_CODES Tokyo) (js "130000") eq_refl).
  - exact (proj2 endpoints_distinct Osaka Osaka eq_refl).
Defined.

Lemma formatDate_labels_witness :
  (exists d,
     formatDate (H := jst_host) (str "2024-05-03") = Ok d /\
     (d = js "不明" \/ d = js "NaN日" \/
      exists n, 1 <= n <= 31 /\ d = decimal n ++ js "日")) /\
  (exists e, formatDate (H := jst_host) (VObj hidden_length) = Ok e) /\
  exists e,
    formatDate (H := jst_host) (VObj [prop "toString" (num 0)]) = Throw e.
Proof.
  split; [|split].
  - exact (proj1 (formatDate_labels (H := jst_host) (str "2024-05-03"))
             eq_refl).
  - destruct (proj1 (formatDate_labels (H := jst_host) (VObj hidden_length))
                eq_refl) as (d & E & _).
    exists d. exact E.
  - exact (proj2 (formatDate_labels (H := jst_host)
                    (VObj [prop "toString" (num 0)])) eq_refl).
Defined.

Lemma extraction_exceptions_witness :
  (exists e,
     extractThreeDayWeather (H := jst_host) (VObj hidden_length) = Throw e) /\
  (exists props len,
     VObj hidden_length = VObj props /\
     own_property (js "length") props = Some len /\ printable len = false).
Proof.
  destruct (extraction_exceptions (H := jst_host)) as (_ & A & B & _).
  split.
  - exact (B hidden_length (VObj [prop "toString" (num 0)]) eq_refl eq_refl).
  - exact (A (VObj hidden_length) TypeError eq_refl).
Defined.

Lemma extraction_without_entries_witness :
  extractTodayWeather (H := jst_host) error_document = Ok (Some all_unknown) /\
  extractThreeDayWeather (H := jst_host) error_document = Ok None /\
  extractTodayWeather (H := jst_host) (VArr [VNull]) = Ok (Some all_unknown) /\
  extractThreeDayWeather (H := jst_host) (VArr [VNull]) = Ok None.
Proof.
  destruct (extraction_without_entries (H := jst_host) error_document
              VUndefined eq_refl eq_refl eq_refl eq_refl eq_refl) as (A & B).
  destruct (extraction_without_entries (H := jst_host) (VArr [VNull])
              (num 1) eq_refl eq_refl eq_refl eq_refl eq_refl) as (C & D).
  split; [exact A|]. split; [exact (B eq_refl)|].
  split; [exact C|exact (D eq_refl)].
Defined.

(** An error document as the first response; and as the response of 大阪
    after the fetch of 東京 has failed: the error of that failure stays. *)
Lemma fetchData_without_entries_witness :
  (weatherData (view (step mounted (Settle 0 (serve error_document))))
   = Some all_unknown /\
   error (view (step mounted (Settle 0 (serve error_document)))) = None /\
   content (view (step mounted (Settle 0 (serve error_document))))
   = today_card all_unknown) /\
  (weatherData
     (view (step (step overtaken (Settle 0 unreachable))
              (Settle 0 (serve error_document))))
   = Some all_unknown /\
   error
     (view (step (step overtaken (Settle 0 unreachable))
              (Settle 0 (serve error_document))))
   = error (view (step overtaken (Settle 0 unreachable)))).
Proof.
  split.
  - destruct (fetchData_without_entries (H := jst_host) mounted 0
                (serve error_document) Tokyo error_document VUndefined
                eq_refl eq_refl eq_refl eq_refl eq_refl eq_refl eq_refl eq_refl)
      as (W & _ & E & _ & C).
    split; [exact W|]. split; [exact E|]. exact (C eq_refl eq_refl).
  - destruct (fetchData_without_entries (H := jst_host)
                (step overtaken (Settle 0 unreachable)) 0
                (serve error_document) Osaka error_document VUndefined
                eq_refl eq_refl eq_refl eq_refl eq_refl eq_refl eq_refl eq_refl)
      as (W & _ & E & _).
    split; [exact W|exact E].
Defined.

Lemma summaries_filled_witness :
  (js "3日" <> [] /\ js "晴れ" <> [] /\ js "24℃" <> [] /\ js "10%" <> []) /\
  (3 <= 3)%nat /\
  (js "5日" <> [] /\ js "曇り" <> [] /\ js "不明" <> [] /\ js "不明" <> []).
Proof.
  destruct (summaries_filled (H := jst_host)) as (A & B).
  split.
  - refine (A forecast
              {| date := js "3日"; weather := js "晴れ";
                 temperature := js "24℃"; precipitation := js "10%" |} _).
    vm_compute. reflexivity.
  - destruct (B forecast
                [ {| ThreeDay.date := js "3日"; ThreeDay.weather := js "晴れ";
                     ThreeDay.maxTemp := js "不明";
                     ThreeDay.minTemp := js "16℃" |};
                  {| ThreeDay.date := js "4日"; ThreeDay.weather := js "雨";
                     ThreeDay.maxTemp := js "不明";
                     ThreeDay.minTemp := js "26℃" |};
                  {| ThreeDay.date := js "5日"; ThreeDay.weather := js "曇り";
                     ThreeDay.maxTemp := js "不明";
                     ThreeDay.minTemp := js "不明" |} ]) as (Len & Rows).
    + vm_compute. reflexivity.
    + split; [exact Len|].
      exact (Rows _ (or_intror (or_intror (or_introl eq_refl)))).
Defined.

Lemma reachable_invariant_witness :
  error (view (browsing (H := jst_host))) = None /\
  (List.length
     [ {| ThreeDay.date := js "3日"; ThreeDay.weather := js "晴れ";
          ThreeDay.maxTemp := js "不明"; ThreeDay.minTemp := js "16℃" |};
       {| ThreeDay.date := js "4日"; ThreeDay.weather := js "雨";
          ThreeDay.maxTemp := js "不明"; ThreeDay.minTemp := js "26℃" |};
       {| ThreeDay.date := js "5日"; ThreeDay.weather := js "曇り";
          ThreeDay.maxTemp := js "不明"; ThreeDay.minTemp := js "不明" |} ]
   <= 3)%nat.
Proof.
  destruct (reachable_invariant (H := jst_host) browsing browsing_reachable)
    as (A & B).
  split.
  - apply A. vm_compute. reflexivity.
  - apply B. vm_compute. reflexivity.
Defined.

Lemma summaries_persist_witness :
  is_some (weatherData
             (view (step (H := jst_host) browsing (Settle 0 unreachable))))
  = true /\
  is_some (threeDayWeather
             (view (step (H := jst_host) browsing (Settle 0 unreachable))))
  = true.
Proof.
  destruct (summaries_persist (H := jst_host) browsing (Settle 0 unreachable))
    as (A & B).
  split; [apply A|apply B]; vm_compute; reflexivity.
Defined.

Lemma Click_area_effect_witness :
  step (H := jst_host) mounted (Click_area Tokyo) = mounted /\
  step (H := jst_host) mounted (Click_area Osaka)
  = {| view := {| selectedArea := Osaka; weatherData := None;
                  threeDayWeather := None; error := None; isLoading := true;
                  viewMode := today |};
       pending := [Tokyo; Osaka] |}.
Proof.
  split.
  - exact (proj1 (Click_area_effect (H := jst_host) mounted Tokyo) eq_refl).
  - refine (proj2 (Click_area_effect (H := jst_host) mounted Osaka) _).
    discriminate.
Defined.

Lemma stale_response_stored_witness :
  selectedArea (view (step (H := jst_host) overtaken (Settle 0 (serve forecast))))
  = Osaka /\
  weatherData (view (step (H := jst_host) overtaken (Settle 0 (serve forecast))))
  = Some {| date := js "3日"; weather := js "晴れ";
            temperature := js "24℃"; precipitation := js "10%" |} /\
  isLoading (view (step (H := jst_host) overtaken (Settle 0 (serve forecast))))
  = false /\
  In Osaka (pending (step (H := jst_host) overtaken (Settle 0 (serve forecast)))).
Proof.
  refine (stale_response_stored (H := jst_host) overtaken 0 (serve forecast)
            Tokyo forecast
            {| date := js "3日"; weather := js "晴れ";
               temperature := js "24℃"; precipitation := js "10%" |}
            (Some [ {| ThreeDay.date := js "3日"; ThreeDay.weather := js "晴れ";
                       ThreeDay.maxTemp := js "不明";
                       ThreeDay.minTemp := js "16℃" |};
                    {| ThreeDay.date := js "4日"; ThreeDay.weather := js "雨";
                       ThreeDay.maxTemp := js "不明";
                       ThreeDay.minTemp := js "26℃" |};
                    {| ThreeDay.date := js "5日"; ThreeDay.weather := js "曇り";
                       ThreeDay.maxTemp := js "不明";
                       ThreeDay.minTemp := js "不明" |} ])
            eq_refl _ (or_intror (or_introl eq_refl)) eq_refl eq_refl _ _).
  - discriminate.
  - vm_compute. reflexivity.
  - vm_compute. reflexivity.
Defined.

Lemma rejected_cycle_keeps_loading_witness :
  view (step (H := jst_host) mounted (Settle 0 (serve (VObj hidden_length))))
  = view mounted /\
  isLoading (view mounted) = true /\
  fetchData (H := jst_host) (serve (VObj hidden_length)) initial_state
  = Throw TypeError.
Proof.
  destruct (rejected_cycle_keeps_loading (H := jst_host) mounted 0
              (serve (VObj hidden_length)) Tokyo (VObj hidden_length) TypeError
              eq_refl eq_refl eq_refl eq_refl) as (A & B).
  split; [exact A|]. split; [reflexivity|exact (B initial_state eq_refl)].
Defined.

Lemma falsy_body_is_no_data_witness :
  fetchData (H := jst_host) (serve (num 0)) initial_state
  = Ok {| selectedArea := Tokyo; weatherData := None; threeDayWeather := None;
          error := Some (js "天気データを取得できませんでした");
          isLoading := false; viewMode := today |} /\
  fetchData (H := jst_host) (serve (num 0)) initial_state
  = fetchData (H := jst_host) unreachable initial_state.
Proof.
  exact (falsy_body_is_no_data (H := jst_host) (serve (num 0)) initial_state
           {| ok := true; json := Ok (num 0) |} (num 0)
           eq_refl eq_refl eq_refl eq_refl).
Defined.

(** After the clicks 大阪, 東京, 大阪 two fetches of 大阪 are in flight; the
    second to settle changes nothing. *)
Lemma repeated_response_changes_nothing_witness :
  view (step (step (fold_left step
                      [Click_area Osaka; Click_area Tokyo; Click_area Osaka]
                      mounted)
                (Settle 1 (serve forecast)))
          (Settle 2 (serve forecast)))
  = view (step (fold_left step
                  [Click_area Osaka; Click_area Tokyo; Click_area Osaka]
                  mounted)
            (Settle 1 (serve forecast))).
Proof.
  apply (repeated_response_changes_nothing (H := jst_host)
           (fold_left step
              [Click_area Osaka; Click_area Tokyo; Click_area Osaka] mounted)
           1 2 (serve forecast) (serve forecast) Osaka Osaka).
  - reflexivity.
  - vm_compute. reflexivity.
  - reflexivity.
Defined.

(** Both summaries on the screen, then a region whose fetch fails: the
    error paragraph is shown and the summaries are still in the state. *)
Lemma error_hides_data_witness :
  content (view (step browsing (Settle 0 unreachable)))
  = Element "p" [Color "red"]
      [Text (js "エラー: "); Text (js "天気データを取得できませんでした")] /\
  is_some (weatherData (view (step browsing (Settle 0 unreachable)))) = true /\
  is_some (threeDayWeather (view (step browsing (Settle 0 unreachable)))) = true.
Proof.
  split.
  - refine (proj1 (error_hides_data (H := jst_host)
                     (step browsing (Settle 0 unreachable))
                     (js "天気データを取得できませんでした") _ _ _)).
    + constructor. exact browsing_reachable.
    + vm_compute. reflexivity.
    + vm_compute. reflexivity.
  - split; vm_compute; reflexivity.
Defined.

Lemma table_shape_witness :
  map (fun r => List.length (children_of r))
    (table_rows
       (three_day_table
          [ {| ThreeDay.date := js "3日"; ThreeDay.weather := js "晴れ";
               ThreeDay.maxTemp := js "25℃"; ThreeDay.minTemp := js "15℃" |};
            {| ThreeDay.date := js "4日"; ThreeDay.weather := js "雨";
               ThreeDay.maxTemp := js "26℃"; ThreeDay.minTemp := js "不明" |} ]))
  = [3; 3; 3; 3]%nat /\
  map (fun r => option_map text_content (nth_error (children_of r) 2))
    (table_rows
       (three_day_table
          [ {| ThreeDay.date := js "3日"; ThreeDay.weather := js "晴れ";
               ThreeDay.maxTemp := js "25℃"; ThreeDay.minTemp := js "15℃" |};
            {| ThreeDay.date := js "4日"; ThreeDay.weather := js "雨";
               ThreeDay.maxTemp := js "26℃"; ThreeDay.minTemp := js "不明" |} ]))
  = [Some (js "4日"); Some (js "雨"); Some (js "26℃"); Some (js "不明")].
Proof.
  destruct (table_shape
              [ {| ThreeDay.date := js "3日"; ThreeDay.weather := js "晴れ";
                   ThreeDay.maxTemp := js "25℃"; ThreeDay.minTemp := js "15℃" |};
                {| ThreeDay.date := js "4日"; ThreeDay.weather := js "雨";
                   ThreeDay.maxTemp := js "26℃"; ThreeDay.minTemp := js "不明" |} ])
    as (A & B).
  split; [exact A|].
  exact (B 1%nat
           {| ThreeDay.date := js "4日"; ThreeDay.weather := js "雨";
              ThreeDay.maxTemp := js "26℃"; ThreeDay.minTemp := js "不明" |}
           eq_refl).
Defined.

Lemma table_on_screen_witness :
  (List.length
     (children_of
        (nth 0
           (table_rows
              (content
                 (view (step (H := jst_host)
                          (step (H := jst_host) mounted
                             (Settle 0 (serve forecast)))
                          (Click_viewMode three_day)))))
           (Text [])))
   <= 4)%nat.
Proof.
  apply (table_on_screen (H := jst_host)
           (step (step mounted (Settle 0 (serve forecast)))
              (Click_viewMode three_day))).
  - constructor. constructor. constructor.
  - vm_compute. left. reflexivity.
Defined.
